(** * K2400 maximum power point tracker: a shallow embedding

    The tracker of [K2400_MPP_tracking.py] drives a Keithley 2400 source
    meter and an optional NI-DAQmx shutter.  Python floats and numpy
    [float64] values are IEEE binary64 numbers: they are modelled by Rocq's
    primitive floats, so every arithmetic step and comparison below rounds
    exactly as the program does. *)

From Stdlib Require Import Floats ZArith List Bool String Lia.
Import ListNotations.

Set Warnings "-inexact-float".

Local Open Scope float_scope.

(** ** Python numbers *)

(** [float(n)] for a Python int [n]: the correctly rounded binary64 value. *)
Definition float_of_int (n : Z) : float :=
  SF2Prim (binary_normalize prec emax n 0 false).

(** [n * x] for an int [n] and a float [x]: the int is converted first. *)
Definition int_times_float (n : Z) (x : float) : float :=
  float_of_int n * x.

(** Python's [a > b] and [a < b] on floats. *)
Definition py_gt (a b : float) : bool := b <? a.
Definition py_lt (a b : float) : bool := a <? b.

(** ** The perturb-and-observe update (lines 389-395)

    The tracking loop keeps [self.Vmpp], [self.v_step] and the two locals
    [direction] and [previous_power]. *)

Record pno_state := mk_pno {
  pno_Vmpp : float;
  pno_v_step : float;
  pno_direction : Z;
  pno_previous_power : float
}.

Definition perturb_and_observe (power : float) (s : pno_state) : pno_state :=
  if py_gt power (pno_previous_power s) then
    (* self.Vmpp += direction * self.v_step *)
    mk_pno (pno_Vmpp s + int_times_float (pno_direction s) (pno_v_step s))
           (pno_v_step s)
           (pno_direction s)
           power
  else
    (* direction *= -1 ; self.Vmpp += direction * self.v_step *)
    let direction := (pno_direction s * -1)%Z in
    mk_pno (pno_Vmpp s + int_times_float direction (pno_v_step s))
           (pno_v_step s)
           direction
           power.

(** The directions held after each reading of a sequence of powers. *)
Fixpoint directions_after (powers : list float) (s : pno_state) : list Z :=
  match powers with
  | [] => []
  | p :: rest =>
      let s' := perturb_and_observe p s in
      pno_direction s' :: directions_after rest s'
  end.

Definition synthetic_powers : list float := [1.0; 1.2; 0.9; 0.9; 1.1].

(** ** numpy on the sweep arrays *)

(** [np.argmax] of a one-dimensional float64 array with first element [mp]:
    the scan keeps the first maximum and stops at the first NaN.
    [best] is the index kept so far and [k] the index of the head of [l]. *)
Fixpoint argmax_scan (mp : float) (best k : nat) (l : list float) : nat :=
  match l with
  | [] => best
  | x :: rest =>
      if negb (x <=? mp) then
        if is_nan x then k else argmax_scan x k (S k) rest
      else argmax_scan mp best (S k) rest
  end.

(** [np.argmax(p)]; numpy raises ValueError on an empty array ([None]). *)
Definition np_argmax (p : list float) : option nat :=
  match p with
  | [] => None
  | x :: rest => Some (if is_nan x then O else argmax_scan x 0 1 rest)
  end.

(** One row of the reshaped reply of [READ?]: voltage, current, time. *)
Definition reading : Type := (float * float * float)%type.

Definition rd_v (r : reading) : float := fst (fst r).
Definition rd_i (r : reading) : float := snd (fst r).
Definition rd_t (r : reading) : float := snd r.

(** [p = abs(v*i)] on the columns [v = jv_sweep[:,0]], [i = jv_sweep[:,1]]. *)
Definition sweep_power (jv_sweep : list reading) : list float :=
  map (fun r => abs (rd_v r * rd_i r)) jv_sweep.

(** The numeric part of [determine_initial_Vmpp] (lines 233-238):
    [(Isc, mpp_ind, Vmpp)], or [None] where [i[-1]] raises IndexError. *)
Definition analyse_sweep (jv_sweep : list reading) : option (float * nat * float) :=
  match jv_sweep with
  | [] => None
  | r0 :: _ =>
      let v := map rd_v jv_sweep in
      let i := map rd_i jv_sweep in
      let Isc := last i (rd_i r0) in
      match np_argmax (sweep_power jv_sweep) with
      | None => None
      | Some mpp_ind => Some (Isc, mpp_ind, nth mpp_ind v (rd_v r0))
      end
  end.

(** ** The outside world *)

(** What argparse makes of the command line (lines 408-413). *)
Inductive command_line :=
| AskedForHelp   (* -h or --help: the help is printed, the status is 0 *)
| Rejected       (* an argument that argparse refuses: the status is 2 *)
| Parsed.        (* the arguments of the record below *)

(** What the command line, the instrument, the DAQ card and the user do
    during one run.  The three positional arguments are given.  The replies
    are those of a Keithley 2400 configured with
    [:format:elements voltage,current,time]: each reading is a triple.
    Instrument I/O after a successful initialisation does not fail here;
    of the plotting calls, those that set an axis limit can fail. *)
Record environment := mk_env {
  argv : command_line;
  (* command-line arguments *)
  address : string;
  total_tracking_time : float;   (* an int on the command line *)
  device_area : float;
  shutterOut : string;
  (* the step of the try block of initialise_keithley that raises, if any:
     0 ResourceManager(), 1 open_resource, 2..7 the six writes *)
  keithley_fault : option nat;
  (* the step of the try block of initialise_shutter_control that raises,
     if any: 0 Task(), 1 add_do_chan, 2 start, 3 write *)
  shutter_fault : option nat;
  voc_reply : reading;           (* READ? of find_open_circuit *)
  step_reply : float;            (* :source:voltage:step? *)
  sweep_reply : list reading;    (* READ? of the sweep, reshaped *)
  read_reply : nat -> reading;   (* the n-th single READ? after the sweep *)
  (* the loop iteration, counted over the walk-in and the tracking loop,
     at whose start the user's Ctrl-C is delivered *)
  sigint : option nat
}.

Inductive event :=
| VisaOpen (addr : string)
| VisaWrite (cmd : string)
| VisaWriteF (cmd fmt : string) (x : float)   (* an f-string with one float *)
| VisaWriteD (cmd : string) (n : Z)           (* an f-string with one int *)
| VisaQuery (cmd : string)
| VisaClose
| DaqTask
| DaqAddChannel (chan : string)
| DaqStart
| DaqWrite (line : bool)
| DaqStop
| DaqClose
| Console (msg : string)
| LogOpen
| LogLine (t v i : float)
| LogClose
| Sleep (seconds : Z)
| PlotSweep (maxIndex : nat)
| PlotInit
| PlotDraw
| PlotOff.

Inductive exn :=
| SystemExit (code : Z)
| KeyboardInterrupt
| UnboundLocalError
| IndexError
| TypeError
| ZeroDivisionError
| ValueError
| VisaIOError
| DaqError.

(** A reference that is either [None] or an object of a driver. *)
Inductive ref := PyNone | PyObject.

(** The attributes of the [MaximumPowerPointTracker] object. *)
Record tracker := mk_tracker {
  K2400 : ref;                  (* the pyvisa resource *)
  task : ref;                   (* the nidaqmx Task *)
  start_time : option float;
  v_step : float;
  Voc : float;
  Isc : float;
  Vmpp : float;
  v_data : list float;
  i_data : list float;
  t_data : list float;
  efficiencies : list float
}.

(** The state of a run: the object, everything done to the outside so far
    (oldest first), the number of single readings consumed, the number of
    loop iterations begun, and the locals [K2400] and [task] of the two
    initialisers (bound or not), which their handlers read. *)
Record world := mk_world {
  self : tracker;
  trace : list event;
  reads : nat;
  iterations : nat;
  local_K2400 : bool;
  local_task : bool
}.

Definition with_self (f : tracker -> tracker) (w : world) : world :=
  mk_world (f (self w)) (trace w) (reads w) (iterations w) (local_K2400 w) (local_task w).

Definition set_K2400 (b : ref) (s : tracker) : tracker :=
  mk_tracker b (task s) (start_time s) (v_step s) (Voc s) (Isc s) (Vmpp s)
             (v_data s) (i_data s) (t_data s) (efficiencies s).
Definition set_task (b : ref) (s : tracker) : tracker :=
  mk_tracker (K2400 s) b (start_time s) (v_step s) (Voc s) (Isc s) (Vmpp s)
             (v_data s) (i_data s) (t_data s) (efficiencies s).
Definition set_start_time (t : float) (s : tracker) : tracker :=
  mk_tracker (K2400 s) (task s) (Some t) (v_step s) (Voc s) (Isc s) (Vmpp s)
             (v_data s) (i_data s) (t_data s) (efficiencies s).
Definition set_v_step (x : float) (s : tracker) : tracker :=
  mk_tracker (K2400 s) (task s) (start_time s) x (Voc s) (Isc s) (Vmpp s)
             (v_data s) (i_data s) (t_data s) (efficiencies s).
Definition set_Voc (x : float) (s : tracker) : tracker :=
  mk_tracker (K2400 s) (task s) (start_time s) (v_step s) x (Isc s) (Vmpp s)
             (v_data s) (i_data s) (t_data s) (efficiencies s).
Definition set_Isc (x : float) (s : tracker) : tracker :=
  mk_tracker (K2400 s) (task s) (start_time s) (v_step s) (Voc s) x (Vmpp s)
             (v_data s) (i_data s) (t_data s) (efficiencies s).
Definition set_Vmpp (x : float) (s : tracker) : tracker :=
  mk_tracker (K2400 s) (task s) (start_time s) (v_step s) (Voc s) (Isc s) x
             (v_data s) (i_data s) (t_data s) (efficiencies s).
Definition push_t_data (x : float) (s : tracker) : tracker :=
  mk_tracker (K2400 s) (task s) (start_time s) (v_step s) (Voc s) (Isc s) (Vmpp s)
             (v_data s) (i_data s) (t_data s ++ [x]) (efficiencies s).
Definition push_v_data (x : float) (s : tracker) : tracker :=
  mk_tracker (K2400 s) (task s) (start_time s) (v_step s) (Voc s) (Isc s) (Vmpp s)
             (v_data s ++ [x]) (i_data s) (t_data s) (efficiencies s).
Definition push_i_data (x : float) (s : tracker) : tracker :=
  mk_tracker (K2400 s) (task s) (start_time s) (v_step s) (Voc s) (Isc s) (Vmpp s)
             (v_data s) (i_data s ++ [x]) (t_data s) (efficiencies s).
Definition push_efficiencies (x : float) (s : tracker) : tracker :=
  mk_tracker (K2400 s) (task s) (start_time s) (v_step s) (Voc s) (Isc s) (Vmpp s)
             (v_data s) (i_data s) (t_data s) (efficiencies s ++ [x]).

(** The object as [__init__] sets it before [initialise] (lines 47-54). *)
Definition new_tracker : tracker :=
  mk_tracker PyNone PyNone None 0 0 0 0 [] [] [] [].

Definition initial_world : world :=
  mk_world new_tracker [] 0 0 false false.

(** ** A monad for Python statements

    A statement runs in a world and either completes, raises, or (for the
    two loops, which are run with fuel) is cut off. *)
Inductive result (A : Type) :=
| Ok (a : A) (w : world)
| Raise (e : exn) (w : world)
| OutOfFuel (w : world).
Arguments Ok {A} a w.
Arguments Raise {A} e w.
Arguments OutOfFuel {A} w.

Definition M (A : Type) : Type := world -> result A.

Definition ret {A} (a : A) : M A := fun w => Ok a w.

Definition bind {A B} (m : M A) (k : A -> M B) : M B :=
  fun w =>
    match m w with
    | Ok a w' => k a w'
    | Raise e w' => Raise e w'
    | OutOfFuel w' => OutOfFuel w'
    end.

Notation "x <- m ;; k" := (bind m (fun x => k))
  (at level 61, m at next level, right associativity).
Notation "m ;; k" := (bind m (fun _ => k))
  (at level 61, right associativity).

Definition raise {A} (e : exn) : M A := fun w => Raise e w.

Definition get : M world := fun w => Ok w w.

Definition modify (f : world -> world) : M unit := fun w => Ok tt (f w).

(** The world after the events [es], after one more single reading, and
    after one more loop iteration has begun. *)
Definition add_events (es : list event) (w : world) : world :=
  mk_world (self w) (trace w ++ es) (reads w) (iterations w)
           (local_K2400 w) (local_task w).

Definition count_read (w : world) : world :=
  mk_world (self w) (trace w) (S (reads w)) (iterations w)
           (local_K2400 w) (local_task w).

Definition count_iteration (w : world) : world :=
  mk_world (self w) (trace w) (reads w) (S (iterations w))
           (local_K2400 w) (local_task w).

Definition emit (e : event) : M unit := modify (add_events [e]).

(** [try: body  except: handler] (a bare except catches everything). *)
Definition try_except {A} (body handler : M A) : M A :=
  fun w =>
    match body w with
    | Raise _ w' => handler w'
    | r => r
    end.

(** [try: body  except KeyboardInterrupt: handler]. *)
Definition try_except_KeyboardInterrupt {A} (body handler : M A) : M A :=
  fun w =>
    match body w with
    | Raise KeyboardInterrupt w' => handler w'
    | r => r
    end.

(** The status the process ends with: 0 when the script runs off its end,
    the code of [sys.exit], a non-zero status for an unhandled exception
    (130, death by SIGINT, for KeyboardInterrupt and 1 for any other). *)
Definition exit_status {A} (r : result A) : option Z :=
  match r with
  | Ok _ _ => Some 0%Z
  | Raise (SystemExit c) _ => Some c
  | Raise KeyboardInterrupt _ => Some 130%Z
  | Raise _ _ => Some 1%Z
  | OutOfFuel _ => None
  end.

Definition final_world {A} (r : result A) : world :=
  match r with
  | Ok _ w | Raise _ w | OutOfFuel w => w
  end.

Definition set_local_K2400 (b : bool) : M unit :=
  modify (fun w => mk_world (self w) (trace w) (reads w) (iterations w) b (local_task w)).

Definition set_local_task (b : bool) : M unit :=
  modify (fun w => mk_world (self w) (trace w) (reads w) (iterations w) (local_K2400 w) b).

(** Python's [a / b] on floats raises ZeroDivisionError on a zero divisor. *)
Definition py_div (a b : float) : M float :=
  if b =? 0 then raise ZeroDivisionError else ret (a / b).

(** Python's builtin [max] over a sequence with first item [x]: an item
    replaces the one kept when it compares greater. *)
Definition py_max (x : float) (rest : list float) : float :=
  fold_left (fun kept item => if py_gt item kept then item else kept) rest x.

(** [ax.set_xlim(0, hi)] and [ax.set_ylim(0, hi)]: matplotlib refuses a
    limit that is NaN or infinite with ValueError; two equal limits only
    give a warning. *)
Definition set_lim (hi : float) : M unit :=
  if is_finite hi then ret tt else raise ValueError.

(** ** The program *)

Section Program.

Variable E : environment.

(** A step of an initialiser's try block that the environment may fail. *)
Definition may_fail (fault : option nat) (k : nat) (e : exn) : M unit :=
  match fault with
  | Some j => if Nat.eqb j k then raise e else ret tt
  | None => ret tt
  end.

(** [write_to_console]; the numbers that the f-strings of the messages
    format are left out of the text. *)
Definition write_to_console (msg : string) : M unit := emit (Console msg).

Definition write_data_to_file (t v i : float) : M unit := emit (LogLine t v i).

(** A single-point [READ?]: the next reply of the instrument. *)
Definition read_one : M reading :=
  emit (VisaQuery "READ?") ;;
  w <- get ;;
  modify count_read ;;
  ret (read_reply E (reads w)).

(** The start of a loop iteration, where a pending Ctrl-C is delivered. *)
Definition loop_boundary : M unit :=
  w <- get ;;
  match sigint E with
  | Some k =>
      if Nat.eqb k (iterations w) then raise KeyboardInterrupt
      else modify count_iteration
  | None => modify count_iteration
  end.

(** [initialise_keithley] (lines 88-116).  The double quotes inside the
    fifth command are written as single quotes here. *)
Definition initialise_keithley : M ref :=
  set_local_K2400 false ;;                              (* a new frame *)
  try_except
    (may_fail (keithley_fault E) 0 VisaIOError ;;       (* rm = visa.ResourceManager() *)
     may_fail (keithley_fault E) 1 VisaIOError ;;
     emit (VisaOpen (address E)) ;;
     set_local_K2400 true ;;                             (* K2400 = rm.open_resource(...) *)
     may_fail (keithley_fault E) 2 VisaIOError ;;
     emit (VisaWrite "*RST") ;;
     may_fail (keithley_fault E) 3 VisaIOError ;;
     emit (VisaWrite ":trace:clear") ;;
     may_fail (keithley_fault E) 4 VisaIOError ;;
     emit (VisaWrite ":system:azero on") ;;
     may_fail (keithley_fault E) 5 VisaIOError ;;
     emit (VisaWrite ":sense:function:concurrent on") ;;
     may_fail (keithley_fault E) 6 VisaIOError ;;
     emit (VisaWrite ":sense:function 'current:dc', 'voltage:dc'") ;;
     may_fail (keithley_fault E) 7 VisaIOError ;;
     emit (VisaWrite ":format:elements voltage,current,time") ;;
     write_to_console "Keithley 2400 successfully initialised." ;;
     ret PyObject)
    (write_to_console "Unable to connect to Keithley 2400." ;;
     try_except
       (w <- get ;;
        if local_K2400 w then emit VisaClose else raise UnboundLocalError)
       (ret tt) ;;
     raise (SystemExit 1)).

(** [initialise_shutter_control] (lines 119-141). *)
Definition initialise_shutter_control : M ref :=
  set_local_task false ;;                               (* a new frame *)
  try_except
    (may_fail (shutter_fault E) 0 DaqError ;;
     emit DaqTask ;;
     set_local_task true ;;                              (* task = Task() *)
     may_fail (shutter_fault E) 1 DaqError ;;
     emit (DaqAddChannel (shutterOut E)) ;;
     may_fail (shutter_fault E) 2 DaqError ;;
     emit DaqStart ;;
     may_fail (shutter_fault E) 3 DaqError ;;
     emit (DaqWrite false) ;;
     write_to_console "DAQ task initialised for automatic shutter control." ;;
     ret PyObject)
    (write_to_console "Could not initialise shutter control. Manually control shutter." ;;
     w <- get ;;
     (if local_task w then emit DaqStop ;; emit DaqClose   (* if task: *)
      else raise UnboundLocalError) ;;
     ret PyNone).

(** [initialise] (lines 82-85). *)
Definition initialise : M unit :=
  k <- initialise_keithley ;;
  modify (with_self (set_K2400 k)) ;;
  t <- initialise_shutter_control ;;
  modify (with_self (set_task t)).

(** [__init__] (lines 45-69); the object starts as [new_tracker]. *)
Definition init : M unit :=
  emit LogOpen ;;
  initialise ;;
  write_to_console "minutes MPP tracking.".

(** [find_open_circuit] (lines 144-167). *)
Definition find_open_circuit : M unit :=
  emit (VisaWrite ":source:function current") ;;
  emit (VisaWrite ":source:current:mode fixed") ;;
  emit (VisaWrite ":source:current:range min") ;;
  emit (VisaWrite ":source:current 0") ;;
  emit (VisaWrite "sense:voltage:protection 10") ;;
  emit (VisaWrite "sense:voltage:range 10") ;;
  emit (VisaWrite ":sense:voltage:nplcycles 1") ;;
  emit (VisaWrite ":sense:current:nplcycles 1") ;;
  emit (VisaWrite ":display:digits 7") ;;
  emit (VisaWrite ":output on") ;;
  write_to_console "Holding device at 0 current for 5 seconds before measuring Voc." ;;
  emit (Sleep 5) ;;
  write_to_console "Measuring open circuit voltage." ;;
  emit (VisaQuery "READ?") ;;
  modify (with_self (set_Voc (rd_v (voc_reply E)))) ;;
  write_to_console "Device Voc" ;;
  emit (VisaWrite ":output off").

(** [plot_sweep] (lines 170-195); [p] is the power array.  The figure is
    shown by the last statement. *)
Definition plot_sweep (p : list float) (maxIndex : nat) : M unit :=
  w <- get ;;
  set_lim (Voc (self w)) ;;                    (* ax.set_xlim(0, self.Voc) *)
  set_lim (abs (Isc (self w)) * 1.1) ;;        (* ax.set_ylim(0, abs(self.Isc)*1.1) *)
  match p with
  | [] => raise ValueError                     (* max of an empty sequence *)
  | x :: rest => set_lim (py_max x rest * 1.1) (* ax2.set_ylim(0, max(p)*1.1) *)
  end ;;
  emit (PlotSweep maxIndex).                   (* plt.show(block=False) *)

Definition n_points : Z := 600.
Definition current_compliance : float := 0.04.

(** [determine_initial_Vmpp] (lines 198-241). *)
Definition determine_initial_Vmpp : M unit :=
  find_open_circuit ;;
  write_to_console "Sweeping from Voc to 0 V to find initial Vmpp." ;;
  w <- get ;;
  emit (VisaWrite ":source:function voltage") ;;
  emit (VisaWrite ":source:voltage:mode sweep") ;;
  emit (VisaWrite ":source:sweep:spacing linear") ;;
  emit (VisaWrite ":source:delay 0.05") ;;
  emit (VisaWriteD "trigger:count " n_points) ;;
  emit (VisaWriteD ":source:sweep:points " n_points) ;;
  emit (VisaWriteF ":source:voltage:start " ".4f" (Voc (self w))) ;;
  emit (VisaWrite ":source:voltage:stop 0.0000") ;;
  emit (VisaQuery ":source:voltage:step?") ;;
  modify (with_self (set_v_step (abs (step_reply E)))) ;;
  emit (VisaWriteF ":source:voltage:range " ".4f" (Voc (self w))) ;;
  emit (VisaWrite ":source:sweep:ranging best") ;;
  emit (VisaWriteF ":sense:current:protection " ".6f" current_compliance) ;;
  emit (VisaWriteF ":sense:current:range " ".6f" current_compliance) ;;
  emit (VisaWrite ":sense:voltage:nplcycles 0.5") ;;
  emit (VisaWrite ":sense:current:nplcycles 0.5") ;;
  emit (VisaWrite ":display:digits 5") ;;
  emit (VisaWriteF ":source:voltage " "0.4f" (Voc (self w))) ;;
  emit (VisaWrite ":output on") ;;
  emit (VisaQuery "READ?") ;;
  match analyse_sweep (sweep_reply E) with
  | None => raise IndexError
  | Some (isc, mpp_ind, vmpp) =>
      modify (with_self (set_Isc isc)) ;;
      modify (with_self (set_Vmpp vmpp)) ;;
      write_to_console "Initial Mpp found:" ;;
      write_to_console "mW @ V" ;;
      plot_sweep (sweep_power (sweep_reply E)) mpp_ind
  end.

(** [initialise_interactive_plot] (lines 244-271): the figure is created
    first, then the limits of its three axes are set.  [self.Isc] is a
    numpy float64, so the division by a zero area does not raise: it gives
    an infinity or NaN. *)
Definition initialise_interactive_plot : M unit :=
  emit PlotInit ;;                             (* plt.ion(); plt.subplots(3, 1) *)
  w <- get ;;
  set_lim (total_tracking_time E) ;;
  set_lim 23 ;;
  set_lim (total_tracking_time E) ;;
  set_lim (Voc (self w)) ;;
  set_lim (total_tracking_time E) ;;
  set_lim (abs (Isc (self w) * 1000 / device_area E) * 1.1).

(** [update_plot] (lines 274-315). *)
Definition update_plot (v i tx : float) : M unit :=
  w <- get ;;
  match start_time (self w) with
  | None => raise TypeError
  | Some t0 =>
      modify (with_self (push_t_data (tx - t0))) ;;
      modify (with_self (push_v_data v)) ;;
      j <- py_div (i * 1000) (device_area E) ;;
      modify (with_self (push_i_data (abs j))) ;;
      (* calculate_eff(v, i) *)
      j <- py_div (i * 1000) (device_area E) ;;
      let efficiency := abs (v * j) in
      modify (with_self (push_efficiencies efficiency)) ;;
      emit PlotDraw
  end.

(** [shutdown] (lines 333-348). *)
Definition shutdown : M unit :=
  w <- get ;;
  match task (self w) with
  | PyObject => emit (DaqWrite true) ;; emit DaqStop ;; emit DaqClose
  | PyNone => ret tt
  end ;;
  emit PlotOff ;;
  emit LogClose ;;
  write_to_console "Keithley and USB6501 shutdown completed. Log file closed. Exiting." ;;
  raise (SystemExit 0).

(** [check_runtime] (lines 318-330). *)
Definition check_runtime (tx : float) : M unit :=
  w <- get ;;
  match start_time (self w) with
  | None => raise TypeError
  | Some t0 =>
      let t_measurement := tx - t0 in
      if py_gt t_measurement (total_tracking_time E) then shutdown else ret tt
  end.

(** The walk-in loop (lines 367-373); [v] and [i] are the locals of
    [track_maximum_power_point] that the loop rebinds. *)
Fixpoint walk_in (fuel : nat) (V_set v i : float) : M (float * float) :=
  w <- get ;;
  if py_lt V_set (Vmpp (self w)) then
    match fuel with
    | O => fun w => OutOfFuel w
    | S fuel' =>
        loop_boundary ;;
        emit (VisaWriteF ":source:voltage " "" V_set) ;;
        r <- read_one ;;
        let '(v, i, tx) := r in
        update_plot v i tx ;;
        let V_set := V_set + (v_step (self w)) in
        check_runtime tx ;;
        w' <- get ;;
        match start_time (self w') with
        | None => raise TypeError
        | Some t0 => write_data_to_file (tx - t0) v i
        end ;;
        walk_in fuel' V_set v i
    end
  else ret (v, i).

(** One pass of the body of [while True] (lines 383-395). *)
Definition track_cycle (direction : Z) (previous_power : float) : M (Z * float) :=
  w <- get ;;
  emit (VisaWriteF ":source:voltage " "0.4f" (Vmpp (self w))) ;;
  r <- read_one ;;
  let '(v, i, tx) := r in
  let power := abs (v * i) in
  check_runtime tx ;;
  update_plot v i tx ;;
  w <- get ;;
  let s := perturb_and_observe power
             (mk_pno (Vmpp (self w)) (v_step (self w)) direction previous_power) in
  modify (with_self (set_Vmpp (pno_Vmpp s))) ;;
  ret (pno_direction s, pno_previous_power s).

(** The [while True] loop (lines 382-395). *)
Fixpoint track_loop (fuel : nat) (direction : Z) (previous_power : float) : M unit :=
  match fuel with
  | O => fun w => OutOfFuel w
  | S fuel' =>
      loop_boundary ;;
      s <- track_cycle direction previous_power ;;
      track_loop fuel' (fst s) (snd s)
  end.

(** [track_maximum_power_point] (lines 351-397), in its two halves.
    Lines 358-376: the sweep, the reading that gives [start_time] and the
    walk-in; the result is the pair of locals [(v, i)] as line 378 finds
    them. *)
Definition walk_back_to_Vmpp (fuel : nat) : M (float * float) :=
  determine_initial_Vmpp ;;
  write_to_console "Walking back to the initial Vmpp..." ;;
  initialise_interactive_plot ;;
  let V_set := 0 in
  emit (VisaWrite ":source:voltage:mode fixed") ;;
  emit (VisaWrite ":trigger:count 1") ;;
  r <- read_one ;;
  let '(v, i, t) := r in
  modify (with_self (set_start_time t)) ;;
  vi <- walk_in fuel V_set v i ;;
  w <- get ;;
  emit (VisaWriteF ":source:voltage " "0.4f" (Vmpp (self w))) ;;
  write_to_console "Device at Vmpp. Beginning MPP tracking." ;;
  ret vi.

(** Lines 378-397: the tracking loop and its interrupt handler. *)
Definition track_from (fuel : nat) (v i : float) : M unit :=
  let previous_power := abs (v * i) in
  let direction := 1%Z in
  try_except_KeyboardInterrupt
    (track_loop fuel direction previous_power)
    shutdown.

Definition track_maximum_power_point (fuel : nat) : M unit :=
  vi <- walk_back_to_Vmpp fuel ;;
  let '(v, i) := vi in
  track_from fuel v i.

(** [parse_arguments] (lines 400-413): argparse leaves the process by
    itself when it is asked for help or refuses an argument. *)
Definition parse_arguments : M unit :=
  match argv E with
  | AskedForHelp => emit (Console "usage") ;; raise (SystemExit 0)
  | Rejected => raise (SystemExit 2)
  | Parsed => ret tt
  end.

(** The script (lines 416-419). *)
Definition main (fuel : nat) : M unit :=
  parse_arguments ;;
  init ;;
  track_maximum_power_point fuel.

Definition run (fuel : nat) : result unit := main fuel initial_world.

End Program.

(** ** What a trace says about the two ports and the log *)

(** The state of the source output after a trace: [*RST] and
    [:output off] switch it off, [:output on] switches it on. *)
Definition output_after (on : bool) (e : event) : bool :=
  match e with
  | VisaWrite cmd =>
      if String.eqb cmd ":output on" then true
      else if String.eqb cmd ":output off" then false
      else if String.eqb cmd "*RST" then false
      else on
  | _ => on
  end.

Definition output_on (tr : list event) : bool := fold_left output_after tr false.

(** The level last written to the shutter line, if any ([true] is closed). *)
Definition shutter_after (s : option bool) (e : event) : option bool :=
  match e with
  | DaqWrite b => Some b
  | _ => s
  end.

Definition shutter_line (tr : list event) : option bool :=
  fold_left shutter_after tr None.

Definition is_VisaClose (e : event) : bool :=
  match e with VisaClose => true | _ => false end.
Definition is_DaqClose (e : event) : bool :=
  match e with DaqClose => true | _ => false end.
Definition is_LogLine (e : event) : bool :=
  match e with LogLine _ _ _ => true | _ => false end.
Definition is_LogClose (e : event) : bool :=
  match e with LogClose => true | _ => false end.
Definition is_READ (e : event) : bool :=
  match e with VisaQuery cmd => String.eqb cmd "READ?" | _ => false end.

Definition count (f : event -> bool) (tr : list event) : nat :=
  List.length (filter f tr).

(** What [shutdown] does to the outside, given [self.task]. *)
Definition shutdown_events (t : ref) : list event :=
  match t with
  | PyObject => [DaqWrite true; DaqStop; DaqClose]
  | PyNone => []
  end ++
  [PlotOff; LogClose;
   Console "Keithley and USB6501 shutdown completed. Log file closed. Exiting."].

(** ** The walk-in count *)

(** [V_set] after [n] passes of [V_set += step], from [x]. *)
Fixpoint V_set_after (n : nat) (x step : float) : float :=
  match n with
  | O => x
  | S k => V_set_after k (x + step) step
  end.

(** The integer [ceil(a / b)] of the real quotient of two positive finite
    binary64 numbers, [m * 2^e] each. *)
Definition ceil_quotient (a b : float) : option Z :=
  match Prim2SF a, Prim2SF b with
  | S754_finite false ma ea, S754_finite false mb eb =>
      let e := Z.min ea eb in
      let n := (Zpos ma * 2 ^ (ea - e))%Z in
      let d := (Zpos mb * 2 ^ (eb - e))%Z in
      Some (- ((- n) / d))%Z
  | _, _ => None
  end.

(** [math.ceil(x)] of a finite float. *)
Definition float_ceil (x : float) : option Z :=
  match Prim2SF x with
  | S754_zero _ => Some 0%Z
  | S754_finite s m e =>
      let n := if s then Zneg m else Zpos m in
      if (0 <=? e)%Z then Some (n * 2 ^ e)%Z
      else Some (- ((- n) / 2 ^ (- e)))%Z
  | _ => None
  end.

(** ** Runs used below *)

(** A three-point sweep of an illuminated cell: the power peaks at the
    middle point, readings then repeat with the clock advancing by one
    second per reading, and tracking is to last five seconds. *)
Definition lit_cell : environment :=
  mk_env Parsed "GPIB0::20::INSTR" 5 1.0 "Testboard/port1/line0" None None
    (0.5, 0, 0) (-0.25) [(0.5, 0, 0); (0.25, -0.01, 0.1); (0, -0.02, 0.2)]
    (fun n => (0.25, -0.01, float_of_int (Z.of_nat n))) None.

Definition with_sigint (k : nat) (E : environment) : environment :=
  mk_env (argv E) (address E) (total_tracking_time E) (device_area E) (shutterOut E)
         (keithley_fault E) (shutter_fault E) (voc_reply E) (step_reply E)
         (sweep_reply E) (read_reply E) (Some k).

Definition with_keithley_fault (k : nat) (E : environment) : environment :=
  mk_env (argv E) (address E) (total_tracking_time E) (device_area E) (shutterOut E)
         (Some k) (shutter_fault E) (voc_reply E) (step_reply E)
         (sweep_reply E) (read_reply E) (sigint E).

Definition with_shutter_fault (k : nat) (E : environment) : environment :=
  mk_env (argv E) (address E) (total_tracking_time E) (device_area E) (shutterOut E)
         (keithley_fault E) (Some k) (voc_reply E) (step_reply E)
         (sweep_reply E) (read_reply E) (sigint E).

(** A cell in the dark: every current of the sweep is zero, so the power
    array is all-zero; the power read while tracking rises. *)
Definition dark_cell : environment :=
  mk_env Parsed "GPIB0::20::INSTR" 5 1.0 "Testboard/port1/line0" None None
    (0.5, 0, 0) (-0.25) [(0.5, 0, 0); (0.25, 0, 0.1); (0, 0, 0.2)]
    (fun n => (0.5, float_of_int (Z.of_nat n) * 0.001, float_of_int (Z.of_nat n)))
    None.

(** A world in the walk-in loop of a session with the given [Vmpp] and
    [v_step], started at time 0. *)
Definition walking (vmpp step : float) : world :=
  mk_world (mk_tracker PyObject PyObject (Some 0) step 1 0 vmpp [] [] [] [])
           [] 1 0 true true.

(** A cell in the dark whose open-circuit voltage reads 0.61234 V: the
    sweep starts at that voltage rounded to four decimals, which is what
    its first sample reads. *)
Definition dark_rounded : environment :=
  mk_env Parsed "GPIB0::20::INSTR" 5 1.0 "Testboard/port1/line0" None None
    (0.61234, 0, 0) (-0.001)
    [(0.6123, 0, 0); (0.3062, 0, 0.1); (0, 0, 0.2)]
    (fun n => (0.6123, 0, float_of_int (Z.of_nat n))) None.

(** The same with an open-circuit voltage that is rounded up. *)
Definition dark_rounded_up : environment :=
  mk_env Parsed "GPIB0::20::INSTR" 5 1.0 "Testboard/port1/line0" None None
    (0.61236, 0, 0) (-0.001)
    [(0.6124, 0, 0); (0.3062, 0, 0.1); (0, 0, 0.2)]
    (fun n => (0.6124, 0, float_of_int (Z.of_nat n))) None.

(** The lit cell read with a current that changes from reading to reading:
    the power rises from the reading that gives [start_time] to the reading
    of the walk-in cycle, and falls at the first reading of the tracking
    loop. *)
Definition varied_cell : environment :=
  mk_env Parsed "GPIB0::20::INSTR" 5 1.0 "Testboard/port1/line0" None None
    (0.5, 0, 0) (-0.25) [(0.5, 0, 0); (0.25, -0.01, 0.1); (0, -0.02, 0.2)]
    (fun n => nth n [(0.25, -0.01, 0); (0.25, -0.03, 1); (0.25, -0.02, 2)]
                    (0.25, -0.02, 100))
    None.

(** A cell that gives no voltage: the open-circuit reading is just below
    zero, and so are the voltages of the sweep. *)
Definition unlit_cell : environment :=
  mk_env Parsed "GPIB0::20::INSTR" 5 1.0 "Testboard/port1/line0" None None
    (-0.0002, 0, 0) 0.0001
    [(-0.0002, 0.000001, 0); (-0.0001, 0.000001, 0.1); (0, 0.000001, 0.2)]
    (fun n => (-0.0002, 0.000001, float_of_int (Z.of_nat n))) None.

(** An instrument whose clock stands still, so that no time-out occurs. *)
Definition steady : environment :=
  mk_env Parsed "GPIB0::20::INSTR" 5 1.0 "Testboard/port1/line0" None None
    (1, 0, 0) 0.1 [(1, 0, 0)] (fun _ => (0.5, -0.01, 0)) None.

(** ** Relations between the worlds of a run *)

(** Everything of the session but [Vmpp] and the plotted series is as it was. *)
Definition same_setup (w w' : world) : Prop :=
  K2400 (self w') = K2400 (self w) /\
  task (self w') = task (self w) /\
  start_time (self w') = start_time (self w) /\
  v_step (self w') = v_step (self w) /\
  Voc (self w') = Voc (self w) /\
  Isc (self w') = Isc (self w).

(** [w'] is [w] after the events [es], [dr] more single readings and [di]
    more loop iterations, with [Vmpp] untouched. *)
Definition advanced (w w' : world) (es : list event) (dr di : nat) : Prop :=
  same_setup w w' /\
  Vmpp (self w') = Vmpp (self w) /\
  trace w' = trace w ++ es /\
  reads w' = (reads w + dr)%nat /\
  iterations w' = (iterations w + di)%nat.

(** The events of one completed walk-in cycle that set [V_set] and read [r]. *)
Definition walk_in_events (V_set t0 : float) (r : reading) : list event :=
  [VisaWriteF ":source:voltage " "" V_set; VisaQuery "READ?"; PlotDraw;
   LogLine (rd_t r - t0) (rd_v r) (rd_i r)].

(** The locals [(v, i)] after [n] walk-in cycles begun in world [w] with
    the locals [(v0, i0)]: those of the last reading taken, if any. *)
Definition walk_in_locals (E : environment) (w : world) (n : nat)
           (v0 i0 : float) : float * float :=
  match n with
  | O => (v0, i0)
  | S m => let r := read_reply E (reads w + m) in (rd_v r, rd_i r)
  end.

(** ** Quantities a statement leaves alone *)

(** [m] never changes the quantity [mu], however it ends. *)
Definition keeps {A X : Type} (mu : world -> X) (m : M A) : Prop :=
  forall w, mu (final_world (m w)) = mu w.

Definition session_bounds (w : world) : float * float :=
  (Vmpp (self w), Voc (self w)).

Definition log_lines (w : world) : nat := count is_LogLine (trace w).

(** The Measurement Port: the state of the source output and the number of
    times the VISA session was closed. *)
Definition keithley_port (w : world) : bool * nat :=
  (output_on (trace w), count is_VisaClose (trace w)).

(** The Shutter Port: the level on the line and the number of times the
    task was closed. *)
Definition shutter_port (w : world) : option bool * nat :=
  (shutter_line (trace w), count is_DaqClose (trace w)).

(** Events that leave the Measurement Port as it is, and events that are
    not log lines. *)
Definition port_quiet (e : event) : bool :=
  negb (is_VisaClose e) &&
  Bool.eqb (output_after true e) true &&
  Bool.eqb (output_after false e) false.

Definition log_quiet (e : event) : bool := negb (is_LogLine e).

Definition always_quiet (e : event) : bool := true.

Definition with_tracking_time (t : float) (E : environment) : environment :=
  mk_env (argv E) (address E) t (device_area E) (shutterOut E)
         (keithley_fault E) (shutter_fault E) (voc_reply E) (step_reply E)
         (sweep_reply E) (read_reply E) (sigint E).

(** ** The tracking loop, cycle by cycle *)

(** The perturb-and-observe state after [k] completed tracking cycles that
    consume the readings [r0], [r0 + 1], ... *)
Fixpoint track_state (E : environment) (r0 k : nat) (s : pno_state) : pno_state :=
  match k with
  | O => s
  | S k' =>
      let r := read_reply E r0 in
      track_state E (S r0) k' (perturb_and_observe (abs (rd_v r * rd_i r)) s)
  end.

(** The world after one completed tracking cycle begun in [w]. *)
Definition tracked (E : environment) (d : Z) (pp : float) (w w1 : world) : Prop :=
  let r := read_reply E (reads w) in
  let s' := perturb_and_observe (abs (rd_v r * rd_i r))
              (mk_pno (Vmpp (self w)) (v_step (self w)) d pp) in
  same_setup w w1 /\
  Vmpp (self w1) = pno_Vmpp s' /\
  trace w1 = trace w ++ [VisaWriteF ":source:voltage " "0.4f" (Vmpp (self w));
                         VisaQuery "READ?"; PlotDraw] /\
  reads w1 = S (reads w) /\
  iterations w1 = iterations w.

(** The events of [n] completed walk-in cycles from [V_set = V] that
    consume the readings [r0], [r0 + 1], ... *)
Fixpoint walk_in_trace (E : environment) (r0 n : nat) (V step t0 : float)
  : list event :=
  match n with
  | O => []
  | S m => walk_in_events V t0 (read_reply E r0)
           ++ walk_in_trace E (S r0) m (V + step) step t0
  end.

(** The four plotted series have one entry per sample. *)
Definition series_aligned (w : world) : Prop :=
  List.length (v_data (self w)) = List.length (t_data (self w)) /\
  List.length (i_data (self w)) = List.length (t_data (self w)) /\
  List.length (efficiencies (self w)) = List.length (t_data (self w)).

(** The three limits that [plot_sweep] sets after a sweep are finite. *)
Definition sweep_limits_finite (E : environment) : bool :=
  match analyse_sweep (sweep_reply E), sweep_power (sweep_reply E) with
  | Some (isc, _, _), x :: rest =>
      is_finite (rd_v (voc_reply E)) &&
      is_finite (abs isc * 1.1) &&
      is_finite (py_max x rest * 1.1)
  | _, _ => false
  end.

(** [Vmpp] after [k] tracking cycles from the direction [d] that each
    reverse the direction and then take one step. *)
Fixpoint zigzag (k : nat) (V step : float) (d : Z) : float :=
  match k with
  | O => V
  | S k' => zigzag k' (V + float_of_int (d * -1) * step) step (d * -1)
  end.

(** What the sweep measured once and for all. *)
Definition sweep_results (w : world) : float * float * float :=
  (Voc (self w), Isc (self w), v_step (self w)).

(** [m] never completes; and when [m] ends in [sys.exit(0)] it does so out
    of [shutdown]. *)
Definition never_returns {A} (m : M A) : Prop :=
  forall w a w', m w <> Ok a w'.

Definition exits_by_shutdown {A} (m : M A) : Prop :=
  forall w w', m w = Raise (SystemExit 0) w' ->
               exists w0, shutdown w0 = Raise (SystemExit 0) w'.

(** The world in which the tracking loop of a run starts. *)
Definition tracking_start (E : environment) (fuel : nat) : world :=
  final_world (walk_back_to_Vmpp E fuel (final_world (init E initial_world))).

Definition is_VisaOpen (e : event) : bool :=
  match e with VisaOpen _ => true | _ => false end.

Definition is_Daq (e : event) : bool :=
  match e with
  | DaqTask | DaqAddChannel _ | DaqStart | DaqWrite _ | DaqStop | DaqClose => true
  | _ => false
  end.

(** An instrument that answers the sweep query with no sample. *)
Definition steady_empty : environment :=
  mk_env Parsed "GPIB0::20::INSTR" 5 1.0 "Testboard/port1/line0" None None
    (1, 0, 0) 0.1 [] (fun _ => (0.5, -0.01, 0)) None.

(** The voltages that a trace commands with [:source:voltage]. *)
Definition set_voltage (e : event) : list float :=
  match e with
  | VisaWriteF cmd _ x => if String.eqb cmd ":source:voltage " then [x] else []
  | _ => []
  end.

Definition set_voltages (tr : list event) : list float := flat_map set_voltage tr.

(** The log line of the reading [k] of a session started at [t0]. *)
Definition log_line_of (E : environment) (t0 : float) (k : nat) : event :=
  let r := read_reply E k in LogLine (rd_t r - t0) (rd_v r) (rd_i r).

Definition with_device_area (a : float) (E : environment) : environment :=
  mk_env (argv E) (address E) (total_tracking_time E) a (shutterOut E)
         (keithley_fault E) (shutter_fault E) (voc_reply E) (step_reply E)
         (sweep_reply E) (read_reply E) (sigint E).

(** ** The order of binary64 numbers

    The comparisons of primitive floats are specified on [spec_float]
    ([FloatAxioms]); a number that is not NaN is ranked by a triple of
    integers compared lexicographically. *)
Definition SFrank (x : spec_float) : Z * Z * Z :=
  match x with
  | S754_nan => (0, 0, 0)%Z
  | S754_zero _ => (0, 0, 0)%Z
  | S754_infinity true => (-2, 0, 0)%Z
  | S754_infinity false => (2, 0, 0)%Z
  | S754_finite true m e => (-1, - e, Zneg m)%Z
  | S754_finite false m e => (1, e, Zpos m)%Z
  end.

Definition lex_le (a b : Z * Z * Z) : Prop :=
  let '(c1, e1, m1) := a in
  let '(c2, e2, m2) := b in
  (c1 < c2 \/ (c1 = c2 /\ (e1 < e2 \/ (e1 = e2 /\ m1 <= m2))))%Z.

(** * Properties *)

(** ** The order of binary64 numbers *)
Module FloatOrder.

Lemma lex_le_trans a b c : lex_le a b -> lex_le b c -> lex_le a c.
Proof.
  destruct a as [[? ?] ?], b as [[? ?] ?], c as [[? ?] ?].
  unfold lex_le. lia.
Qed.

Lemma lex_le_total a b : lex_le a b \/ lex_le b a.
Proof.
  destruct a as [[? ?] ?], b as [[? ?] ?]. unfold lex_le. lia.
Qed.

Lemma SFleb_rank (a b : spec_float) :
  a <> S754_nan -> b <> S754_nan ->
  (SFleb a b = true <-> lex_le (SFrank a) (SFrank b)).
Proof.
  intros Ha Hb. unfold SFleb, SFcompare.
  destruct a as [sa | sa | | sa ma ea]; try congruence;
  destruct b as [sb | sb | | sb mb eb]; try congruence;
  try destruct sa; try destruct sb; cbn [SFrank lex_le];
  try (split; [intros _; lia | reflexivity]);
  try (split; [discriminate | lia]).
  - change (Pos.compare_cont Eq ma mb) with (Pos.compare ma mb).
    destruct (Z.compare_spec ea eb); destruct (Pos.compare_spec ma mb);
      cbn; split; intros; try discriminate; try reflexivity; try lia.
  - change (Pos.compare_cont Eq ma mb) with (Pos.compare ma mb).
    destruct (Z.compare_spec ea eb); destruct (Pos.compare_spec ma mb);
      cbn; split; intros; try discriminate; try reflexivity; try lia.
Qed.

Lemma is_nan_false (x : float) : is_nan x = false -> Prim2SF x <> S754_nan.
Proof.
  unfold is_nan. rewrite FloatAxioms.eqb_spec. intros H E. rewrite E in H. discriminate.
Qed.

Lemma leb_true_not_nan (x y : float) :
  (x <=? y) = true -> Prim2SF x <> S754_nan /\ Prim2SF y <> S754_nan.
Proof.
  rewrite FloatAxioms.leb_spec. unfold SFleb, SFcompare.
  destruct (Prim2SF x), (Prim2SF y); intros H; try discriminate;
    split; discriminate.
Qed.

Lemma leb_trans (x y z : float) :
  (x <=? y) = true -> (y <=? z) = true -> (x <=? z) = true.
Proof.
  intros Hxy Hyz.
  destruct (leb_true_not_nan _ _ Hxy) as [Hx Hy].
  destruct (leb_true_not_nan _ _ Hyz) as [_ Hz].
  rewrite FloatAxioms.leb_spec in Hxy, Hyz. rewrite FloatAxioms.leb_spec.
  apply SFleb_rank; trivial.
  apply lex_le_trans with (SFrank (Prim2SF y)); apply SFleb_rank; trivial.
Qed.

Lemma leb_total (x y : float) :
  is_nan x = false -> is_nan y = false ->
  (x <=? y) = false -> (y <=? x) = true.
Proof.
  intros Hx Hy H.
  apply is_nan_false in Hx. apply is_nan_false in Hy.
  rewrite FloatAxioms.leb_spec in H. rewrite FloatAxioms.leb_spec.
  destruct (lex_le_total (SFrank (Prim2SF x)) (SFrank (Prim2SF y))) as [L | L].
  - apply SFleb_rank in L; trivial. congruence.
  - apply SFleb_rank; trivial.
Qed.

Lemma leb_refl (x : float) : is_nan x = false -> (x <=? x) = true.
Proof.
  intros Hx. apply is_nan_false in Hx. rewrite FloatAxioms.leb_spec.
  apply SFleb_rank; trivial.
  destruct (SFrank (Prim2SF x)) as [[? ?] ?]. unfold lex_le. lia.
Qed.

(** Two numbers that compare equal to zero are below each other. *)
Lemma zero_leb_zero (x y : float) :
  (x =? 0) = true -> (y =? 0) = true -> (x <=? y) = true.
Proof.
  rewrite !FloatAxioms.eqb_spec, FloatAxioms.leb_spec.
  replace (Prim2SF 0) with (S754_zero false) by reflexivity.
  unfold SFeqb, SFleb, SFcompare.
  destruct (Prim2SF x) as [? | [|] | | [|] ? ?];
    destruct (Prim2SF y) as [? | [|] | | [|] ? ?];
    intros; try discriminate; reflexivity.
Qed.

Lemma eqb_zero_not_nan (x : float) : (x =? 0) = true -> is_nan x = false.
Proof.
  unfold is_nan. rewrite !FloatAxioms.eqb_spec.
  replace (Prim2SF 0) with (S754_zero false) by reflexivity.
  unfold SFeqb, SFcompare.
  destruct (Prim2SF x) as [? | [|] | | [|] ? ?]; intros; try discriminate; reflexivity.
Qed.

End FloatOrder.

Lemma eqb_true_ltb_false (x y : float) : (x =? y) = true -> (y <? x) = false.
Proof.
  rewrite FloatAxioms.eqb_spec, FloatAxioms.ltb_spec.
  unfold SFeqb, SFltb, SFcompare.
  destruct (Prim2SF x) as [[|] | [|] | | [|] mx ex];
    destruct (Prim2SF y) as [[|] | [|] | | [|] my ey];
    try discriminate; try reflexivity;
    rewrite (Z.compare_antisym ey ex);
    change (Pos.compare_cont Eq mx my) with (Pos.compare mx my);
    change (Pos.compare_cont Eq my mx) with (Pos.compare my mx);
    rewrite (Pos.compare_antisym my mx);
    destruct (Z.compare ey ex); cbn; try discriminate; try reflexivity;
    destruct (Pos.compare my mx); cbn; try discriminate; reflexivity.
Qed.

(** ** The perturb-and-observe rule *)

Lemma directions_of_synthetic_powers (vmpp step prev : float) :
  directions_after synthetic_powers (mk_pno vmpp step 1 prev) =
  if py_gt 1.0 prev then [1; 1; -1; 1; 1]%Z else [-1; -1; 1; -1; -1]%Z.
Proof.
  unfold synthetic_powers, directions_after, perturb_and_observe.
  cbn [pno_previous_power pno_direction pno_Vmpp pno_v_step].
  destruct (py_gt 1.0 prev);
    cbn [pno_previous_power pno_direction pno_Vmpp pno_v_step];
    reflexivity.
Qed.

(** C5, as the code runs it: on the powers [1.0, 1.2, 0.9, 0.9, 1.1] from
    [direction = +1] the directions held after the five readings are
    [+1, +1, -1, +1, +1] when the power before the first reading is below
    1.0, and [-1, -1, +1, -1, -1] otherwise: the equal power of the fourth
    reading reverses the direction once more. *)
Theorem synthetic_directions (vmpp step prev : float) :
  directions_after synthetic_powers (mk_pno vmpp step 1 prev) =
  if py_gt 1.0 prev then [1; 1; -1; 1; 1]%Z else [-1; -1; 1; -1; -1]%Z.
Proof.
  apply directions_of_synthetic_powers.
Qed.

(** C5 refuted: from a previous power of 0 the fourth direction is [+1],
    and no previous power makes the sequence [+1, +1, -1, -1, +1]. *)
Lemma synthetic_directions_not_as_claimed :
  nth 3 (directions_after synthetic_powers (mk_pno 0.3 0.01 1 0)) 0%Z = 1%Z /\
  forall vmpp step prev,
    directions_after synthetic_powers (mk_pno vmpp step 1 prev)
    <> [1; 1; -1; -1; 1]%Z.
Proof.
  split.
  - vm_compute. reflexivity.
  - intros vmpp step prev. rewrite directions_of_synthetic_powers.
    destruct (py_gt 1.0 prev); discriminate.
Qed.

(** ** Statements and the worlds they leave *)

Lemma bind_Ok_inv {A B} (m : M A) (k : A -> M B) (w w' : world) (b : B) :
  bind m k w = Ok b w' -> exists a w1, m w = Ok a w1 /\ k a w1 = Ok b w'.
Proof.
  unfold bind. destruct (m w) as [a w1 | e w1 | w1]; intros H;
    try discriminate H.
  exists a, w1. auto.
Qed.

Lemma bind_Ok {A B} (m : M A) (k : A -> M B) (w w1 : world) (a : A) :
  m w = Ok a w1 -> bind m k w = k a w1.
Proof. unfold bind. intros ->. reflexivity. Qed.

Lemma bind_Raise {A B} (m : M A) (k : A -> M B) (w w1 : world) (e : exn) :
  m w = Raise e w1 -> bind m k w = Raise e w1.
Proof. unfold bind. intros ->. reflexivity. Qed.

(** A step [emit] or [modify] at the head of a statement that completes. *)
Ltac emitted H :=
  let u := fresh "u" in
  let w := fresh "w" in
  let E := fresh "E" in
  apply bind_Ok_inv in H as (u & w & E & H);
  destruct u; unfold emit, modify in E; injection E as E; subst w.

Lemma same_setup_refl (w : world) : same_setup w w.
Proof. unfold same_setup. auto 10. Qed.

Lemma same_setup_trans (w1 w2 w3 : world) :
  same_setup w1 w2 -> same_setup w2 w3 -> same_setup w1 w3.
Proof. unfold same_setup. intuition congruence. Qed.

Lemma advanced_refl (w : world) : advanced w w [] 0 0.
Proof.
  unfold advanced. rewrite app_nil_r.
  repeat split; try apply same_setup_refl; lia.
Qed.

Lemma advanced_trans (w1 w2 w3 : world) es1 es2 dr1 dr2 di1 di2 :
  advanced w1 w2 es1 dr1 di1 -> advanced w2 w3 es2 dr2 di2 ->
  advanced w1 w3 (es1 ++ es2) (dr1 + dr2)%nat (di1 + di2)%nat.
Proof.
  unfold advanced. intros (S1 & V1 & T1 & R1 & I1) (S2 & V2 & T2 & R2 & I2).
  split; [| split; [| split; [| split]]].
  - eapply same_setup_trans; eassumption.
  - congruence.
  - rewrite T2, T1, app_assoc. reflexivity.
  - lia.
  - lia.
Qed.

Lemma emit_advanced (e : event) (w : world) :
  emit e w = Ok tt (add_events [e] w) /\ advanced w (add_events [e] w) [e] 0 0.
Proof.
  split; [reflexivity |].
  unfold advanced, same_setup, add_events. cbn. repeat split; lia.
Qed.

(** [shutdown] always ends in [sys.exit(0)], after [shutdown_events]. *)
Lemma shutdown_exits (w : world) :
  exists w', shutdown w = Raise (SystemExit 0) w' /\
             advanced w w' (shutdown_events (task (self w))) 0 0 /\
             local_K2400 w' = local_K2400 w /\ local_task w' = local_task w.
Proof.
  unfold shutdown, write_to_console, emit, modify, bind, get, raise, ret.
  destruct (task (self w)) eqn:T; cbn; eexists; (split; [reflexivity |]);
    unfold advanced, same_setup, add_events, shutdown_events; cbn;
    rewrite <- ?app_assoc; cbn; repeat split; try lia; auto.
Qed.

Lemma check_runtime_Ok_inv (E : environment) (tx : float) (w w' : world) :
  check_runtime E tx w = Ok tt w' ->
  w' = w /\
  exists t0, start_time (self w) = Some t0 /\
             py_gt (tx - t0) (total_tracking_time E) = false.
Proof.
  unfold check_runtime, bind, get.
  destruct (start_time (self w)) as [t0 |]; [| intros H; discriminate H].
  destruct (py_gt (tx - t0) (total_tracking_time E)) eqn:G.
  - destruct (shutdown_exits w) as (w1 & -> & _). intros H; discriminate H.
  - unfold ret. intros H. inversion H. eauto.
Qed.

Lemma check_runtime_continue (E : environment) (tx t0 : float) (w : world) :
  start_time (self w) = Some t0 ->
  py_gt (tx - t0) (total_tracking_time E) = false ->
  check_runtime E tx w = Ok tt w.
Proof.
  unfold check_runtime, bind, get. intros -> ->. reflexivity.
Qed.

Lemma check_runtime_timeout (E : environment) (tx t0 : float) (w : world) :
  start_time (self w) = Some t0 ->
  py_gt (tx - t0) (total_tracking_time E) = true ->
  check_runtime E tx w = shutdown w.
Proof.
  unfold check_runtime, bind, get. intros -> ->. reflexivity.
Qed.

Lemma update_plot_Ok (E : environment) (v i tx t0 : float) (w : world) :
  start_time (self w) = Some t0 ->
  (device_area E =? 0) = false ->
  exists w', update_plot E v i tx w = Ok tt w' /\ advanced w w' [PlotDraw] 0 0.
Proof.
  intros S A.
  unfold update_plot, py_div, emit, modify, bind, get, ret, raise.
  rewrite S, A. cbn.
  eexists. split; [reflexivity |].
  unfold advanced, same_setup, add_events; cbn. repeat split; try lia; auto.
Qed.

Lemma update_plot_Ok_inv (E : environment) (v i tx : float) (w w' : world) :
  update_plot E v i tx w = Ok tt w' ->
  advanced w w' [PlotDraw] 0 0 /\ (device_area E =? 0) = false.
Proof.
  unfold update_plot, py_div, emit, modify, bind, get, ret, raise.
  destruct (start_time (self w)) as [t0 |]; [| intros H; discriminate H].
  destruct (device_area E =? 0); cbn; intros H; [discriminate H |].
  inversion H. split; [| reflexivity].
  unfold advanced, same_setup, add_events; cbn. repeat split; try lia; auto.
Qed.

Lemma read_one_eq (E : environment) (w : world) :
  read_one E w =
  Ok (read_reply E (reads w)) (count_read (add_events [VisaQuery "READ?"] w)).
Proof. reflexivity. Qed.

Lemma read_one_advanced (w : world) :
  advanced w (count_read (add_events [VisaQuery "READ?"] w))
           [VisaQuery "READ?"] 1 0.
Proof.
  unfold advanced, same_setup, add_events, count_read; cbn.
  repeat split; try lia; auto.
Qed.

Lemma loop_boundary_Ok_inv (E : environment) (w w' : world) :
  loop_boundary E w = Ok tt w' ->
  w' = count_iteration w /\ sigint E <> Some (iterations w).
Proof.
  unfold loop_boundary, bind, get, modify, raise.
  destruct (sigint E) as [k |].
  - destruct (Nat.eqb_spec k (iterations w)); intros H; [discriminate H |].
    inversion H. split; [reflexivity | congruence].
  - intros H. inversion H. split; [reflexivity | discriminate].
Qed.

Lemma loop_boundary_Ok (E : environment) (w : world) :
  sigint E <> Some (iterations w) ->
  loop_boundary E w = Ok tt (count_iteration w).
Proof.
  unfold loop_boundary, bind, get, modify, raise. intros H.
  destruct (sigint E) as [k |]; [| reflexivity].
  destruct (Nat.eqb_spec k (iterations w)); [congruence | reflexivity].
Qed.

Lemma loop_boundary_sigint (E : environment) (w : world) :
  sigint E = Some (iterations w) ->
  loop_boundary E w = Raise KeyboardInterrupt w.
Proof.
  unfold loop_boundary, bind, get, modify, raise. intros ->.
  rewrite Nat.eqb_refl. reflexivity.
Qed.

Lemma count_iteration_advanced (w : world) :
  advanced w (count_iteration w) [] 0 1.
Proof.
  unfold advanced, same_setup, count_iteration; cbn.
  rewrite app_nil_r. repeat split; try lia; auto.
Qed.

(** ** The walk-in loop *)

Lemma walk_in_unfold (E : environment) (fuel : nat) (V v i : float) (w : world) :
  walk_in E fuel V v i w =
  if py_lt V (Vmpp (self w)) then
    match fuel with
    | O => OutOfFuel w
    | S f =>
        (loop_boundary E ;;
         emit (VisaWriteF ":source:voltage " "" V) ;;
         r <- read_one E ;;
         update_plot E (rd_v r) (rd_i r) (rd_t r) ;;
         check_runtime E (rd_t r) ;;
         w' <- get ;;
         match start_time (self w') with
         | None => raise TypeError
         | Some t0 => write_data_to_file (rd_t r - t0) (rd_v r) (rd_i r)
         end ;;
         walk_in E f (V + v_step (self w)) (rd_v r) (rd_i r)) w
    end
  else Ok (v, i) w.
Proof.
  destruct fuel; cbn [walk_in]; unfold bind at 1; unfold get;
    destruct (py_lt V (Vmpp (self w))); try reflexivity.
  unfold bind. destruct (loop_boundary E w); try reflexivity.
  cbn. destruct (read_reply E (reads w0)) as [[v1 i1] t1]. reflexivity.
Qed.

(** The world after the first four steps of a walk-in cycle. *)
Lemma walk_in_cycle_advanced (w w4 : world) (V t0 : float) (r : reading) :
  advanced
    (count_read
       (add_events [VisaQuery "READ?"]
          (add_events [VisaWriteF ":source:voltage " "" V] (count_iteration w))))
    w4 [PlotDraw] 0 0 ->
  advanced w (add_events [LogLine (rd_t r - t0) (rd_v r) (rd_i r)] w4)
           (walk_in_events V t0 r) 1 1.
Proof.
  intros A4.
  pose proof (count_iteration_advanced w) as A1.
  destruct (emit_advanced (VisaWriteF ":source:voltage " "" V)
                          (count_iteration w)) as [_ A2].
  pose proof (read_one_advanced
                (add_events [VisaWriteF ":source:voltage " "" V]
                            (count_iteration w))) as A3.
  destruct (emit_advanced (LogLine (rd_t r - t0) (rd_v r) (rd_i r)) w4)
    as [_ A5].
  pose proof (advanced_trans _ _ _ _ _ _ _ _ _ A1 A2) as B.
  pose proof (advanced_trans _ _ _ _ _ _ _ _ _ B A3) as B'.
  pose proof (advanced_trans _ _ _ _ _ _ _ _ _ B' A4) as B''.
  exact (advanced_trans _ _ _ _ _ _ _ _ _ B'' A5).
Qed.

(** A walk-in cycle that is followed by a normal end of the loop. *)
Lemma walk_in_S_Ok_inv (E : environment) (f : nat) (V v i : float)
      (w w' : world) (p : float * float) :
  py_lt V (Vmpp (self w)) = true ->
  walk_in E (S f) V v i w = Ok p w' ->
  exists w1 t0,
    advanced w w1 (walk_in_events V t0 (read_reply E (reads w))) 1 1 /\
    start_time (self w) = Some t0 /\
    sigint E <> Some (iterations w) /\
    py_gt (rd_t (read_reply E (reads w)) - t0) (total_tracking_time E) = false /\
    (device_area E =? 0) = false /\
    walk_in E f (V + v_step (self w)) (rd_v (read_reply E (reads w)))
            (rd_i (read_reply E (reads w))) w1 = Ok p w'.
Proof.
  intros C H. rewrite walk_in_unfold, C in H.
  apply bind_Ok_inv in H as ([] & w1 & H1 & H).
  apply loop_boundary_Ok_inv in H1 as [-> NS].
  apply bind_Ok_inv in H as ([] & w2 & H2 & H).
  inversion H2; subst w2; clear H2.
  apply bind_Ok_inv in H as (r & w3 & H3 & H).
  rewrite read_one_eq in H3. inversion H3; subst r w3; clear H3.
  apply bind_Ok_inv in H as ([] & w4 & H4 & H).
  apply update_plot_Ok_inv in H4 as [A4 DA].
  apply bind_Ok_inv in H as ([] & w5 & H5 & H).
  apply check_runtime_Ok_inv in H5 as [-> (t0 & ST & NT)].
  apply bind_Ok_inv in H as (w6 & w7 & H6 & H).
  inversion H6; subst w6 w7; clear H6.
  rewrite ST in H.
  apply bind_Ok_inv in H as ([] & w8 & H8 & H).
  inversion H8; subst w8; clear H8.
  exists (add_events
            [LogLine (rd_t (read_reply E (reads w)) - t0)
                     (rd_v (read_reply E (reads w)))
                     (rd_i (read_reply E (reads w)))] w4), t0.
  split; [apply walk_in_cycle_advanced; exact A4 |].
  split.
  - destruct A4 as ((_ & _ & S4 & _) & _). rewrite <- ST, S4. reflexivity.
  - auto.
Qed.

(** A walk-in cycle without interrupt or time-out runs to its end. *)
Lemma walk_in_step (E : environment) (f : nat) (V v i t0 : float) (w : world) :
  py_lt V (Vmpp (self w)) = true ->
  start_time (self w) = Some t0 ->
  sigint E <> Some (iterations w) ->
  py_gt (rd_t (read_reply E (reads w)) - t0) (total_tracking_time E) = false ->
  (device_area E =? 0) = false ->
  exists w1,
    advanced w w1 (walk_in_events V t0 (read_reply E (reads w))) 1 1 /\
    walk_in E (S f) V v i w =
    walk_in E f (V + v_step (self w)) (rd_v (read_reply E (reads w)))
            (rd_i (read_reply E (reads w))) w1.
Proof.
  intros C ST NS NT DA. rewrite walk_in_unfold, C.
  rewrite (bind_Ok _ _ _ _ _ (loop_boundary_Ok E w NS)).
  rewrite (bind_Ok _ _ _ (add_events [VisaWriteF ":source:voltage " "" V]
                                     (count_iteration w)) tt)
    by reflexivity.
  rewrite (bind_Ok _ _ _ _ _ (read_one_eq E _)).
  set (w3 := count_read _).
  assert (ST3 : start_time (self w3) = Some t0) by exact ST.
  destruct (update_plot_Ok E (rd_v (read_reply E (reads w)))
              (rd_i (read_reply E (reads w))) (rd_t (read_reply E (reads w)))
              t0 w3 ST3 DA) as (w4 & U & A4).
  cbn [reads add_events count_iteration].
  rewrite (bind_Ok _ _ _ _ _ U).
  assert (ST4 : start_time (self w4) = Some t0).
  { destruct A4 as ((_ & _ & S4 & _) & _). rewrite S4. exact ST3. }
  rewrite (bind_Ok _ _ _ _ _ (check_runtime_continue E _ t0 w4 ST4 NT)).
  rewrite (bind_Ok _ _ w4 w4 w4) by reflexivity.
  rewrite ST4.
  rewrite (bind_Ok _ _ _ (add_events
            [LogLine (rd_t (read_reply E (reads w)) - t0)
                     (rd_v (read_reply E (reads w)))
                     (rd_i (read_reply E (reads w)))] w4) tt) by reflexivity.
  eexists. split; [| reflexivity].
  apply walk_in_cycle_advanced. exact A4.
Qed.

Lemma count_app (f : event -> bool) (a b : list event) :
  count f (a ++ b) = (count f a + count f b)%nat.
Proof. unfold count. rewrite filter_app, length_app. reflexivity. Qed.

(** What a walk-in loop that ends normally has done: [n] cycles, each
    with one reading and one log line, where [n] is the first count at
    which the accumulated [V_set] is no longer below [Vmpp]. *)
Lemma walk_in_Ok_inv (E : environment) (fuel : nat) :
  forall (V v i : float) (w w' : world) (p : float * float),
    walk_in E fuel V v i w = Ok p w' ->
    exists n es,
      advanced w w' es n n /\
      (count is_LogLine es = n /\ count is_READ es = n) /\
      (forall k, (k < n)%nat ->
                 py_lt (V_set_after k V (v_step (self w))) (Vmpp (self w)) = true) /\
      py_lt (V_set_after n V (v_step (self w))) (Vmpp (self w)) = false /\
      p = walk_in_locals E w n v i.
Proof.
  induction fuel as [| f IH]; intros V v i w w' p H.
  - rewrite walk_in_unfold in H.
    destruct (py_lt V (Vmpp (self w))) eqn:C; [discriminate H |].
    inversion H; subst. exists O, []. split; [apply advanced_refl |].
    split; [split; reflexivity |]. split; [intros k Hk; lia |].
    split; [exact C | reflexivity].
  - destruct (py_lt V (Vmpp (self w))) eqn:C.
    + apply walk_in_S_Ok_inv in H; trivial.
      destruct H as (w1 & t0 & A & ST & NS & NT & DA & H).
      apply IH in H as (n & es & A' & (CL & CR) & Lt & Ge & P).
      destruct A as (S1 & V1 & T1 & R1 & I1).
      assert (Hs : v_step (self w1) = v_step (self w)) by apply S1.
      rewrite Hs, V1 in Lt, Ge.
      exists (S n), (walk_in_events V t0 (read_reply E (reads w)) ++ es).
      split; [| split; [| split; [| split]]].
      * exact (advanced_trans _ _ _ _ _ 1%nat n 1%nat n
                 (conj S1 (conj V1 (conj T1 (conj R1 I1)))) A').
      * rewrite !count_app, CL, CR. split; reflexivity.
      * intros [| k] Hk; [exact C |]. cbn [V_set_after]. apply Lt. lia.
      * exact Ge.
      * subst p. unfold walk_in_locals. destruct n as [| m].
        -- rewrite Nat.add_0_r. reflexivity.
        -- rewrite R1. replace (reads w + 1 + m)%nat with (reads w + S m)%nat by lia.
           reflexivity.
    + rewrite walk_in_unfold, C in H. inversion H; subst.
      exists O, []. split; [apply advanced_refl |].
      split; [split; reflexivity |]. split; [intros k Hk; lia |].
      split; [exact C | reflexivity].
Qed.

(** A walk-in loop that is neither interrupted nor timed out runs the [n]
    cycles it takes the accumulated [V_set] to reach [Vmpp]. *)
Lemma walk_in_runs (E : environment) (t0 : float) :
  (device_area E =? 0) = false ->
  forall (n fuel : nat) (V v i : float) (w : world),
    start_time (self w) = Some t0 ->
    (forall k, (k < n)%nat -> sigint E <> Some (iterations w + k)%nat) ->
    (forall k, (k < n)%nat ->
       py_gt (rd_t (read_reply E (reads w + k)) - t0) (total_tracking_time E)
       = false) ->
    (forall k, (k < n)%nat ->
       py_lt (V_set_after k V (v_step (self w))) (Vmpp (self w)) = true) ->
    py_lt (V_set_after n V (v_step (self w))) (Vmpp (self w)) = false ->
    (n <= fuel)%nat ->
    exists es w',
      walk_in E fuel V v i w = Ok (walk_in_locals E w n v i) w' /\
      advanced w w' es n n /\
      count is_LogLine es = n.
Proof.
  intros DA. induction n as [| n IH]; intros fuel V v i w ST NS NT Lt Ge Fu.
  - exists [], w. rewrite walk_in_unfold. cbn [V_set_after] in Ge. rewrite Ge.
    split; [reflexivity |]. split; [apply advanced_refl | reflexivity].
  - destruct fuel as [| f]; [lia |].
    assert (C : py_lt V (Vmpp (self w)) = true) by (apply (Lt O); lia).
    assert (NS0 : sigint E <> Some (iterations w)).
    { specialize (NS O). rewrite Nat.add_0_r in NS. apply NS. lia. }
    assert (NT0 : py_gt (rd_t (read_reply E (reads w)) - t0)
                        (total_tracking_time E) = false).
    { specialize (NT O). rewrite Nat.add_0_r in NT. apply NT. lia. }
    destruct (walk_in_step E f V v i t0 w C ST NS0 NT0 DA) as (w1 & A & Eq).
    destruct A as (S1 & V1 & T1 & R1 & I1).
    assert (Hs : v_step (self w1) = v_step (self w)) by apply S1.
    assert (ST1 : start_time (self w1) = Some t0).
    { destruct S1 as (_ & _ & S & _). rewrite S. exact ST. }
    destruct (IH f (V + v_step (self w))
                 (rd_v (read_reply E (reads w)))
                 (rd_i (read_reply E (reads w))) w1 ST1) as (es & w' & R & A' & CL).
    + intros k Hk. rewrite I1.
      replace (iterations w + 1 + k)%nat with (iterations w + S k)%nat by lia.
      apply NS. lia.
    + intros k Hk. rewrite R1.
      replace (reads w + 1 + k)%nat with (reads w + S k)%nat by lia.
      apply NT. lia.
    + intros k Hk. rewrite Hs, V1. apply (Lt (S k)). lia.
    + rewrite Hs, V1. exact Ge.
    + lia.
    + exists (walk_in_events V t0 (read_reply E (reads w)) ++ es), w'.
      split; [| split].
      * rewrite Eq, R. f_equal.
        unfold walk_in_locals. destruct n as [| m].
        -- rewrite Nat.add_0_r. reflexivity.
        -- rewrite R1.
           replace (reads w + 1 + m)%nat with (reads w + S m)%nat by lia.
           reflexivity.
      * exact (advanced_trans _ _ _ _ _ 1%nat n 1%nat n
                 (conj S1 (conj V1 (conj T1 (conj R1 I1)))) A').
      * rewrite count_app, CL. reflexivity.
Qed.

(** ** A tracking cycle *)

(** The rule is the one the tracking loop runs: a cycle that completes
    leaves [self.Vmpp], [direction] and [previous_power] as
    [perturb_and_observe] gives them for the power [abs(v*i)] just read. *)
Lemma track_cycle_runs_rule (E : environment) (d : Z) (pp : float)
      (w w' : world) (d' : Z) (pp' : float) :
  track_cycle E d pp w = Ok (d', pp') w' ->
  let r := read_reply E (reads w) in
  let s' := perturb_and_observe (abs (rd_v r * rd_i r))
              (mk_pno (Vmpp (self w)) (v_step (self w)) d pp) in
  Vmpp (self w') = pno_Vmpp s' /\ d' = pno_direction s' /\
  pp' = pno_previous_power s' /\ v_step (self w') = v_step (self w) /\
  reads w' = S (reads w).
Proof.
  intros H. unfold track_cycle in H.
  apply bind_Ok_inv in H as (w0 & w1 & G & H).
  unfold get in G. injection G as <- <-.
  emitted H.
  apply bind_Ok_inv in H as (r & w2 & Rd & H).
  rewrite read_one_eq in Rd. injection Rd as <- <-.
  cbn [reads add_events] in H.
  destruct (read_reply E (reads w)) as [[v i] tx].
  apply bind_Ok_inv in H as ([] & w3 & C & H).
  apply check_runtime_Ok_inv in C as [-> _].
  apply bind_Ok_inv in H as ([] & w4 & U & H).
  apply update_plot_Ok_inv in U as [((_ & _ & _ & HS & _) & HV & _ & HR & _) _].
  apply bind_Ok_inv in H as (w5 & w6 & G & H).
  unfold get in G. injection G as <- <-.
  emitted H. unfold ret in H. injection H as <- <- <-.
  cbn in HS, HV, HR |- *. rewrite HS, HV, HR.
  repeat (split; [reflexivity |]). lia.
Qed.

(** ** The sweep *)

Lemma output_on_app (tr es : list event) :
  output_on (tr ++ es) = fold_left output_after es (output_on tr).
Proof. unfold output_on. apply fold_left_app. Qed.

Lemma shutter_line_app (tr es : list event) :
  shutter_line (tr ++ es) = fold_left shutter_after es (shutter_line tr).
Proof. unfold shutter_line. apply fold_left_app. Qed.

Lemma set_lim_Ok_inv (x : float) (w w' : world) :
  set_lim x w = Ok tt w' -> w' = w /\ is_finite x = true.
Proof.
  unfold set_lim. destruct (is_finite x); intros H; [| discriminate H].
  injection H as <-. split; reflexivity.
Qed.

(** [initialise_interactive_plot] completes exactly when the limits it sets
    are finite; it raises ValueError otherwise, the figure created. *)
Lemma initialise_interactive_plot_Ok_inv (E : environment) (w w' : world) :
  initialise_interactive_plot E w = Ok tt w' ->
  w' = add_events [PlotInit] w /\
  is_finite (total_tracking_time E) = true /\
  is_finite (Voc (self w)) = true /\
  is_finite (abs (Isc (self w) * 1000 / device_area E) * 1.1) = true.
Proof.
  unfold initialise_interactive_plot. intros H.
  apply bind_Ok_inv in H as ([] & w1 & H1 & H).
  unfold emit, modify in H1. injection H1 as <-.
  apply bind_Ok_inv in H as (w2 & w3 & G & H).
  unfold get in G. injection G as <- <-.
  apply bind_Ok_inv in H as ([] & w4 & L1 & H).
  apply set_lim_Ok_inv in L1 as [-> F1].
  apply bind_Ok_inv in H as ([] & w4 & L2 & H).
  apply set_lim_Ok_inv in L2 as [-> _].
  apply bind_Ok_inv in H as ([] & w4 & L3 & H).
  apply set_lim_Ok_inv in L3 as [-> _].
  apply bind_Ok_inv in H as ([] & w4 & L4 & H).
  apply set_lim_Ok_inv in L4 as [-> F4].
  apply bind_Ok_inv in H as ([] & w4 & L5 & H).
  apply set_lim_Ok_inv in L5 as [-> _].
  apply set_lim_Ok_inv in H as [-> F6].
  auto.
Qed.

Lemma initialise_interactive_plot_Ok (E : environment) (w : world) :
  is_finite (total_tracking_time E) = true ->
  is_finite (Voc (self w)) = true ->
  is_finite (abs (Isc (self w) * 1000 / device_area E) * 1.1) = true ->
  initialise_interactive_plot E w = Ok tt (add_events [PlotInit] w).
Proof.
  intros F1 F4 F6.
  unfold initialise_interactive_plot, emit, modify, bind, get, set_lim.
  cbn [self add_events]. rewrite F1, F4, F6. reflexivity.
Qed.

Lemma initialise_interactive_plot_Raise (E : environment) (w : world) :
  is_finite (total_tracking_time E) = true ->
  is_finite (Voc (self w)) = true ->
  is_finite (abs (Isc (self w) * 1000 / device_area E) * 1.1) = false ->
  initialise_interactive_plot E w = Raise ValueError (add_events [PlotInit] w).
Proof.
  intros F1 F4 F6.
  unfold initialise_interactive_plot, emit, modify, bind, get, set_lim.
  cbn [self add_events]. rewrite F1, F4, F6. reflexivity.
Qed.

(** When the sweep is not empty [determine_initial_Vmpp] stores the result
    of [analyse_sweep] and leaves the source output on; it completes when
    the limits of the plot of the sweep are finite and raises ValueError in
    [plot_sweep] otherwise. *)
Lemma determine_initial_Vmpp_cases (E : environment) (w : world) :
  match analyse_sweep (sweep_reply E) with
  | Some (isc, mpp_ind, vmpp) =>
      exists w0 es,
        determine_initial_Vmpp E w
        = (if sweep_limits_finite E then Ok tt w0 else Raise ValueError w0) /\
        Vmpp (self w0) = vmpp /\ Isc (self w0) = isc /\
        Voc (self w0) = rd_v (voc_reply E) /\
        v_step (self w0) = abs (step_reply E) /\
        start_time (self w0) = start_time (self w) /\
        task (self w0) = task (self w) /\
        reads w0 = reads w /\ iterations w0 = iterations w /\
        trace w0 = trace w ++ es /\
        (forall tr, output_on (tr ++ es) = true) /\
        count is_VisaClose es = O /\ count is_LogLine es = O /\
        (forall tr, shutter_line (tr ++ es) = shutter_line tr) /\
        set_voltages es = [rd_v (voc_reply E)]
  | None =>
      exists w0, determine_initial_Vmpp E w = Raise IndexError w0
  end.
Proof.
  unfold sweep_limits_finite, determine_initial_Vmpp, plot_sweep,
    find_open_circuit, write_to_console, emit, modify, bind, get, ret, raise.
  cbn.
  destruct (analyse_sweep (sweep_reply E)) as [[[isc idx] vmpp] |] eqn:AS; cbn.
  - assert (NE : sweep_power (sweep_reply E) <> []).
    { unfold analyse_sweep in AS.
      destruct (sweep_reply E); [discriminate AS | discriminate]. }
    destruct (sweep_power (sweep_reply E)) as [| x rest]; [congruence |].
    unfold set_lim.
    destruct (is_finite (rd_v (voc_reply E))); cbn;
      [destruct (is_finite (abs isc * 1.1)); cbn;
       [destruct (is_finite (py_max x rest * 1.1)); cbn |] |];
      (eexists; eexists; split; [reflexivity |]; cbn;
       repeat (split; [reflexivity |]);
       split; [rewrite <- !app_assoc; cbn [app]; reflexivity |];
       split; [intros tr; rewrite output_on_app; reflexivity |];
       split; [reflexivity |]; split; [reflexivity |];
       split; [intros tr; rewrite shutter_line_app; reflexivity |];
       reflexivity).
  - eexists. reflexivity.
Qed.

(** A sweep that completes has stored the result of [analyse_sweep], and
    the limits of its plot were finite. *)
Lemma determine_initial_Vmpp_Ok_inv (E : environment) (w w0 : world) :
  determine_initial_Vmpp E w = Ok tt w0 ->
  exists isc mpp_ind vmpp es,
    analyse_sweep (sweep_reply E) = Some (isc, mpp_ind, vmpp) /\
    sweep_limits_finite E = true /\
    Vmpp (self w0) = vmpp /\ Isc (self w0) = isc /\
    Voc (self w0) = rd_v (voc_reply E) /\
    v_step (self w0) = abs (step_reply E) /\
    start_time (self w0) = start_time (self w) /\
    task (self w0) = task (self w) /\
    reads w0 = reads w /\ iterations w0 = iterations w /\
    trace w0 = trace w ++ es /\
    (forall tr, output_on (tr ++ es) = true) /\
    count is_VisaClose es = O /\ count is_LogLine es = O /\
    (forall tr, shutter_line (tr ++ es) = shutter_line tr) /\
    set_voltages es = [rd_v (voc_reply E)].
Proof.
  intros D. pose proof (determine_initial_Vmpp_cases E w) as C.
  destruct (analyse_sweep (sweep_reply E)) as [[[isc idx] vmpp] |].
  2:{ destruct C as (w' & C). rewrite C in D. discriminate D. }
  destruct C as (w' & es & R & C). rewrite R in D.
  destruct (sweep_limits_finite E); [| discriminate D].
  injection D as <-. exists isc, idx, vmpp, es.
  split; [reflexivity |]. split; [reflexivity | exact C].
Qed.

(** ** Quantities kept by the statements of the loops *)

Section Keeps.

Context {X : Type} (mu : world -> X) (quiet : event -> bool).

Lemma keeps_ret {A} (a : A) : keeps mu (ret a).
Proof. intros w. reflexivity. Qed.

Lemma keeps_raise {A} (e : exn) : keeps mu (@raise A e).
Proof. intros w. reflexivity. Qed.

Lemma keeps_get : keeps mu get.
Proof. intros w. reflexivity. Qed.

Lemma keeps_bind {A B} (m : M A) (k : A -> M B) :
  keeps mu m -> (forall a, keeps mu (k a)) -> keeps mu (bind m k).
Proof.
  intros Hm Hk w. unfold bind. specialize (Hm w).
  destruct (m w) as [a w1 | e w1 | w1]; cbn in Hm |- *; trivial.
  rewrite Hk. exact Hm.
Qed.

Lemma keeps_modify (f : world -> world) :
  (forall w, mu (f w) = mu w) -> keeps mu (modify f).
Proof. intros H w. cbn. apply H. Qed.

Lemma keeps_try_except_KeyboardInterrupt {A} (body handler : M A) :
  keeps mu body -> keeps mu handler ->
  keeps mu (try_except_KeyboardInterrupt body handler).
Proof.
  intros Hb Hh w. unfold try_except_KeyboardInterrupt. specialize (Hb w).
  destruct (body w) as [a w1 | e w1 | w1]; cbn in Hb |- *; trivial.
  destruct e; cbn; trivial. rewrite Hh. exact Hb.
Qed.

(** [mu] ignores quiet events, the two counters and the plotted series;
    the events of [shutdown], [READ?] and redrawing are quiet. *)
Hypothesis mu_quiet :
  forall e w, quiet e = true -> mu (add_events [e] w) = mu w.
Hypothesis mu_count_read : forall w, mu (count_read w) = mu w.
Hypothesis mu_count_iteration : forall w, mu (count_iteration w) = mu w.
Hypothesis mu_t_data : forall x w, mu (with_self (push_t_data x) w) = mu w.
Hypothesis mu_v_data : forall x w, mu (with_self (push_v_data x) w) = mu w.
Hypothesis mu_i_data : forall x w, mu (with_self (push_i_data x) w) = mu w.
Hypothesis mu_efficiencies :
  forall x w, mu (with_self (push_efficiencies x) w) = mu w.
Hypothesis quiet_shutdown :
  forall t e, In e (shutdown_events t) -> quiet e = true.
Hypothesis quiet_READ : quiet (VisaQuery "READ?") = true.
Hypothesis quiet_PlotDraw : quiet PlotDraw = true.

Lemma keeps_emit (e : event) : quiet e = true -> keeps mu (emit e).
Proof. intros Q. apply keeps_modify. intros w. apply mu_quiet, Q. Qed.

Lemma keeps_loop_boundary (E : environment) : keeps mu (loop_boundary E).
Proof.
  unfold loop_boundary. apply keeps_bind; [apply keeps_get |]. intros w0.
  destruct (sigint E) as [k |].
  - destruct (Nat.eqb k (iterations w0)).
    + apply keeps_raise.
    + apply keeps_modify, mu_count_iteration.
  - apply keeps_modify, mu_count_iteration.
Qed.

Lemma keeps_shutdown : keeps mu shutdown.
Proof.
  unfold shutdown, write_to_console.
  apply keeps_bind; [apply keeps_get | intros w0].
  apply keeps_bind.
  - destruct (task (self w0)); [apply keeps_ret |].
    repeat (apply keeps_bind; [| intros ?]);
      apply keeps_emit, (quiet_shutdown PyObject); cbn; auto.
  - intros ?.
    repeat (apply keeps_bind; [| intros ?]); try apply keeps_raise;
      apply keeps_emit, (quiet_shutdown PyNone); cbn; auto.
Qed.

Lemma keeps_check_runtime (E : environment) (tx : float) :
  keeps mu (check_runtime E tx).
Proof.
  unfold check_runtime.
  apply keeps_bind; [apply keeps_get | intros w0].
  destruct (start_time (self w0)); [| apply keeps_raise].
  destruct (py_gt _ _); [apply keeps_shutdown | apply keeps_ret].
Qed.

Lemma keeps_py_div (a b : float) : keeps mu (py_div a b).
Proof.
  unfold py_div. destruct (b =? 0); [apply keeps_raise | apply keeps_ret].
Qed.

Lemma keeps_set_lim (x : float) : keeps mu (set_lim x).
Proof.
  unfold set_lim. destruct (is_finite x); [apply keeps_ret | apply keeps_raise].
Qed.

Lemma keeps_update_plot (E : environment) (v i tx : float) :
  keeps mu (update_plot E v i tx).
Proof.
  unfold update_plot.
  apply keeps_bind; [apply keeps_get | intros w0].
  destruct (start_time (self w0)); [| apply keeps_raise].
  apply keeps_bind; [apply keeps_modify, mu_t_data | intros ?].
  apply keeps_bind; [apply keeps_modify, mu_v_data | intros ?].
  apply keeps_bind; [apply keeps_py_div | intros ?].
  apply keeps_bind; [apply keeps_modify, mu_i_data | intros ?].
  apply keeps_bind; [apply keeps_py_div | intros ?].
  apply keeps_bind; [apply keeps_modify, mu_efficiencies | intros ?].
  apply keeps_emit, quiet_PlotDraw.
Qed.

Lemma keeps_read_one (E : environment) : keeps mu (read_one E).
Proof.
  unfold read_one.
  apply keeps_bind; [apply keeps_emit, quiet_READ | intros ?].
  apply keeps_bind; [apply keeps_get | intros ?].
  apply keeps_bind; [apply keeps_modify, mu_count_read | intros ?].
  apply keeps_ret.
Qed.

(** The walk-in loop keeps [mu] when its two own events are quiet. *)
Lemma keeps_walk_in (E : environment) (fuel : nat) :
  (forall x, quiet (VisaWriteF ":source:voltage " "" x) = true) ->
  (forall t v i, quiet (LogLine t v i) = true) ->
  forall V v i, keeps mu (walk_in E fuel V v i).
Proof.
  intros QW QL.
  induction fuel as [| f IH]; intros V v i; cbn [walk_in];
    (apply keeps_bind; [apply keeps_get | intros w0]);
    destruct (py_lt V (Vmpp (self w0))); try apply keeps_ret.
  - intros w. reflexivity.
  - apply keeps_bind; [apply keeps_loop_boundary |]. intros ?.
    apply keeps_bind; [apply keeps_emit, QW |]. intros ?.
    apply keeps_bind; [apply keeps_read_one |]. intros [[v1 i1] tx].
    apply keeps_bind; [apply keeps_update_plot |]. intros ?.
    apply keeps_bind; [apply keeps_check_runtime |]. intros ?.
    apply keeps_bind; [apply keeps_get |]. intros w1.
    apply keeps_bind; [| intros ?; apply IH].
    destruct (start_time (self w1)); [apply keeps_emit, QL | apply keeps_raise].
Qed.

(** So does everything between the sweep and the tracking loop. *)
Lemma keeps_after_sweep {A} (E : environment) (fuel : nat)
      (k : float * float -> M A) :
  (forall x f, quiet (VisaWriteF ":source:voltage " f x) = true) ->
  (forall t v i, quiet (LogLine t v i) = true) ->
  (forall msg, quiet (Console msg) = true) ->
  quiet PlotInit = true ->
  quiet (VisaWrite ":source:voltage:mode fixed") = true ->
  quiet (VisaWrite ":trigger:count 1") = true ->
  (forall t w, mu (with_self (set_start_time t) w) = mu w) ->
  (forall vi, keeps mu (k vi)) ->
  keeps mu
    (vi <- (write_to_console "Walking back to the initial Vmpp..." ;;
            initialise_interactive_plot E ;;
            emit (VisaWrite ":source:voltage:mode fixed") ;;
            emit (VisaWrite ":trigger:count 1") ;;
            r <- read_one E ;;
            let '(v, i, t) := r in
            modify (with_self (set_start_time t)) ;;
            vi <- walk_in E fuel 0 v i ;;
            w <- get ;;
            emit (VisaWriteF ":source:voltage " "0.4f" (Vmpp (self w))) ;;
            write_to_console "Device at Vmpp. Beginning MPP tracking." ;;
            ret vi) ;;
     k vi).
Proof.
  intros QW QL QC QP Q1 Q2 MS Hk.
  unfold write_to_console, initialise_interactive_plot.
  apply keeps_bind; [| exact Hk].
  apply keeps_bind; [apply keeps_emit, QC | intros ?].
  apply keeps_bind.
  { apply keeps_bind; [apply keeps_emit, QP | intros ?].
    apply keeps_bind; [apply keeps_get | intros ?].
    repeat (apply keeps_bind; [apply keeps_set_lim | intros ?]).
    apply keeps_set_lim. }
  intros ?.
  apply keeps_bind; [apply keeps_emit, Q1 | intros ?].
  apply keeps_bind; [apply keeps_emit, Q2 | intros ?].
  apply keeps_bind; [apply keeps_read_one | intros [[v i] t]].
  apply keeps_bind; [apply keeps_modify, MS | intros ?].
  apply keeps_bind; [apply keeps_walk_in; auto | intros ?].
  apply keeps_bind; [apply keeps_get | intros ?].
  apply keeps_bind; [apply keeps_emit, QW | intros ?].
  apply keeps_bind; [apply keeps_emit, QC | intros ?].
  apply keeps_ret.
Qed.

(** The tracking loop and its handler keep [mu] when the loop's own event
    is quiet and [mu] ignores [Vmpp]. *)
Section Tracking.

Hypothesis quiet_set_voltage :
  forall x, quiet (VisaWriteF ":source:voltage " "0.4f" x) = true.
Hypothesis mu_Vmpp : forall x w, mu (with_self (set_Vmpp x) w) = mu w.

Lemma keeps_track_cycle (E : environment) (d : Z) (pp : float) :
  keeps mu (track_cycle E d pp).
Proof.
  unfold track_cycle.
  apply keeps_bind; [apply keeps_get | intros w0].
  apply keeps_bind; [apply keeps_emit, quiet_set_voltage | intros ?].
  apply keeps_bind; [apply keeps_read_one | intros [[v i] tx]].
  apply keeps_bind; [apply keeps_check_runtime | intros ?].
  apply keeps_bind; [apply keeps_update_plot | intros ?].
  apply keeps_bind; [apply keeps_get | intros w1].
  apply keeps_bind; [apply keeps_modify, mu_Vmpp | intros ?].
  apply keeps_ret.
Qed.

Lemma keeps_track_loop (E : environment) (fuel : nat) :
  forall d pp, keeps mu (track_loop E fuel d pp).
Proof.
  induction fuel as [| f IH]; intros d pp; cbn [track_loop].
  - intros w. reflexivity.
  - apply keeps_bind; [apply keeps_loop_boundary | intros ?].
    apply keeps_bind; [apply keeps_track_cycle | intros ?].
    apply IH.
Qed.

Lemma keeps_track_from (E : environment) (fuel : nat) (v i : float) :
  keeps mu (track_from E fuel v i).
Proof.
  unfold track_from. apply keeps_try_except_KeyboardInterrupt.
  - apply keeps_track_loop.
  - apply keeps_shutdown.
Qed.

End Tracking.

End Keeps.

(** *** [Vmpp] and [Voc] through the walk-in *)

Lemma bounds_emit (e : event) : keeps session_bounds (emit e).
Proof. apply keeps_modify. reflexivity. Qed.

Lemma bounds_read_one (E : environment) : keeps session_bounds (read_one E).
Proof. apply (keeps_read_one session_bounds always_quiet); reflexivity. Qed.

Lemma bounds_after_sweep (E : environment) (fuel : nat) :
  keeps session_bounds
    (vi <- (write_to_console "Walking back to the initial Vmpp..." ;;
            initialise_interactive_plot E ;;
            emit (VisaWrite ":source:voltage:mode fixed") ;;
            emit (VisaWrite ":trigger:count 1") ;;
            r <- read_one E ;;
            let '(v, i, t) := r in
            modify (with_self (set_start_time t)) ;;
            vi <- walk_in E fuel 0 v i ;;
            w <- get ;;
            emit (VisaWriteF ":source:voltage " "0.4f" (Vmpp (self w))) ;;
            write_to_console "Device at Vmpp. Beginning MPP tracking." ;;
            ret vi) ;;
     ret vi).
Proof.
  apply (keeps_after_sweep session_bounds always_quiet);
    intros; first [reflexivity | apply keeps_ret].
Qed.

(** *** The log through the tracking loop *)

Lemma log_lines_quiet (e : event) (w : world) :
  log_quiet e = true -> log_lines (add_events [e] w) = log_lines w.
Proof.
  unfold log_quiet, log_lines, add_events. cbn [trace]. intros Q.
  rewrite count_app. unfold count at 2. cbn [filter].
  destruct (is_LogLine e); [discriminate Q | cbn; lia].
Qed.

Lemma log_quiet_shutdown (t : ref) (e : event) :
  In e (shutdown_events t) -> log_quiet e = true.
Proof.
  destruct t; cbn; intuition (subst; reflexivity).
Qed.

Lemma log_track_from (E : environment) (fuel : nat) (v i : float) :
  keeps log_lines (track_from E fuel v i).
Proof.
  apply (keeps_track_from log_lines log_quiet);
    intros; first [reflexivity | eauto using log_lines_quiet, log_quiet_shutdown].
Qed.

Lemma log_track_cycle (E : environment) (d : Z) (pp : float) :
  keeps log_lines (track_cycle E d pp).
Proof.
  apply (keeps_track_cycle log_lines log_quiet);
    intros; first [reflexivity | eauto using log_lines_quiet, log_quiet_shutdown].
Qed.

(** *** The Measurement Port after the sweep *)

Lemma keithley_port_quiet (e : event) (w : world) :
  port_quiet e = true -> keithley_port (add_events [e] w) = keithley_port w.
Proof.
  unfold port_quiet, keithley_port, add_events. cbn [trace]. intros Q.
  apply andb_prop in Q as [Q Q0]. apply andb_prop in Q as [QC Q1].
  apply Bool.eqb_prop in Q0, Q1.
  rewrite output_on_app, count_app. unfold count at 2. cbn [filter fold_left].
  destruct (is_VisaClose e); [discriminate QC |].
  f_equal; [| cbn; lia].
  destruct (output_on (trace w)); assumption.
Qed.

Lemma port_quiet_shutdown (t : ref) (e : event) :
  In e (shutdown_events t) -> port_quiet e = true.
Proof.
  destruct t; cbn; intuition (subst; reflexivity).
Qed.

Lemma port_shutdown : keeps keithley_port shutdown.
Proof.
  apply (keeps_shutdown keithley_port port_quiet);
    intros;
    first [reflexivity | eauto using keithley_port_quiet, port_quiet_shutdown].
Qed.

Lemma port_track_from (E : environment) (fuel : nat) (v i : float) :
  keeps keithley_port (track_from E fuel v i).
Proof.
  apply (keeps_track_from keithley_port port_quiet);
    intros;
    first [reflexivity | eauto using keithley_port_quiet, port_quiet_shutdown].
Qed.

Lemma port_after_sweep (E : environment) (fuel : nat) :
  keeps keithley_port
    (vi <- (write_to_console "Walking back to the initial Vmpp..." ;;
            initialise_interactive_plot E ;;
            emit (VisaWrite ":source:voltage:mode fixed") ;;
            emit (VisaWrite ":trigger:count 1") ;;
            r <- read_one E ;;
            let '(v, i, t) := r in
            modify (with_self (set_start_time t)) ;;
            vi <- walk_in E fuel 0 v i ;;
            w <- get ;;
            emit (VisaWriteF ":source:voltage " "0.4f" (Vmpp (self w))) ;;
            write_to_console "Device at Vmpp. Beginning MPP tracking." ;;
            ret vi) ;;
     let '(v, i) := vi in track_from E fuel v i).
Proof.
  apply (keeps_after_sweep keithley_port port_quiet);
    intros;
    first [reflexivity
          | eauto using keithley_port_quiet, port_quiet_shutdown
          | idtac].
  destruct vi as [v i]. apply port_track_from.
Qed.

(** ** The maximum of the sweep *)

Lemma argmax_scan_max (l : list float) :
  forall (pre : list float) (mp : float) (best : nat),
    (forall x, In x l -> is_nan x = false) ->
    is_nan mp = false ->
    (best < List.length pre)%nat ->
    nth best pre 0 = mp ->
    (forall j, (j < List.length pre)%nat -> (nth j pre 0 <=? mp) = true) ->
    let r := argmax_scan mp best (List.length pre) l in
    (r < List.length (pre ++ l))%nat /\
    forall j, (j < List.length (pre ++ l))%nat ->
              (nth j (pre ++ l) 0 <=? nth r (pre ++ l) 0) = true.
Proof.
  induction l as [| x rest IH]; intros pre mp best NN Nmp Hb Hmp Hmax; cbn zeta.
  - cbn [argmax_scan]. rewrite app_nil_r. split; [exact Hb |].
    intros j Hj. rewrite Hmp. apply Hmax, Hj.
  - cbn [argmax_scan].
    assert (Nx : is_nan x = false) by (apply NN; left; reflexivity).
    assert (Len : List.length (pre ++ [x]) = S (List.length pre))
      by (rewrite length_app; cbn; lia).
    replace (pre ++ x :: rest) with ((pre ++ [x]) ++ rest)
      by (rewrite <- app_assoc; reflexivity).
    destruct (x <=? mp) eqn:Le; cbn [negb].
    + rewrite <- Len. apply IH.
      * intros y Hy. apply NN. right. exact Hy.
      * exact Nmp.
      * rewrite Len. lia.
      * rewrite app_nth1 by exact Hb. exact Hmp.
      * intros j Hj. rewrite Len in Hj.
        destruct (Nat.eq_dec j (List.length pre)) as [-> | Ne].
        -- rewrite nth_middle. exact Le.
        -- rewrite app_nth1 by lia. apply Hmax. lia.
    + rewrite Nx. rewrite <- Len. apply IH.
      * intros y Hy. apply NN. right. exact Hy.
      * exact Nx.
      * rewrite ?Len. lia.
      * rewrite ?Len. apply nth_middle.
      * intros j Hj. rewrite Len in Hj.
        destruct (Nat.eq_dec j (List.length pre)) as [-> | Ne].
        -- rewrite nth_middle. apply FloatOrder.leb_refl, Nx.
        -- rewrite app_nth1 by lia.
           apply FloatOrder.leb_trans with mp; [apply Hmax; lia |].
           apply FloatOrder.leb_total; assumption.
Qed.

Lemma argmax_scan_flat (l : list float) :
  forall (mp : float) (best k : nat),
    (forall x, In x l -> (x <=? mp) = true) ->
    argmax_scan mp best k l = best.
Proof.
  induction l as [| x rest IH]; intros mp best k H; cbn [argmax_scan];
    [reflexivity |].
  rewrite (H x) by (left; reflexivity). cbn [negb].
  apply IH. intros y Hy. apply H. right. exact Hy.
Qed.

(** [np.argmax] returns an index of a greatest element of an array
    without NaN. *)
Lemma np_argmax_max (p : list float) :
  p <> [] ->
  (forall x, In x p -> is_nan x = false) ->
  exists r, np_argmax p = Some r /\ (r < List.length p)%nat /\
            forall j, (j < List.length p)%nat ->
                      (nth j p 0 <=? nth r p 0) = true.
Proof.
  destruct p as [| x rest]; [congruence |]. intros _ NN.
  assert (Nx : is_nan x = false) by (apply NN; left; reflexivity).
  unfold np_argmax. rewrite Nx.
  exists (argmax_scan x 0 1 rest). split; [reflexivity |].
  apply (argmax_scan_max rest [x] x O).
  - intros y Hy. apply NN. right. exact Hy.
  - exact Nx.
  - cbn. lia.
  - reflexivity.
  - intros j Hj. cbn in Hj. assert (j = O) as -> by lia. cbn.
    apply FloatOrder.leb_refl, Nx.
Qed.

(** On an array whose elements all compare equal to zero it returns 0. *)
Lemma np_argmax_all_zero (p : list float) :
  p <> [] ->
  (forall x, In x p -> (x =? 0) = true) ->
  np_argmax p = Some O.
Proof.
  destruct p as [| x rest]; [congruence |]. intros _ Z.
  assert (Zx : (x =? 0) = true) by (apply Z; left; reflexivity).
  unfold np_argmax. rewrite (FloatOrder.eqb_zero_not_nan x Zx).
  f_equal. apply argmax_scan_flat.
  intros y Hy. apply FloatOrder.zero_leb_zero; [| exact Zx].
  apply Z. right. exact Hy.
Qed.

Lemma In_sweep_power (jv : list reading) (x : float) :
  In x (sweep_power jv) -> exists r, In r jv /\ x = abs (rd_v r * rd_i r).
Proof.
  unfold sweep_power. rewrite in_map_iff. intros (r & <- & Hr). eauto.
Qed.

Lemma last_cons_indep {A} (l : list A) (a d1 d2 : A) :
  last (a :: l) d1 = last (a :: l) d2.
Proof.
  revert a. induction l as [| b l IH]; intros a; [reflexivity |].
  change (last (b :: l) d1 = last (b :: l) d2). apply IH.
Qed.

Lemma analyse_sweep_eq (jv : list reading) (r : nat) :
  np_argmax (sweep_power jv) = Some r ->
  (r < List.length jv)%nat ->
  analyse_sweep jv
  = Some (last (map rd_i jv) 0, r, nth r (map rd_v jv) 0).
Proof.
  intros AM Lr. unfold analyse_sweep.
  destruct jv as [| r0 rest]; [cbn in Lr; lia |].
  rewrite AM. f_equal. f_equal.
  - f_equal. cbn [map]. apply last_cons_indep.
  - apply nth_indep. rewrite length_map. exact Lr.
Qed.

(** [max(p)] is one of the items of [p]. *)
Lemma py_max_In (rest : list float) :
  forall x, In (py_max x rest) (x :: rest).
Proof.
  unfold py_max. induction rest as [| y rest IH]; intros x; cbn [fold_left].
  - left. reflexivity.
  - destruct (IH (if py_gt y x then y else x)) as [H | H].
    + rewrite <- H. destruct (py_gt y x); [right; left | left]; reflexivity.
    + right. right. exact H.
Qed.

(** C6, as the code runs it: for a sweep that is not empty and whose powers
    [|v*i|] are not NaN, [determine_initial_Vmpp] stores
    [Vmpp = v[maxPowerIndex]], the voltage of a sample [best] with
    [|v[k]*i[k]| <= |v*i| of best] for every sample [k]; it completes when
    the three limits of the plot of the sweep are finite, and raises
    ValueError in [plot_sweep], with [Vmpp] stored, when one is not.  When
    the power array is all-zero, [maxPowerIndex] is 0 and [Vmpp] is the
    first swept voltage reading, whatever [Voc] was measured. *)
Theorem sweep_finds_maximum_power (E : environment) (w : world) :
  sweep_reply E <> [] ->
  (forall r, In r (sweep_reply E) -> is_nan (abs (rd_v r * rd_i r)) = false) ->
  exists (maxPowerIndex : nat) (best : reading) (w' : world),
    (determine_initial_Vmpp E w = Ok tt w' \/
     determine_initial_Vmpp E w = Raise ValueError w') /\
    (is_finite (rd_v (voc_reply E)) = true ->
     is_finite (abs (last (map rd_i (sweep_reply E)) 0) * 1.1) = true ->
     (forall r, In r (sweep_reply E) ->
                is_finite (abs (rd_v r * rd_i r) * 1.1) = true) ->
     determine_initial_Vmpp E w = Ok tt w') /\
    nth_error (sweep_reply E) maxPowerIndex = Some best /\
    Vmpp (self w') = rd_v best /\
    Voc (self w') = rd_v (voc_reply E) /\
    (forall k r, nth_error (sweep_reply E) k = Some r ->
       (abs (rd_v r * rd_i r) <=? abs (rd_v best * rd_i best)) = true) /\
    ((forall r, In r (sweep_reply E) -> (abs (rd_v r * rd_i r) =? 0) = true) ->
     maxPowerIndex = O /\ nth_error (sweep_reply E) 0 = Some best).
Proof.
  intros NE NN.
  destruct (np_argmax_max (sweep_power (sweep_reply E))) as (r & AM & Lr & Max).
  { unfold sweep_power. destruct (sweep_reply E); [congruence | discriminate]. }
  { intros x Hx. apply In_sweep_power in Hx as (rd & Hrd & ->). apply NN, Hrd. }
  assert (Lr' : (r < List.length (sweep_reply E))%nat).
  { unfold sweep_power in Lr. rewrite length_map in Lr. exact Lr. }
  pose proof (determine_initial_Vmpp_cases E w) as D.
  assert (AS : analyse_sweep (sweep_reply E)
               = Some (last (map rd_i (sweep_reply E)) 0, r,
                       nth r (map rd_v (sweep_reply E)) 0))
    by (apply analyse_sweep_eq; assumption).
  rewrite AS in D.
  destruct D as (w0 & es & R & HV & HI & HVoc & _).
  set (d := (0, 0, 0) : reading).
  assert (P : forall k, (k < List.length (sweep_reply E))%nat ->
                nth k (sweep_power (sweep_reply E)) 0
                = abs (rd_v (nth k (sweep_reply E) d)
                       * rd_i (nth k (sweep_reply E) d))).
  { intros k Hk. unfold sweep_power.
    rewrite (nth_indep _ 0 (abs (rd_v d * rd_i d)))
      by (rewrite length_map; exact Hk).
    apply (map_nth (fun r => abs (rd_v r * rd_i r))). }
  exists r, (nth r (sweep_reply E) d), w0.
  split; [rewrite R; destruct (sweep_limits_finite E); auto |].
  split.
  { intros FV FI FP. rewrite R.
    replace (sweep_limits_finite E) with true; [reflexivity |].
    unfold sweep_limits_finite. rewrite AS.
    destruct (sweep_power (sweep_reply E)) as [| x rest] eqn:SP;
      [cbn in Lr; lia |].
    rewrite FV, FI. cbn [andb]. symmetry.
    pose proof (py_max_In rest x) as M. rewrite <- SP in M.
    apply In_sweep_power in M as (rd & Hrd & ->). apply FP, Hrd. }
  split; [apply nth_error_nth'; exact Lr' |].
  split.
  { rewrite HV, (nth_indep _ 0 (rd_v d)) by (rewrite length_map; exact Lr').
    apply map_nth. }
  split; [exact HVoc |].
  split.
  { intros k rk Hk.
    assert (Lk : (k < List.length (sweep_reply E))%nat)
      by (apply nth_error_Some; congruence).
    apply (nth_error_nth _ _ d) in Hk. rewrite <- Hk.
    rewrite <- !P by assumption. apply Max.
    unfold sweep_power. rewrite length_map. exact Lk. }
  intros Z.
  assert (r = O) as ->.
  { assert (AZ : np_argmax (sweep_power (sweep_reply E)) = Some O).
    { apply np_argmax_all_zero.
      - unfold sweep_power. destruct (sweep_reply E); [congruence | discriminate].
      - intros x Hx. apply In_sweep_power in Hx as (rd & Hrd & ->).
        apply Z, Hrd. }
    congruence. }
  split; [reflexivity |]. apply nth_error_nth'. exact Lr'.
Qed.

(** A lit three-point sweep: the maximum power is at index 1, and the sweep
    completes with [Vmpp = 0.25], the voltage of that sample. *)
Lemma sweep_finds_maximum_power_example :
  exists (maxPowerIndex : nat) (best : reading) (w' : world),
    determine_initial_Vmpp lit_cell initial_world = Ok tt w' /\
    nth_error [(0.5, 0, 0); (0.25, -0.01, 0.1); (0, -0.02, 0.2)] maxPowerIndex
    = Some best /\
    Vmpp (self w') = rd_v best /\
    (abs (0.25 * -0.01) <=? abs (rd_v best * rd_i best)) = true.
Proof.
  destruct (sweep_finds_maximum_power lit_cell initial_world)
    as (k & best & w' & _ & D & N & V & _ & M & _).
  - discriminate.
  - intros r [<- | [<- | [<- | []]]]; reflexivity.
  - exists k, best, w'. split.
    + apply D; [reflexivity | reflexivity |].
      intros r [<- | [<- | [<- | []]]]; reflexivity.
    + split; [exact N |]. split; [exact V |].
      apply (M 1%nat (0.25, -0.01, 0.1)). reflexivity.
Defined.

(** C6 refuted: in the dark every power of the sweep is zero and
    [maxPowerIndex] is 0, but [Vmpp] is the voltage that the first sample of
    the sweep reads, 0.6123, and not the [Voc] measured before, 0.61234. *)
Lemma dark_sweep_Vmpp_is_not_Voc :
  (forall r, In r (sweep_reply dark_rounded) ->
             (abs (rd_v r * rd_i r) =? 0) = true) /\
  determine_initial_Vmpp dark_rounded initial_world
  = Ok tt (final_world (determine_initial_Vmpp dark_rounded initial_world)) /\
  analyse_sweep (sweep_reply dark_rounded) = Some (0, O, 0.6123) /\
  Vmpp (self (final_world (determine_initial_Vmpp dark_rounded initial_world)))
  = 0.6123 /\
  Voc (self (final_world (determine_initial_Vmpp dark_rounded initial_world)))
  = 0.61234 /\
  (0.6123 =? 0.61234) = false.
Proof.
  split.
  - intros r [<- | [<- | [<- | []]]]; reflexivity.
  - repeat match goal with |- _ /\ _ => split end; vm_compute; reflexivity.
Qed.

(** ** The number of walk-in cycles *)

(** C7, as the code runs it: with a non-zero device area, no interrupt and
    no time-out, the walk-in from [V_set = 0] ends after exactly [n] cycles,
    where [n] is the first count at which [V_set], the binary64 sum of [n]
    steps, is no longer below [Vmpp]; each cycle takes one reading and
    writes one log line, and [Vmpp] is unchanged. *)
Theorem walk_in_cycle_count (E : environment) (fuel n : nat)
        (v i t0 : float) (w : world) :
  (device_area E =? 0) = false ->
  start_time (self w) = Some t0 ->
  (forall k, (k < n)%nat -> sigint E <> Some (iterations w + k)%nat) ->
  (forall k, (k < n)%nat ->
     py_gt (rd_t (read_reply E (reads w + k)) - t0) (total_tracking_time E)
     = false) ->
  (forall k, (k < n)%nat ->
     py_lt (V_set_after k 0 (v_step (self w))) (Vmpp (self w)) = true) ->
  py_lt (V_set_after n 0 (v_step (self w))) (Vmpp (self w)) = false ->
  (n <= fuel)%nat ->
  exists w',
    walk_in E fuel 0 v i w = Ok (walk_in_locals E w n v i) w' /\
    iterations w' = (iterations w + n)%nat /\
    reads w' = (reads w + n)%nat /\
    log_lines w' = (log_lines w + n)%nat /\
    Vmpp (self w') = Vmpp (self w).
Proof.
  intros DA ST NS NT Lt Ge Fu.
  destruct (walk_in_runs E t0 DA n fuel 0 v i w ST NS NT Lt Ge Fu)
    as (es & w' & R & (_ & V' & T' & R' & I') & CL).
  exists w'. split; [exact R |]. split; [exact I' |]. split; [exact R' |].
  split; [| exact V'].
  unfold log_lines. rewrite T', count_app, CL. reflexivity.
Qed.

(** The spec's example: [Vmpp = 0.62] and [stepSize = 0.01] give 62 cycles. *)
Lemma walk_in_cycle_count_example :
  exists w',
    walk_in steady 62 0 0 0 (walking 0.62 0.01) = Ok (0.5, -0.01) w' /\
    iterations w' = 62%nat /\
    reads w' = 63%nat /\
    log_lines w' = 62%nat /\
    Vmpp (self w') = 0.62.
Proof.
  apply (walk_in_cycle_count steady 62 62 0 0 0 (walking 0.62 0.01)).
  - reflexivity.
  - reflexivity.
  - intros k _. discriminate.
  - intros k _. reflexivity.
  - intros k Hk.
    do 62 (destruct k as [| k]; [vm_compute; reflexivity |]). lia.
  - vm_compute. reflexivity.
  - lia.
Defined.

(** C7 refuted: for [Vmpp = 0.8] and [stepSize = 0.1], both positive and
    with [ceil(Vmpp / stepSize) = 8], the walk-in takes 9 cycles: the sum of
    eight steps is the binary64 number just below 0.8. *)
Lemma walk_in_count_exceeds_ceiling :
  py_gt 0.8 0 = true /\ py_gt 0.1 0 = true /\
  ceil_quotient 0.8 0.1 = Some 8%Z /\
  float_ceil (0.8 / 0.1) = Some 8%Z /\
  py_lt (V_set_after 8 0 0.1) 0.8 = true /\
  exists p w',
    walk_in steady 100 0 0 0 (walking 0.8 0.1) = Ok p w' /\
    iterations w' = 9%nat.
Proof.
  repeat (split; [vm_compute; reflexivity |]).
  eexists. eexists. split; [vm_compute; reflexivity | reflexivity].
Qed.

(** ** [Vmpp] between the sweep and the tracking loop *)

Lemma argmax_scan_range (l : list float) :
  forall (mp : float) (best k : nat),
    (best < k)%nat -> (argmax_scan mp best k l < k + List.length l)%nat.
Proof.
  induction l as [| x rest IH]; intros mp best k Hb; cbn [argmax_scan List.length].
  - lia.
  - destruct (negb (x <=? mp)).
    + destruct (is_nan x); [lia |].
      specialize (IH x k (S k)). lia.
    + specialize (IH mp best (S k)). lia.
Qed.

(** The voltage that [analyse_sweep] returns is one of the swept voltages. *)
Lemma analyse_sweep_In (jv : list reading) (isc vmpp : float) (idx : nat) :
  analyse_sweep jv = Some (isc, idx, vmpp) -> In vmpp (map rd_v jv).
Proof.
  unfold analyse_sweep. destruct jv as [| r0 rest]; [discriminate |].
  destruct (np_argmax (sweep_power (r0 :: rest))) as [r |] eqn:AM;
    [| discriminate].
  intros H.
  assert (vmpp = nth r (map rd_v (r0 :: rest)) (rd_v r0)) as -> by congruence.
  apply nth_In. rewrite length_map.
  unfold np_argmax, sweep_power in AM. cbn [map] in AM.
  assert (r = if is_nan (abs (rd_v r0 * rd_i r0)) then O
              else argmax_scan (abs (rd_v r0 * rd_i r0)) 0 1
                     (map (fun r => abs (rd_v r * rd_i r)) rest)) as ->
      by congruence.
  destruct (is_nan _); [cbn; lia |].
  pose proof (argmax_scan_range
                (map (fun r => abs (rd_v r * rd_i r)) rest)
                (abs (rd_v r0 * rd_i r0)) 0 1) as R.
  rewrite length_map in R. cbn [List.length]. lia.
Qed.

Lemma bind_assoc {A B C} (m : M A) (f : A -> M B) (g : B -> M C) (w : world) :
  bind (bind m f) g w = bind m (fun a => bind (f a) g) w.
Proof. unfold bind. destruct (m w); reflexivity. Qed.

Lemma bind_ret {A} (m : M A) (w : world) :
  final_world (bind m ret w) = final_world (m w).
Proof. unfold bind. destruct (m w); reflexivity. Qed.

(** [Voc] and [v_step] through a tracking cycle. *)
Lemma track_cycle_keeps_sweep_results (E : environment) (d : Z) (pp : float) :
  keeps sweep_results (track_cycle E d pp).
Proof.
  apply (keeps_track_cycle sweep_results always_quiet); intros; reflexivity.
Qed.

(** C1, as the code runs it: the [Vmpp] stored by a completed sweep is the
    voltage reading of one of the samples of the sweep, and [Voc] the
    open-circuit reading; both stay as they are until the tracking loop
    starts, however the walk-in ends; every tracking cycle that completes
    then moves [Vmpp] by exactly one [v_step] in the direction held after
    the comparison, with [Voc] and [v_step] as they were: nothing holds
    [Vmpp] inside [0, Voc]. *)
Theorem Vmpp_from_sweep_through_tracking (E : environment) (w w0 : world) :
  determine_initial_Vmpp E w = Ok tt w0 ->
  (In (Vmpp (self w0)) (map rd_v (sweep_reply E)) /\
   Voc (self w0) = rd_v (voc_reply E)) /\
  (forall fuel,
     session_bounds (final_world (walk_back_to_Vmpp E fuel w))
     = session_bounds w0) /\
  (forall d pp w1 d' pp' w2,
     track_cycle E d pp w1 = Ok (d', pp') w2 ->
     (d' = d \/ d' = (- d)%Z) /\
     Vmpp (self w2) = Vmpp (self w1) + float_of_int d' * v_step (self w1) /\
     Voc (self w2) = Voc (self w1) /\
     v_step (self w2) = v_step (self w1)).
Proof.
  intros D.
  destruct (determine_initial_Vmpp_Ok_inv E w w0 D)
    as (isc & idx & vmpp & es & AS & _ & HV & _ & HVoc & _).
  split; [| split].
  - split; [| exact HVoc].
    rewrite HV. exact (analyse_sweep_In _ _ _ _ AS).
  - intros fuel. rewrite <- bind_ret. unfold walk_back_to_Vmpp.
    rewrite bind_assoc, (bind_Ok _ _ _ _ _ D). apply bounds_after_sweep.
  - intros d pp w1 d' pp' w2 C.
    pose proof (track_cycle_keeps_sweep_results E d pp w1) as K.
    rewrite C in K. cbn [final_world] in K. unfold sweep_results in K.
    injection K as KV _ KS.
    apply track_cycle_runs_rule in C. cbv zeta in C.
    destruct C as (HVm & Hd & _ & _ & _).
    unfold perturb_and_observe, int_times_float in HVm, Hd.
    cbn [pno_previous_power pno_direction pno_Vmpp pno_v_step] in HVm, Hd.
    destruct (py_gt _ pp);
      cbn [pno_direction pno_Vmpp] in HVm, Hd; subst d'.
    + split; [left; reflexivity |]. split; [exact HVm |].
      split; [exact KV | exact KS].
    + split; [right; lia |]. split; [exact HVm |].
      split; [exact KV | exact KS].
Qed.

(** The lit cell: the sweep stores the voltage of its second sample, the
    walk-in leaves it alone, and the first tracking cycle, whose power
    equals the previous one, takes it one step down, from 0.25 to 0. *)
Lemma Vmpp_from_sweep_through_tracking_example :
  In 0.25 (map rd_v (sweep_reply lit_cell)) /\
  session_bounds
    (final_world (walk_back_to_Vmpp lit_cell 20
                    (final_world (init lit_cell initial_world))))
  = (0.25, 0.5) /\
  Vmpp (self (final_world (track_cycle lit_cell 1 0.0025
                             (tracking_start lit_cell 20))))
  = 0.
Proof.
  destruct (Vmpp_from_sweep_through_tracking lit_cell
              (final_world (init lit_cell initial_world))
              (final_world (determine_initial_Vmpp lit_cell
                              (final_world (init lit_cell initial_world)))))
    as ((M & _) & K & T).
  - vm_compute. reflexivity.
  - split; [vm_compute in M |- *; exact M |].
    split; [rewrite (K 20%nat); vm_compute; reflexivity |].
    destruct (T 1%Z 0.0025 (tracking_start lit_cell 20) (-1)%Z 0.0025
                (final_world (track_cycle lit_cell 1 0.0025
                                (tracking_start lit_cell 20))))
      as (_ & V & _).
    + vm_compute. reflexivity.
    + rewrite V. vm_compute. reflexivity.
Defined.

(** The sweep starts at [Voc] rounded to four decimals: when that is above
    the [Voc] measured and the first sample has the greatest power, the
    [Vmpp] stored is above [Voc] as soon as the sweep completes. *)
Lemma Vmpp_above_Voc_after_sweep :
  determine_initial_Vmpp dark_rounded_up initial_world
  = Ok tt (final_world (determine_initial_Vmpp dark_rounded_up initial_world)) /\
  Voc (self (final_world (determine_initial_Vmpp dark_rounded_up initial_world)))
  = 0.61236 /\
  Vmpp (self (final_world (determine_initial_Vmpp dark_rounded_up initial_world)))
  = 0.6124 /\
  (0.6124 <=? 0.61236) = false.
Proof.
  repeat match goal with |- _ /\ _ => split end; vm_compute; reflexivity.
Qed.

(** C1 refuted: in the dark all powers of the sweep are zero, [Vmpp] starts
    at [Voc = 0.5], and the rising power read while tracking takes it to
    1.25 before the time-out ends the run. *)
Lemma Vmpp_exceeds_Voc_while_tracking :
  exit_status (run dark_cell 30) = Some 0%Z /\
  Voc (self (final_world (run dark_cell 30))) = 0.5 /\
  Vmpp (self (final_world (run dark_cell 30))) = 1.25 /\
  (Vmpp (self (final_world (run dark_cell 30)))
   <=? Voc (self (final_world (run dark_cell 30)))) = false.
Proof.
  repeat match goal with |- _ /\ _ => split end; vm_compute; reflexivity.
Qed.

(** ** Leaving the program *)

Ltac evaluate :=
  repeat match goal with |- _ /\ _ => split end; vm_compute; reflexivity.

(** C2, what the code does: once the sweep has completed, the run leaves
    the source output on and the VISA session open however it ends, by
    time-out and by cancellation included: [shutdown] closes the shutter
    and the log but sends nothing to the Keithley and does not close it. *)
Theorem keithley_left_on_and_open (E : environment) (fuel : nat) (w w0 : world) :
  determine_initial_Vmpp E w = Ok tt w0 ->
  keithley_port (final_world (track_maximum_power_point E fuel w))
  = (true, count is_VisaClose (trace w)).
Proof.
  intros D.
  destruct (determine_initial_Vmpp_Ok_inv E w w0 D)
    as (isc & idx & vmpp & es & _ & _ & _ & _ & _ & _ & _ & _ & _ & _
        & T & On & NC & _).
  unfold track_maximum_power_point, walk_back_to_Vmpp.
  rewrite bind_assoc, (bind_Ok _ _ _ _ _ D).
  rewrite (port_after_sweep E fuel w0).
  unfold keithley_port. rewrite T, On, count_app, NC. f_equal. lia.
Qed.

(** The lit cell, tracked until the time-out: exit status 0, shutter closed
    and released once, source output on, VISA session never closed. *)
Lemma keithley_left_on_and_open_example :
  keithley_port (final_world (run lit_cell 20)) = (true, O) /\
  exit_status (run lit_cell 20) = Some 0%Z /\
  shutter_port (final_world (run lit_cell 20)) = (Some true, 1%nat).
Proof.
  split; [| evaluate].
  assert (D : determine_initial_Vmpp lit_cell
                (final_world (init lit_cell initial_world))
              = Ok tt (final_world
                         (determine_initial_Vmpp lit_cell
                            (final_world (init lit_cell initial_world)))))
    by (vm_compute; reflexivity).
  pose proof (keithley_left_on_and_open lit_cell 20 _ _ D) as K.
  vm_compute in K |- *. exact K.
Defined.

(** The same on cancellation; on a failure to initialise the Keithley the
    output was never switched on and the session, if opened, is closed. *)
Lemma keithley_on_other_exits :
  keithley_port (final_world (run (with_sigint 3 lit_cell) 20)) = (true, O) /\
  exit_status (run (with_sigint 3 lit_cell) 20) = Some 0%Z /\
  keithley_port (final_world (run (with_keithley_fault 4 lit_cell) 20))
  = (false, 1%nat) /\
  keithley_port (final_world (run (with_keithley_fault 1 lit_cell) 20))
  = (false, O) /\
  exit_status (run (with_keithley_fault 4 lit_cell) 20) = Some 1%Z.
Proof.
  evaluate.
Qed.

(** An interrupt at the start of a walk-in cycle leaves the loop and the
    function as it is raised. *)
Lemma walk_in_sigint (E : environment) (f : nat) (V v i : float) (w : world) :
  sigint E = Some (iterations w) ->
  py_lt V (Vmpp (self w)) = true ->
  walk_in E (S f) V v i w = Raise KeyboardInterrupt w.
Proof.
  intros S C. rewrite walk_in_unfold, C.
  apply bind_Raise, loop_boundary_sigint, S.
Qed.

(** An interrupt at the start of a tracking cycle runs [shutdown], as a
    time-out does. *)
Lemma track_from_sigint (E : environment) (f : nat) (v i : float) (w : world) :
  sigint E = Some (iterations w) ->
  track_from E (S f) v i w = shutdown w.
Proof.
  intros S. unfold track_from, try_except_KeyboardInterrupt.
  cbn [track_loop].
  rewrite (bind_Raise _ _ _ _ _ (loop_boundary_sigint E w S)). reflexivity.
Qed.

(** C3, what the code does: a Ctrl-C delivered at the start of the first
    walk-in cycle is not caught; the run ends in KeyboardInterrupt with a
    non-zero status, the shutter still open, its task and the log not
    closed.  Delivered in the tracking loop (iteration 3) it runs
    [shutdown] and the status is 0. *)
Theorem interrupt_in_walk_in_escapes :
  run (with_sigint 0 lit_cell) 20
  = Raise KeyboardInterrupt (final_world (run (with_sigint 0 lit_cell) 20)) /\
  exit_status (run (with_sigint 0 lit_cell) 20) = Some 130%Z /\
  shutter_port (final_world (run (with_sigint 0 lit_cell) 20))
  = (Some false, O) /\
  count is_LogClose (trace (final_world (run (with_sigint 0 lit_cell) 20))) = O /\
  exit_status (run (with_sigint 3 lit_cell) 20) = Some 0%Z /\
  shutter_port (final_world (run (with_sigint 3 lit_cell) 20))
  = (Some true, 1%nat) /\
  count is_LogClose (trace (final_world (run (with_sigint 3 lit_cell) 20)))
  = 1%nat.
Proof.
  evaluate.
Qed.

(** C8, what the code does: nothing from the start of the tracking loop to
    the end of the run writes a log line; in the lit cell, of the six
    cycles run (one of walk-in, five of tracking) only the walk-in cycle
    is logged; and a walk-in cycle that times out is not logged either. *)
Theorem tracking_cycles_are_not_logged :
  (forall E fuel v i w,
     log_lines (final_world (track_from E fuel v i w)) = log_lines w) /\
  (forall E d pp w,
     log_lines (final_world (track_cycle E d pp w)) = log_lines w) /\
  iterations (final_world (run lit_cell 20)) = 6%nat /\
  log_lines (final_world (run lit_cell 20)) = 1%nat /\
  iterations (final_world (run (with_tracking_time 0 lit_cell) 20)) = 1%nat /\
  log_lines (final_world (run (with_tracking_time 0 lit_cell) 20)) = O.
Proof.
  split; [intros E fuel v i w; apply log_track_from |].
  split; [intros E d pp w; apply log_track_cycle |].
  evaluate.
Qed.

(** When [Task()] itself raises, the handler's [if task:] reads an unbound
    local. *)
Lemma shutter_task_unbound (E : environment) (w : world) :
  shutter_fault E = Some O ->
  exists w', initialise_shutter_control E w = Raise UnboundLocalError w'.
Proof.
  intros F. unfold initialise_shutter_control, try_except, may_fail,
    set_local_task, write_to_console, emit, modify, bind, get, raise, ret.
  rewrite F. cbn. eexists. reflexivity.
Qed.

(** C9, what the code does: when the constructor [Task()] raises,
    [initialise_shutter_control] itself raises UnboundLocalError and the
    run ends with status 1 before any reading; a failure of a later step
    gives [None] and the run goes on to track. *)
Theorem shutter_constructor_failure_escapes :
  (exists w,
     initialise_shutter_control (with_shutter_fault 0 lit_cell) initial_world
     = Raise UnboundLocalError w) /\
  exit_status (run (with_shutter_fault 0 lit_cell) 20) = Some 1%Z /\
  count is_READ (trace (final_world (run (with_shutter_fault 0 lit_cell) 20)))
  = O /\
  (exists w,
     initialise_shutter_control (with_shutter_fault 1 lit_cell) initial_world
     = Ok PyNone w) /\
  exit_status (run (with_shutter_fault 1 lit_cell) 20) = Some 0%Z /\
  exit_status (run (with_shutter_fault 2 lit_cell) 20) = Some 0%Z /\
  exit_status (run (with_shutter_fault 3 lit_cell) 20) = Some 0%Z.
Proof.
  split; [apply shutter_task_unbound; reflexivity |].
  split; [vm_compute; reflexivity |].
  split; [vm_compute; reflexivity |].
  split; [eexists; vm_compute; reflexivity |].
  evaluate.
Qed.

(** * Further properties of the tracker *)

(** ** Tracking cycles *)

Lemma perturb_and_observe_previous_power (power : float) (s : pno_state) :
  pno_previous_power (perturb_and_observe power s) = power.
Proof.
  unfold perturb_and_observe. destruct (py_gt _ _); reflexivity.
Qed.

Lemma track_cycle_step (E : environment) (d : Z) (pp t0 : float) (w : world) :
  start_time (self w) = Some t0 ->
  py_gt (rd_t (read_reply E (reads w)) - t0) (total_tracking_time E) = false ->
  (device_area E =? 0) = false ->
  exists w1,
    track_cycle E d pp w
    = Ok (pno_direction
            (perturb_and_observe
               (abs (rd_v (read_reply E (reads w)) * rd_i (read_reply E (reads w))))
               (mk_pno (Vmpp (self w)) (v_step (self w)) d pp)),
          abs (rd_v (read_reply E (reads w)) * rd_i (read_reply E (reads w))))
         w1 /\
    tracked E d pp w w1.
Proof.
  intros ST NT DA. unfold track_cycle.
  rewrite (bind_Ok _ _ w w w) by reflexivity.
  rewrite (bind_Ok _ _ _ (add_events
             [VisaWriteF ":source:voltage " "0.4f" (Vmpp (self w))] w) tt)
    by reflexivity.
  rewrite (bind_Ok _ _ _ _ _ (read_one_eq E _)).
  cbn [reads add_events].
  destruct (read_reply E (reads w)) as [[v i] tx] eqn:R.
  cbn [rd_v rd_i rd_t fst snd] in NT |- *.
  set (w2 := count_read _).
  assert (ST2 : start_time (self w2) = Some t0) by exact ST.
  rewrite (bind_Ok _ _ _ _ _ (check_runtime_continue E tx t0 w2 ST2 NT)).
  destruct (update_plot_Ok E v i tx t0 w2 ST2 DA) as (w3 & U & A).
  rewrite (bind_Ok _ _ _ _ _ U).
  rewrite (bind_Ok _ _ w3 w3 w3) by reflexivity.
  destruct A as (S3 & V3 & T3 & R3 & I3).
  assert (HS : v_step (self w3) = v_step (self w)) by apply S3.
  cbn in V3, T3, R3, I3. rewrite V3, HS.
  eexists. split.
  - unfold bind, modify, ret.
    rewrite perturb_and_observe_previous_power. reflexivity.
  - unfold tracked. rewrite R. cbn [rd_v rd_i fst snd].
    split; [exact S3 |]. split; [reflexivity |].
    split; [cbn; rewrite T3, <- !app_assoc; reflexivity |].
    split; [cbn; rewrite R3; lia | cbn; rewrite I3; lia].
Qed.

Lemma track_cycle_timeout (E : environment) (d : Z) (pp t0 : float) (w : world) :
  start_time (self w) = Some t0 ->
  py_gt (rd_t (read_reply E (reads w)) - t0) (total_tracking_time E) = true ->
  exists w1,
    track_cycle E d pp w = Raise (SystemExit 0) w1 /\
    self w1 = self w /\
    trace w1 = trace w ++ [VisaWriteF ":source:voltage " "0.4f" (Vmpp (self w));
                           VisaQuery "READ?"]
                       ++ shutdown_events (task (self w)) /\
    reads w1 = S (reads w) /\ iterations w1 = iterations w.
Proof.
  intros ST T. unfold track_cycle.
  rewrite (bind_Ok _ _ w w w) by reflexivity.
  rewrite (bind_Ok _ _ _ (add_events
             [VisaWriteF ":source:voltage " "0.4f" (Vmpp (self w))] w) tt)
    by reflexivity.
  rewrite (bind_Ok _ _ _ _ _ (read_one_eq E _)).
  cbn [reads add_events].
  destruct (read_reply E (reads w)) as [[v i] tx] eqn:R.
  cbn [rd_v rd_i rd_t fst snd] in T |- *.
  set (w2 := count_read _).
  assert (ST2 : start_time (self w2) = Some t0) by exact ST.
  unfold bind at 1. rewrite (check_runtime_timeout E tx t0 w2 ST2 T).
  unfold shutdown, write_to_console, emit, modify, bind, get, raise, ret.
  subst w2. cbn.
  destruct (task (self w)); cbn; eexists; (split; [reflexivity |]); cbn;
    rewrite <- ?app_assoc; auto.
Qed.

Lemma pno_eta (s : pno_state) :
  mk_pno (pno_Vmpp s) (pno_v_step s) (pno_direction s) (pno_previous_power s) = s.
Proof. destruct s. reflexivity. Qed.

Lemma perturb_and_observe_v_step (power : float) (s : pno_state) :
  pno_v_step (perturb_and_observe power s) = pno_v_step s.
Proof.
  unfold perturb_and_observe. destruct (py_gt _ _); reflexivity.
Qed.

(** [k] tracking cycles without interrupt or time-out leave the loop in the
    state [track_state] computes, having written nothing but the set
    voltages, the queries and the redraws. *)
Lemma track_loop_runs (E : environment) (t0 : float) :
  (device_area E =? 0) = false ->
  forall (k : nat) (d : Z) (pp : float) (w : world),
    start_time (self w) = Some t0 ->
    (forall j, (j < k)%nat -> sigint E <> Some (iterations w + j)%nat) ->
    (forall j, (j < k)%nat ->
       py_gt (rd_t (read_reply E (reads w + j)) - t0) (total_tracking_time E)
       = false) ->
    let sk := track_state E (reads w) k
                (mk_pno (Vmpp (self w)) (v_step (self w)) d pp) in
    exists wk es,
      (forall f,
         track_loop E (k + f) d pp w
         = track_loop E f (pno_direction sk) (pno_previous_power sk) wk) /\
      same_setup w wk /\
      Vmpp (self wk) = pno_Vmpp sk /\
      trace wk = trace w ++ es /\
      count is_LogLine es = O /\
      shutter_line (trace wk) = shutter_line (trace w) /\
      reads wk = (reads w + k)%nat /\
      iterations wk = (iterations w + k)%nat.
Proof.
  intros DA. induction k as [| k IH]; intros d pp w ST NS NT; cbv zeta.
  - exists w, []. cbn [track_state Nat.add pno_direction pno_previous_power pno_Vmpp].
    rewrite app_nil_r, !Nat.add_0_r.
    repeat (split; [first [reflexivity | apply same_setup_refl] |]). reflexivity.
  - cbn [track_state].
    assert (NS0 : sigint E <> Some (iterations w)).
    { specialize (NS O). rewrite Nat.add_0_r in NS. apply NS. lia. }
    assert (NT0 : py_gt (rd_t (read_reply E (reads w)) - t0)
                        (total_tracking_time E) = false).
    { specialize (NT O). rewrite Nat.add_0_r in NT. apply NT. lia. }
    assert (ST' : start_time (self (count_iteration w)) = Some t0) by exact ST.
    destruct (track_cycle_step E d pp t0 (count_iteration w) ST' NT0 DA)
      as (w1 & C & S1 & V1 & T1 & R1 & I1).
    assert (L1 : forall f,
               track_loop E (S k + f) d pp w
               = track_loop E (k + f)
                   (pno_direction
                      (perturb_and_observe
                         (abs (rd_v (read_reply E (reads w))
                               * rd_i (read_reply E (reads w))))
                         (mk_pno (Vmpp (self w)) (v_step (self w)) d pp)))
                   (abs (rd_v (read_reply E (reads w))
                         * rd_i (read_reply E (reads w)))) w1).
    { intros f. cbn [Nat.add track_loop].
      rewrite (bind_Ok _ _ _ _ _ (loop_boundary_Ok E w NS0)).
      rewrite (bind_Ok _ _ _ _ _ C). reflexivity. }
    cbn [reads iterations trace self count_iteration] in *.
    set (s1 := perturb_and_observe _ _) in *.
    assert (ST1 : start_time (self w1) = Some t0).
    { destruct S1 as (_ & _ & S & _). rewrite S. exact ST. }
    assert (HS : v_step (self w1) = v_step (self w)) by apply S1.
    destruct (IH (pno_direction s1)
                 (abs (rd_v (read_reply E (reads w)) * rd_i (read_reply E (reads w))))
                 w1 ST1)
      as (wk & es & L & Sk & Vk & Tk & Ck & Hk & Rk & Ik).
    + intros j Hj. rewrite I1.
      replace (S (iterations w) + j)%nat with (iterations w + S j)%nat by lia.
      apply NS. lia.
    + intros j Hj. rewrite R1.
      replace (S (reads w) + j)%nat with (reads w + S j)%nat by lia.
      apply NT. lia.
    + assert (E1 : mk_pno (Vmpp (self w1)) (v_step (self w1)) (pno_direction s1)
                     (abs (rd_v (read_reply E (reads w))
                           * rd_i (read_reply E (reads w)))) = s1).
      { rewrite V1, HS, <- (perturb_and_observe_previous_power
                             (abs (rd_v (read_reply E (reads w))
                                   * rd_i (read_reply E (reads w))))
                             (mk_pno (Vmpp (self w)) (v_step (self w)) d pp)).
        fold s1.
        replace (v_step (self w)) with (pno_v_step s1)
          by (unfold s1; rewrite perturb_and_observe_v_step; reflexivity).
        apply pno_eta. }
      rewrite R1, E1 in *.
      exists wk, ([VisaWriteF ":source:voltage " "0.4f" (Vmpp (self w));
                   VisaQuery "READ?"; PlotDraw] ++ es).
      split; [intros f; rewrite L1; apply L |].
      split; [eapply same_setup_trans; eassumption |].
      split; [exact Vk |].
      split; [rewrite Tk, T1, <- app_assoc; reflexivity |].
      split; [rewrite count_app, Ck; reflexivity |].
      split; [rewrite Hk, T1, shutter_line_app; reflexivity |].
      split; lia.
Qed.

(** The tracking loop ends at the first reading whose time stamp is more
    than [total_tracking_time] after [start_time]: after the [k] cycles
    before it, [shutdown] runs and the process exits with status 0; the
    late reading itself moves [Vmpp] no more, and no cycle wrote to the
    log. *)
Theorem tracking_ends_at_first_late_reading (E : environment)
        (fuel k : nat) (v i t0 : float) (w : world) :
  (device_area E =? 0) = false ->
  start_time (self w) = Some t0 ->
  (forall j, (j <= k)%nat -> sigint E <> Some (iterations w + j)%nat) ->
  (forall j, (j < k)%nat ->
     py_gt (rd_t (read_reply E (reads w + j)) - t0) (total_tracking_time E)
     = false) ->
  py_gt (rd_t (read_reply E (reads w + k)) - t0) (total_tracking_time E) = true ->
  (k < fuel)%nat ->
  exists w',
    track_from E fuel v i w = Raise (SystemExit 0) w' /\
    Vmpp (self w')
    = pno_Vmpp (track_state E (reads w) k
                  (mk_pno (Vmpp (self w)) (v_step (self w)) 1 (abs (v * i)))) /\
    iterations w' = (iterations w + S k)%nat /\
    reads w' = (reads w + S k)%nat /\
    log_lines w' = log_lines w /\
    (exists pre, trace w' = pre ++ shutdown_events (task (self w))) /\
    (task (self w) = PyObject -> shutter_line (trace w') = Some true).
Proof.
  intros DA ST NS NT T Fu.
  replace fuel with (k + S (fuel - S k))%nat by lia.
  destruct (track_loop_runs E t0 DA k 1 (abs (v * i)) w ST)
    as (wk & es & L & Sk & Vk & Tk & Ck & Hk & Rk & Ik); trivial.
  { intros j Hj. apply NS. lia. }
  unfold track_from, try_except_KeyboardInterrupt. rewrite L.
  cbn [track_loop].
  assert (NSk : sigint E <> Some (iterations wk)).
  { rewrite Ik. apply NS. lia. }
  rewrite (bind_Ok _ _ _ _ _ (loop_boundary_Ok E wk NSk)).
  assert (STk : start_time (self (count_iteration wk)) = Some t0).
  { destruct Sk as (_ & _ & S & _). cbn. rewrite S. exact ST. }
  assert (Tk' : py_gt (rd_t (read_reply E (reads (count_iteration wk))) - t0)
                      (total_tracking_time E) = true).
  { cbn. rewrite Rk. exact T. }
  set (sk := track_state _ _ _ _) in *.
  destruct (track_cycle_timeout E (pno_direction sk) (pno_previous_power sk)
              t0 (count_iteration wk) STk Tk')
    as (w' & C & S' & T' & R' & I').
  rewrite (bind_Raise _ _ _ _ _ C).
  cbn [self trace reads iterations count_iteration] in S', T', R', I'.
  assert (Tsk : task (self wk) = task (self w)) by apply Sk.
  exists w'. split; [reflexivity |].
  split; [rewrite S'; exact Vk |].
  split; [lia |]. split; [lia |].
  split.
  { unfold log_lines. rewrite T', Tk, !count_app, Ck.
    destruct (task (self wk)); cbn; lia. }
  split.
  { rewrite T', Tsk, app_assoc. eexists. reflexivity. }
  intros P. rewrite T', Tsk, P, app_assoc, shutter_line_app. reflexivity.
Qed.

(** A Ctrl-C delivered at the start of tracking cycle [k] (counted from 0)
    is caught: after the [k] cycles before it [shutdown] runs, as on a
    time-out, and the process exits with status 0. *)
Theorem interrupt_in_tracking_runs_shutdown (E : environment)
        (fuel k : nat) (v i t0 : float) (w : world) :
  (device_area E =? 0) = false ->
  start_time (self w) = Some t0 ->
  sigint E = Some (iterations w + k)%nat ->
  (forall j, (j < k)%nat ->
     py_gt (rd_t (read_reply E (reads w + j)) - t0) (total_tracking_time E)
     = false) ->
  (k < fuel)%nat ->
  exists w',
    track_from E fuel v i w = Raise (SystemExit 0) w' /\
    Vmpp (self w')
    = pno_Vmpp (track_state E (reads w) k
                  (mk_pno (Vmpp (self w)) (v_step (self w)) 1 (abs (v * i)))) /\
    iterations w' = (iterations w + k)%nat /\
    reads w' = (reads w + k)%nat /\
    (exists pre, trace w' = pre ++ shutdown_events (task (self w))) /\
    (task (self w) = PyObject -> shutter_line (trace w') = Some true).
Proof.
  intros DA ST SI NT Fu.
  replace fuel with (k + S (fuel - S k))%nat by lia.
  destruct (track_loop_runs E t0 DA k 1 (abs (v * i)) w ST)
    as (wk & es & L & Sk & Vk & Tk & Ck & Hk & Rk & Ik); trivial.
  { intros j Hj. rewrite SI. intros [= H]. lia. }
  unfold track_from, try_except_KeyboardInterrupt. rewrite L.
  cbn [track_loop].
  assert (SIk : sigint E = Some (iterations wk)) by (rewrite Ik; exact SI).
  rewrite (bind_Raise _ _ _ _ _ (loop_boundary_sigint E wk SIk)).
  destruct (shutdown_exits wk) as (w' & Sh & (S' & V' & T' & R' & I') & _).
  assert (Tsk : task (self wk) = task (self w)) by apply Sk.
  exists w'. split; [exact Sh |].
  split; [rewrite V'; exact Vk |].
  split; [lia |]. split; [lia |].
  split.
  { rewrite T', Tsk. eexists. reflexivity. }
  intros P. rewrite T', Tsk, P, shutter_line_app. reflexivity.
Qed.

(** Tracking the lit cell: readings 2 to 5 are in time, reading 6 is late. *)
Lemma tracking_ends_at_first_late_reading_example :
  exists w',
    track_from lit_cell 20 0.25 (-0.01) (tracking_start lit_cell 20)
    = Raise (SystemExit 0) w' /\
    Vmpp (self w') = 0.25 /\
    iterations w' = 6%nat /\
    log_lines w' = 1%nat.
Proof.
  destruct (tracking_ends_at_first_late_reading lit_cell 20 4 0.25 (-0.01) 0
              (tracking_start lit_cell 20))
    as (w' & R & V & I & _ & L & _).
  - reflexivity.
  - vm_compute. reflexivity.
  - intros j _. discriminate.
  - intros j Hj. do 4 (destruct j as [| j]; [vm_compute; reflexivity |]). lia.
  - vm_compute. reflexivity.
  - lia.
  - exists w'. split; [exact R |].
    split; [rewrite V; vm_compute; reflexivity |].
    split; [rewrite I; vm_compute; reflexivity |].
    rewrite L. vm_compute. reflexivity.
Defined.

(** The lit cell with Ctrl-C at loop iteration 3, the third tracking cycle. *)
Lemma interrupt_in_tracking_runs_shutdown_example :
  exists w',
    track_from (with_sigint 3 lit_cell) 20 0.25 (-0.01)
               (tracking_start (with_sigint 3 lit_cell) 20)
    = Raise (SystemExit 0) w' /\
    Vmpp (self w') = 0.25 /\
    iterations w' = 3%nat /\
    shutter_line (trace w') = Some true.
Proof.
  destruct (interrupt_in_tracking_runs_shutdown (with_sigint 3 lit_cell) 20 2
              0.25 (-0.01) 0 (tracking_start (with_sigint 3 lit_cell) 20))
    as (w' & R & V & I & _ & _ & S).
  - reflexivity.
  - vm_compute. reflexivity.
  - vm_compute. reflexivity.
  - intros j Hj. do 2 (destruct j as [| j]; [vm_compute; reflexivity |]). lia.
  - lia.
  - exists w'. split; [exact R |].
    split; [rewrite V; vm_compute; reflexivity |].
    split; [rewrite I; vm_compute; reflexivity |].
    apply S. vm_compute. reflexivity.
Defined.

(** ** The rule of a tracking cycle *)

(** C4: a tracking cycle whose reading is in time measures
    [power = |v*i|] and completes: when [power] is strictly greater than
    [previousPower], [direction] is unchanged and [Vmpp] becomes
    [Vmpp + direction * stepSize]; otherwise, equality included,
    [direction] is negated first and [Vmpp] becomes
    [Vmpp + direction * stepSize] with the new direction; in both branches
    the loop goes on with [previousPower = power], the new [direction] and
    the same [stepSize]. *)
Theorem tracking_cycle_rule (E : environment) (direction : Z)
        (previousPower t0 : float) (w : world) :
  start_time (self w) = Some t0 ->
  py_gt (rd_t (read_reply E (reads w)) - t0) (total_tracking_time E) = false ->
  (device_area E =? 0) = false ->
  let power := abs (rd_v (read_reply E (reads w)) * rd_i (read_reply E (reads w))) in
  let stepSize := v_step (self w) in
  exists (direction' : Z) (w' : world),
    track_cycle E direction previousPower w = Ok (direction', power) w' /\
    (py_gt power previousPower = true ->
     direction' = direction /\
     Vmpp (self w') = Vmpp (self w) + float_of_int direction * stepSize) /\
    (py_gt power previousPower = false ->
     direction' = (- direction)%Z /\
     Vmpp (self w') = Vmpp (self w) + float_of_int (- direction) * stepSize) /\
    ((power =? previousPower) = true -> py_gt power previousPower = false) /\
    v_step (self w') = stepSize /\
    (forall f w0,
       loop_boundary E w0 = Ok tt w ->
       track_loop E (S f) direction previousPower w0
       = track_loop E f direction' power w').
Proof.
  intros ST NT DA. cbv zeta.
  destruct (track_cycle_step E direction previousPower t0 w ST NT DA)
    as (w1 & C & S1 & V1 & _).
  set (power := abs _) in *.
  exists (pno_direction
            (perturb_and_observe power
               (mk_pno (Vmpp (self w)) (v_step (self w)) direction previousPower))),
         w1.
  split; [exact C |].
  rewrite V1. unfold perturb_and_observe, int_times_float.
  cbn [pno_previous_power pno_direction pno_Vmpp pno_v_step].
  split; [intros G; rewrite G; split; reflexivity |].
  split.
  { intros G. rewrite G. cbn [pno_direction pno_Vmpp].
    replace (direction * -1)%Z with (- direction)%Z by lia.
    split; reflexivity. }
  split; [intros T; unfold py_gt; apply eqb_true_ltb_false, T |].
  split; [apply S1 |].
  intros f w0 B. cbn [track_loop].
  rewrite (bind_Ok _ _ _ _ _ B), (bind_Ok _ _ _ _ _ C). reflexivity.
Qed.

(** The first tracking cycle of the lit cell reads the power it had
    before: the direction is reversed and [Vmpp] goes one step down. *)
Lemma tracking_cycle_rule_example :
  exists w',
    track_cycle lit_cell 1 (abs (0.25 * -0.01)) (tracking_start lit_cell 20)
    = Ok ((-1)%Z, abs (0.25 * -0.01)) w' /\
    Vmpp (self w') = 0.25 + float_of_int (-1) * 0.25.
Proof.
  destruct (tracking_cycle_rule lit_cell 1 (abs (0.25 * -0.01)) 0
              (tracking_start lit_cell 20))
    as (d' & w' & C & _ & F & _).
  - vm_compute. reflexivity.
  - vm_compute. reflexivity.
  - reflexivity.
  - destruct F as [-> V]; [vm_compute; reflexivity |].
    exists w'. split; [exact C |].
    rewrite V. vm_compute. reflexivity.
Defined.

(** ** The power the tracking loop starts from *)

(** C10, as the code runs it: when the walk-in has run [n] cycles, the
    [previousPower] of the first comparison of the tracking loop is [|v*i|]
    of reading [n] after the sweep, which is the reading of the last
    walk-in cycle when [n > 0] and the reading that gave [start_time] when
    [n = 0]; [n = 0] exactly when [0 < Vmpp] does not hold.  The reading
    that gave [start_time] is taken with the source output on, after the
    source voltage was set to [Voc] for the sweep.  The first tracking
    cycle compares the power of its reading with that [previousPower]:
    [Vmpp] goes one step up when it is greater and one step down when it
    is not. *)
Theorem previous_power_at_tracking_start (E : environment) (fuel : nat)
        (w w1 : world) (v i : float) :
  walk_back_to_Vmpp E fuel w = Ok (v, i) w1 ->
  exists n pre post,
    iterations w1 = (iterations w + n)%nat /\
    reads w1 = S (reads w + n) /\
    start_time (self w1) = Some (rd_t (read_reply E (reads w))) /\
    v = rd_v (read_reply E (reads w + n)) /\
    i = rd_i (read_reply E (reads w + n)) /\
    (n = O <-> py_lt 0 (Vmpp (self w1)) = false) /\
    trace w1 = trace w ++ pre ++ VisaQuery "READ?" :: post /\
    count is_READ post = n /\
    set_voltages pre = [rd_v (voc_reply E)] /\
    output_on (trace w ++ pre) = true /\
    forall f,
      fuel = S f ->
      sigint E <> Some (iterations w1) ->
      py_gt (rd_t (read_reply E (reads w1)) - rd_t (read_reply E (reads w)))
            (total_tracking_time E) = false ->
      (device_area E =? 0) = false ->
      let previousPower :=
        abs (rd_v (read_reply E (reads w + n)) * rd_i (read_reply E (reads w + n))) in
      let power :=
        abs (rd_v (read_reply E (reads w1)) * rd_i (read_reply E (reads w1))) in
      let direction := if py_gt power previousPower then 1%Z else (-1)%Z in
      exists w2,
        track_maximum_power_point E fuel w
        = try_except_KeyboardInterrupt
            (track_loop E f direction power) shutdown w2 /\
        Vmpp (self w2) = Vmpp (self w1) + float_of_int direction * v_step (self w1).
Proof.
  intros H.
  assert (T : track_maximum_power_point E fuel w = track_from E fuel v i w1).
  { unfold track_maximum_power_point. rewrite (bind_Ok _ _ _ _ _ H).
    reflexivity. }
  unfold walk_back_to_Vmpp in H.
  apply bind_Ok_inv in H as ([] & w0 & D & H).
  destruct (determine_initial_Vmpp_Ok_inv E w w0 D)
    as (isc & idx & vmpp & es & _ & _ & _ & _ & _ & _ & _ & _ & R0 & I0
        & T0 & On & _ & _ & _ & SV).
  unfold write_to_console in H.
  emitted H.
  apply bind_Ok_inv in H as ([] & wp & IP & H).
  apply initialise_interactive_plot_Ok_inv in IP as [-> _].
  do 2 emitted H.
  apply bind_Ok_inv in H as (r & w2 & Rd & H).
  rewrite read_one_eq in Rd. inversion Rd; subst r w2; clear Rd.
  cbn [reads add_events] in H. rewrite R0 in H.
  destruct (read_reply E (reads w)) as [[v0 i0] t0] eqn:R0'.
  emitted H.
  apply bind_Ok_inv in H as (vi & w3 & W & H).
  apply walk_in_Ok_inv in W as (n & es' & A & (_ & CR) & Lt & Ge & P).
  apply bind_Ok_inv in H as (w4 & w5 & G & H).
  inversion G; subst w4 w5; clear G.
  do 2 emitted H.
  unfold ret in H. injection H as Hvi Hw. rewrite Hvi in P. subst w1.
  destruct A as ((_ & _ & ST & HS & _) & HV & HT & HR & HI).
  cbn in ST, HV, HR, HI, HS, Lt, Ge.
  cbn [trace add_events count_read with_self] in HT.
  assert (Locals : v = rd_v (read_reply E (reads w + n)) /\
                   i = rd_i (read_reply E (reads w + n))).
  { unfold walk_in_locals in P. destruct n as [| m].
    - rewrite Nat.add_0_r, R0'. inversion P. split; reflexivity.
    - cbn [reads count_read add_events with_self] in P. rewrite R0 in P.
      replace (reads w + S m)%nat with (S (reads w) + m)%nat by lia.
      inversion P. split; reflexivity. }
  destruct Locals as [Hv Hi].
  exists n,
    (es ++ [Console "Walking back to the initial Vmpp..."; PlotInit;
            VisaWrite ":source:voltage:mode fixed";
            VisaWrite ":trigger:count 1"]),
    (es' ++ [VisaWriteF ":source:voltage " "0.4f" (Vmpp (self w3));
             Console "Device at Vmpp. Beginning MPP tracking."]).
  cbn [iterations reads self trace add_events].
  split; [rewrite HI, I0; reflexivity |].
  split; [rewrite HR, R0; lia |].
  split; [rewrite ST; reflexivity |].
  split; [exact Hv |]. split; [exact Hi |].
  split.
  { rewrite HV. split.
    - intros ->. exact Ge.
    - intros Z. destruct n as [| m]; [reflexivity |].
      specialize (Lt O ltac:(lia)). cbn in Lt. unfold py_lt in Z.
      congruence. }
  split.
  { rewrite HT, T0, <- !app_assoc. cbn [app]. reflexivity. }
  split.
  { rewrite count_app, CR. cbn. lia. }
  split.
  { unfold set_voltages in *. rewrite flat_map_app, SV. reflexivity. }
  split.
  { rewrite app_assoc, output_on_app, On. reflexivity. }
  intros f -> NS NT DA. cbv zeta.
  rewrite T, Hv, Hi. unfold track_from, try_except_KeyboardInterrupt.
  cbn [track_loop].
  set (w1 := add_events _ (add_events _ w3)) in *.
  rewrite (bind_Ok _ _ _ _ _ (loop_boundary_Ok E w1 NS)).
  assert (ST1 : start_time (self (count_iteration w1)) = Some t0)
    by (cbn; exact ST).
  assert (NT1 : py_gt (rd_t (read_reply E (reads (count_iteration w1))) - t0)
                      (total_tracking_time E) = false) by exact NT.
  destruct (track_cycle_step E 1
              (abs (rd_v (read_reply E (reads w + n))
                    * rd_i (read_reply E (reads w + n))))
              t0 (count_iteration w1) ST1 NT1 DA)
    as (w2 & C & _ & V2 & _).
  rewrite (bind_Ok _ _ _ _ _ C). cbn [fst snd].
  cbn [reads self count_iteration] in V2 |- *.
  exists w2. rewrite V2. subst w1.
  cbn [reads self add_events count_iteration].
  unfold perturb_and_observe, int_times_float.
  cbn [pno_previous_power pno_direction pno_Vmpp pno_v_step].
  match goal with
  | |- context [if ?c then 1%Z else (-1)%Z] => destruct c
  end; cbn [pno_direction pno_Vmpp]; split; reflexivity.
Qed.

(** The readings of [varied_cell] differ: the walk-in runs one cycle, whose
    reading (a current of -0.03 A) has a greater power than the first
    reading of the tracking loop (-0.02 A) and than the reading that gave
    [start_time] (-0.01 A).  The first comparison fails, so [Vmpp] goes one
    step down; compared with the power of the reading that gave
    [start_time] it would have gone up. *)
Lemma previous_power_at_tracking_start_example :
  rd_i (read_reply varied_cell 0) = -0.01 /\
  rd_i (read_reply varied_cell 1) = -0.03 /\
  rd_i (read_reply varied_cell 2) = -0.02 /\
  py_gt (abs (0.25 * -0.02)) (abs (0.25 * -0.01)) = true /\
  exists w2,
    track_maximum_power_point varied_cell 20
      (final_world (init varied_cell initial_world))
    = try_except_KeyboardInterrupt
        (track_loop varied_cell 19 (-1) (abs (0.25 * -0.02))) shutdown w2 /\
    Vmpp (self w2) = 0.25 + float_of_int (-1) * 0.25.
Proof.
  do 4 (split; [reflexivity |]).
  destruct (previous_power_at_tracking_start varied_cell 20
              (final_world (init varied_cell initial_world))
              (final_world (walk_back_to_Vmpp varied_cell 20
                              (final_world (init varied_cell initial_world))))
              0.25 (-0.03))
    as (n & pre & post & I & _ & _ & _ & _ & _ & _ & _ & _ & _ & F).
  - vm_compute. reflexivity.
  - assert (n = 1%nat) as -> by (vm_compute in I; congruence).
    destruct (F 19%nat) as (w2 & R & V).
    + reflexivity.
    + vm_compute. discriminate.
    + vm_compute. reflexivity.
    + reflexivity.
    + exists w2. split; [exact R |].
      rewrite V. vm_compute. reflexivity.
Defined.

(** C10 refuted: with the unlit cell [0 < Vmpp] does not hold and the
    walk-in runs no cycle, so that the tracking loop starts from the power
    of the reading that gave [start_time]; but before that reading the
    source voltage was set, to the [Voc] of -0.0002 V at which the sweep
    starts, and the source output was switched on. *)
Lemma start_reading_follows_source_voltage :
  walk_back_to_Vmpp unlit_cell 20 (final_world (init unlit_cell initial_world))
  = Ok (-0.0002, 0.000001)
       (final_world (walk_back_to_Vmpp unlit_cell 20
                       (final_world (init unlit_cell initial_world)))) /\
  iterations (final_world (walk_back_to_Vmpp unlit_cell 20
                             (final_world (init unlit_cell initial_world))))
  = O /\
  py_lt 0 (Vmpp (self (final_world
                         (walk_back_to_Vmpp unlit_cell 20
                            (final_world (init unlit_cell initial_world))))))
  = false /\
  exists pre post,
    trace (final_world (walk_back_to_Vmpp unlit_cell 20
                          (final_world (init unlit_cell initial_world))))
    = pre ++ VisaQuery "READ?" :: post /\
    count is_READ post = O /\
    set_voltages pre = [-0.0002] /\
    output_on pre = true.
Proof.
  split; [vm_compute; reflexivity |].
  split; [vm_compute; reflexivity |].
  split; [vm_compute; reflexivity |].
  exists (removelast (removelast (removelast
            (trace (final_world
                      (walk_back_to_Vmpp unlit_cell 20
                         (final_world (init unlit_cell initial_world)))))))),
         [VisaWriteF ":source:voltage " "0.4f" (-0.0002);
          Console "Device at Vmpp. Beginning MPP tracking."].
  repeat match goal with |- _ /\ _ => split end; vm_compute; reflexivity.
Qed.

(** ** How a run can end *)

Section Endings.

Lemma never_returns_bind {A B} (m : M A) (k : A -> M B) :
  (forall a, never_returns (k a)) -> never_returns (bind m k).
Proof.
  intros Hk w b w' H. apply bind_Ok_inv in H as (a & w1 & _ & H).
  exact (Hk a w1 b w' H).
Qed.

Lemma shutdown_never_returns : never_returns shutdown.
Proof.
  intros w a w' H. destruct (shutdown_exits w) as (w1 & R & _).
  rewrite R in H. discriminate H.
Qed.

Lemma track_loop_never_returns (E : environment) (fuel : nat) :
  forall d pp, never_returns (track_loop E fuel d pp).
Proof.
  induction fuel as [| f IH]; intros d pp; cbn [track_loop].
  - intros w a w' H. discriminate H.
  - apply never_returns_bind. intros ?.
    apply never_returns_bind. intros ?. apply IH.
Qed.

Lemma track_from_never_returns (E : environment) (fuel : nat) (v i : float) :
  never_returns (track_from E fuel v i).
Proof.
  intros w a w' H. unfold track_from, try_except_KeyboardInterrupt in H.
  destruct (track_loop E fuel 1 (abs (v * i)) w) as [b w1 | e w1 | w1] eqn:L.
  - exact (track_loop_never_returns E fuel _ _ _ _ _ L).
  - destruct e; try discriminate H.
    exact (shutdown_never_returns _ _ _ H).
  - discriminate H.
Qed.

Lemma run_never_returns (E : environment) (fuel : nat) :
  never_returns (main E fuel).
Proof.
  unfold main, track_maximum_power_point.
  apply never_returns_bind. intros ?.
  apply never_returns_bind. intros ?.
  apply never_returns_bind. intros [v i]. apply track_from_never_returns.
Qed.

End Endings.


Section ExitsByShutdown.

Lemma ebs_bind {A B} (m : M A) (k : A -> M B) :
  exits_by_shutdown m -> (forall a, exits_by_shutdown (k a)) ->
  exits_by_shutdown (bind m k).
Proof.
  intros Hm Hk w w' H. unfold bind in H.
  destruct (m w) as [a w1 | e w1 | w1] eqn:R.
  - exact (Hk a w1 w' H).
  - injection H as -> ->. exact (Hm w w' R).
  - discriminate H.
Qed.

Lemma ebs_ret {A} (a : A) : exits_by_shutdown (ret a).
Proof. intros w w' H. discriminate H. Qed.

Lemma ebs_get : exits_by_shutdown get.
Proof. intros w w' H. discriminate H. Qed.

Lemma ebs_modify (f : world -> world) : exits_by_shutdown (modify f).
Proof. intros w w' H. discriminate H. Qed.

Lemma ebs_emit (e : event) : exits_by_shutdown (emit e).
Proof. apply ebs_modify. Qed.

Lemma ebs_raise {A} (e : exn) :
  e <> SystemExit 0 -> exits_by_shutdown (@raise A e).
Proof. intros Ne w w' H. injection H as -> _. congruence. Qed.

Lemma ebs_shutdown : exits_by_shutdown shutdown.
Proof. intros w w' H. exists w. exact H. Qed.

Lemma ebs_may_fail (fault : option nat) (k : nat) (e : exn) :
  e <> SystemExit 0 -> exits_by_shutdown (may_fail fault k e).
Proof.
  intros Ne. unfold may_fail. destruct fault as [j |]; [| apply ebs_ret].
  destruct (Nat.eqb j k); [apply ebs_raise, Ne | apply ebs_ret].
Qed.

Lemma ebs_try_except {A} (body handler : M A) :
  exits_by_shutdown handler -> exits_by_shutdown (try_except body handler).
Proof.
  intros Hh w w' H. unfold try_except in H.
  destruct (body w) as [a w1 | e w1 | w1]; try discriminate H.
  exact (Hh w1 w' H).
Qed.

Lemma ebs_try_except_KeyboardInterrupt {A} (body handler : M A) :
  exits_by_shutdown body -> exits_by_shutdown handler ->
  exits_by_shutdown (try_except_KeyboardInterrupt body handler).
Proof.
  intros Hb Hh w w' H. unfold try_except_KeyboardInterrupt in H.
  destruct (body w) as [a w1 | e w1 | w1] eqn:R; try discriminate H.
  destruct e; try discriminate H.
  - rewrite H in R. exact (Hb w w' R).
  - exact (Hh w1 w' H).
Qed.

End ExitsByShutdown.

Ltac ebs :=
  repeat first
    [ apply ebs_ret | apply ebs_get | apply ebs_emit | apply ebs_modify
    | apply ebs_shutdown
    | apply ebs_raise; discriminate
    | apply ebs_may_fail; discriminate
    | apply ebs_bind; [| intros ?] ].

Lemma ebs_loop_boundary (E : environment) : exits_by_shutdown (loop_boundary E).
Proof.
  unfold loop_boundary. apply ebs_bind; [apply ebs_get | intros w0].
  destruct (sigint E) as [k |]; [destruct (Nat.eqb k (iterations w0)) |]; ebs.
Qed.

Lemma ebs_read_one (E : environment) : exits_by_shutdown (read_one E).
Proof. unfold read_one. ebs. Qed.

Lemma ebs_py_div (a b : float) : exits_by_shutdown (py_div a b).
Proof. unfold py_div. destruct (b =? 0); ebs. Qed.

Lemma ebs_set_lim (x : float) : exits_by_shutdown (set_lim x).
Proof. unfold set_lim. destruct (is_finite x); ebs. Qed.

Lemma ebs_initialise_interactive_plot (E : environment) :
  exits_by_shutdown (initialise_interactive_plot E).
Proof.
  unfold initialise_interactive_plot.
  apply ebs_bind; [apply ebs_emit | intros ?].
  apply ebs_bind; [apply ebs_get | intros ?].
  repeat (apply ebs_bind; [apply ebs_set_lim | intros ?]).
  apply ebs_set_lim.
Qed.

Lemma ebs_update_plot (E : environment) (v i tx : float) :
  exits_by_shutdown (update_plot E v i tx).
Proof.
  unfold update_plot. apply ebs_bind; [apply ebs_get | intros w0].
  destruct (start_time (self w0)); [| ebs].
  repeat first [apply ebs_py_div | apply ebs_emit | apply ebs_modify
               | apply ebs_bind; [| intros ?]].
Qed.

Lemma ebs_check_runtime (E : environment) (tx : float) :
  exits_by_shutdown (check_runtime E tx).
Proof.
  unfold check_runtime. apply ebs_bind; [apply ebs_get | intros w0].
  destruct (start_time (self w0)); [| ebs].
  destruct (py_gt _ _); ebs.
Qed.

Lemma ebs_walk_in (E : environment) (fuel : nat) :
  forall V v i, exits_by_shutdown (walk_in E fuel V v i).
Proof.
  induction fuel as [| f IH]; intros V v i; cbn [walk_in];
    (apply ebs_bind; [apply ebs_get | intros w0]);
    destruct (py_lt V (Vmpp (self w0))); try apply ebs_ret.
  - intros w w' H. discriminate H.
  - apply ebs_bind; [apply ebs_loop_boundary | intros ?].
    apply ebs_bind; [apply ebs_emit | intros ?].
    apply ebs_bind; [apply ebs_read_one | intros [[v1 i1] tx]].
    apply ebs_bind; [apply ebs_update_plot | intros ?].
    apply ebs_bind; [apply ebs_check_runtime | intros ?].
    apply ebs_bind; [apply ebs_get | intros w1].
    apply ebs_bind; [| intros ?; apply IH].
    destruct (start_time (self w1)); [apply ebs_emit | ebs].
Qed.

Lemma ebs_track_loop (E : environment) (fuel : nat) :
  forall d pp, exits_by_shutdown (track_loop E fuel d pp).
Proof.
  induction fuel as [| f IH]; intros d pp; cbn [track_loop].
  - intros w w' H. discriminate H.
  - apply ebs_bind; [apply ebs_loop_boundary | intros ?].
    apply ebs_bind; [| intros ?; apply IH].
    unfold track_cycle.
    apply ebs_bind; [apply ebs_get | intros ?].
    apply ebs_bind; [apply ebs_emit | intros ?].
    apply ebs_bind; [apply ebs_read_one | intros [[v i] tx]].
    apply ebs_bind; [apply ebs_check_runtime | intros ?].
    apply ebs_bind; [apply ebs_update_plot | intros ?].
    ebs.
Qed.

Lemma ebs_determine_initial_Vmpp (E : environment) :
  exits_by_shutdown (determine_initial_Vmpp E).
Proof.
  intros w w' H. pose proof (determine_initial_Vmpp_cases E w) as C.
  destruct (analyse_sweep (sweep_reply E)) as [[[isc idx] vmpp] |].
  - destruct C as (w0 & es & R & _). rewrite R in H.
    destruct (sweep_limits_finite E); discriminate H.
  - destruct C as (w0 & R). rewrite R in H. discriminate H.
Qed.

Lemma ebs_init (E : environment) : exits_by_shutdown (init E).
Proof.
  unfold init, initialise, initialise_keithley, initialise_shutter_control,
    write_to_console, set_local_K2400, set_local_task.
  apply ebs_bind; [apply ebs_emit | intros ?].
  apply ebs_bind; [| intros ?; apply ebs_emit].
  apply ebs_bind.
  - apply ebs_bind; [apply ebs_modify | intros ?].
    apply ebs_try_except.
    apply ebs_bind; [apply ebs_emit | intros ?].
    apply ebs_bind; [| intros ?; ebs].
    apply ebs_try_except. apply ebs_ret.
  - intros ?. apply ebs_bind; [apply ebs_modify | intros ?].
    apply ebs_bind; [| intros ?; apply ebs_modify].
    apply ebs_bind; [apply ebs_modify | intros ?].
    apply ebs_try_except.
    apply ebs_bind; [apply ebs_emit | intros ?].
    apply ebs_bind; [apply ebs_get | intros w0].
    apply ebs_bind; [| intros ?; apply ebs_ret].
    destruct (local_task w0); ebs.
Qed.

(** The constructor and [track_maximum_power_point] (lines 418-419). *)
Lemma ebs_session (E : environment) (fuel : nat) :
  exits_by_shutdown (init E ;; track_maximum_power_point E fuel).
Proof.
  unfold track_maximum_power_point, walk_back_to_Vmpp, write_to_console.
  apply ebs_bind; [apply ebs_init | intros ?].
  apply ebs_bind.
  - apply ebs_bind; [apply ebs_determine_initial_Vmpp | intros ?].
    apply ebs_bind; [apply ebs_emit | intros ?].
    apply ebs_bind; [apply ebs_initialise_interactive_plot | intros ?].
    do 2 (apply ebs_bind; [apply ebs_emit | intros ?]).
    apply ebs_bind; [apply ebs_read_one | intros [[v i] t]].
    apply ebs_bind; [apply ebs_modify | intros ?].
    apply ebs_bind; [apply ebs_walk_in | intros ?].
    ebs.
  - intros [v i]. unfold track_from.
    apply ebs_try_except_KeyboardInterrupt;
      [apply ebs_track_loop | apply ebs_shutdown].
Qed.

(** A run that ends with exit status 0 either was asked for help, which
    argparse prints before anything is opened, or has gone through
    [shutdown]: the last things it did were to close the shutter and
    release its task, when there is one, to close the log and to print the
    closing line.  The script never runs off its end. *)
Theorem exit_status_zero_is_help_or_shutdown (E : environment) (fuel : nat) :
  exit_status (run E fuel) = Some 0%Z ->
  let w' := final_world (run E fuel) in
  run E fuel = Raise (SystemExit 0) w' /\
  ((argv E = AskedForHelp /\ trace w' = [Console "usage"] /\
    self w' = new_tracker) \/
   (argv E = Parsed /\
    (exists pre, trace w' = pre ++ shutdown_events (task (self w'))) /\
    (task (self w') = PyObject -> shutter_line (trace w') = Some true))).
Proof.
  intros X. cbv zeta. unfold run, main, parse_arguments in *.
  destruct (argv E).
  - split; [reflexivity |]. left. repeat split; reflexivity.
  - discriminate X.
  - change ((ret tt ;; init E ;; track_maximum_power_point E fuel) initial_world)
      with ((init E ;; track_maximum_power_point E fuel) initial_world) in *.
    destruct ((init E ;; track_maximum_power_point E fuel) initial_world)
      as [a w | e w | w] eqn:R; cbn [final_world].
    + exfalso.
      apply bind_Ok_inv in R as (u & w1 & _ & R).
      unfold track_maximum_power_point in R.
      apply bind_Ok_inv in R as ([v i] & w2 & _ & R).
      exact (track_from_never_returns E fuel v i _ _ _ R).
    + assert (e = SystemExit 0) as ->.
      { destruct e; cbn in X; try discriminate X. injection X as ->.
        reflexivity. }
      split; [reflexivity |]. right. split; [reflexivity |].
      destruct (ebs_session E fuel _ _ R) as (w0 & Sh).
      destruct (shutdown_exits w0) as (w1 & Sh' & ((_ & Tk & _) & _ & T & _) & _).
      rewrite Sh in Sh'. injection Sh' as <-.
      rewrite T, Tk. split; [eexists; reflexivity |].
      intros ->. rewrite shutter_line_app. reflexivity.
    + discriminate X.
Qed.

(** The lit cell, tracked until the time-out. *)
Lemma exit_status_zero_is_help_or_shutdown_example :
  run lit_cell 20 = Raise (SystemExit 0) (final_world (run lit_cell 20)) /\
  argv lit_cell = Parsed /\
  shutter_line (trace (final_world (run lit_cell 20))) = Some true.
Proof.
  destruct (exit_status_zero_is_help_or_shutdown lit_cell 20)
    as (R & [(A & _) | (A & _ & S)]).
  - vm_compute. reflexivity.
  - discriminate A.
  - split; [exact R |]. split; [exact A |]. apply S. vm_compute. reflexivity.
Defined.

(** ** What the sweep leaves behind *)

Lemma analyse_sweep_Isc (jv : list reading) (isc vmpp : float) (idx : nat) :
  analyse_sweep jv = Some (isc, idx, vmpp) -> isc = last (map rd_i jv) 0.
Proof.
  unfold analyse_sweep. destruct jv as [| r0 rest]; [discriminate |].
  destruct (np_argmax _); [| discriminate].
  intros [= <- _ _]. cbn [map]. apply last_cons_indep.
Qed.

Lemma sweep_results_after_sweep (E : environment) (fuel : nat) :
  keeps sweep_results
    (vi <- (write_to_console "Walking back to the initial Vmpp..." ;;
            initialise_interactive_plot E ;;
            emit (VisaWrite ":source:voltage:mode fixed") ;;
            emit (VisaWrite ":trigger:count 1") ;;
            r <- read_one E ;;
            let '(v, i, t) := r in
            modify (with_self (set_start_time t)) ;;
            vi <- walk_in E fuel 0 v i ;;
            w <- get ;;
            emit (VisaWriteF ":source:voltage " "0.4f" (Vmpp (self w))) ;;
            write_to_console "Device at Vmpp. Beginning MPP tracking." ;;
            ret vi) ;;
     let '(v, i) := vi in track_from E fuel v i).
Proof.
  apply (keeps_after_sweep sweep_results always_quiet);
    intros; try reflexivity.
  destruct vi as [v i].
  apply (keeps_track_from sweep_results always_quiet); intros; reflexivity.
Qed.

(** Once the sweep has completed, [Voc], [Isc] and [v_step] are never
    assigned again: however the run ends they are the voltage of the
    open-circuit reading, the last current of the sweep and the absolute
    value of the step the instrument reported. *)
Theorem sweep_results_are_final (E : environment) (fuel : nat) (w w0 : world) :
  determine_initial_Vmpp E w = Ok tt w0 ->
  sweep_results (final_world (track_maximum_power_point E fuel w))
  = (rd_v (voc_reply E), last (map rd_i (sweep_reply E)) 0, abs (step_reply E)).
Proof.
  intros D.
  destruct (determine_initial_Vmpp_Ok_inv E w w0 D)
    as (isc & idx & vmpp & es & AS & _ & _ & HI & HV & HS & _).
  unfold track_maximum_power_point, walk_back_to_Vmpp.
  rewrite bind_assoc, (bind_Ok _ _ _ _ _ D).
  rewrite (sweep_results_after_sweep E fuel w0).
  unfold sweep_results. rewrite HV, HI, HS.
  rewrite (analyse_sweep_Isc _ _ _ _ AS). reflexivity.
Qed.

Lemma sweep_results_are_final_example :
  sweep_results (final_world (run lit_cell 20)) = (0.5, -0.02, 0.25).
Proof.
  assert (D : determine_initial_Vmpp lit_cell
                (final_world (init lit_cell initial_world))
              = Ok tt (final_world
                         (determine_initial_Vmpp lit_cell
                            (final_world (init lit_cell initial_world)))))
    by (vm_compute; reflexivity).
  pose proof (sweep_results_are_final lit_cell 20 _ _ D) as K.
  vm_compute in K |- *. exact K.
Defined.

(** An empty reply to the sweep query makes [i[-1]] raise IndexError after
    the source output was switched on: nothing catches it, so the function
    ends there with [Vmpp] and [Isc] unset, the output on, the shutter as it
    was and the log open. *)
Theorem empty_sweep_raises_IndexError (E : environment) (fuel : nat) (w : world) :
  sweep_reply E = [] ->
  exists w',
    track_maximum_power_point E fuel w = Raise IndexError w' /\
    output_on (trace w') = true /\
    Vmpp (self w') = Vmpp (self w) /\ Isc (self w') = Isc (self w) /\
    shutter_port w' = shutter_port w /\
    count is_LogClose (trace w') = count is_LogClose (trace w) /\
    reads w' = reads w.
Proof.
  intros SR.
  unfold track_maximum_power_point, walk_back_to_Vmpp, determine_initial_Vmpp,
    find_open_circuit, write_to_console, emit, modify, bind, get, ret, raise.
  rewrite SR. cbn.
  eexists. split; [reflexivity |]. unfold shutter_port.
  cbn -[output_on shutter_line count].
  rewrite <- !app_assoc. cbn [app].
  split; [rewrite output_on_app; reflexivity |].
  split; [reflexivity |]. split; [reflexivity |].
  split.
  { rewrite shutter_line_app, count_app. cbn. f_equal. lia. }
  split; [| reflexivity].
  rewrite count_app. cbn. lia.
Qed.

Lemma empty_sweep_raises_IndexError_example :
  exists w',
    track_maximum_power_point steady_empty 20
      (final_world (init steady_empty initial_world))
    = Raise IndexError w' /\
    output_on (trace w') = true /\
    shutter_port w' = (Some false, O).
Proof.
  destruct (empty_sweep_raises_IndexError steady_empty 20
              (final_world (init steady_empty initial_world)))
    as (w' & R & O & _ & _ & S & _).
  - reflexivity.
  - exists w'. split; [exact R |]. split; [exact O |].
    rewrite S. vm_compute. reflexivity.
Defined.

(** ** Initialisation *)

Ltac conjuncts :=
  repeat match goal with |- _ /\ _ => split end;
  first [reflexivity
        | intros []; reflexivity
        | intros ?; reflexivity
        | cbn; lia].

Ltac init_case :=
  cbn -[count fold_left]; eexists; eexists;
  split; [reflexivity |];
  cbn -[count fold_left]; rewrite <- ?app_assoc; cbn [app];
  split; [reflexivity |]; conjuncts.

Ltac init_unfold :=
  unfold init, initialise, initialise_keithley, initialise_shutter_control,
    try_except, may_fail, set_local_K2400, set_local_task, write_to_console,
    emit, modify, bind, get, ret, raise.

(** When a step of the Keithley's initialisation raises, the constructor
    ends in [sys.exit(1)]: the VISA session is closed exactly when it had
    been opened, the source output is never switched on, no DAQ call is
    made, the object's attributes stay unset, and the log that line 55
    opened is not closed. *)
Theorem keithley_failure_exits_with_1 (E : environment) (k : nat) (w : world) :
  keithley_fault E = Some k ->
  (k <= 7)%nat ->
  exists w' es,
    init E w = Raise (SystemExit 1) w' /\
    trace w' = trace w ++ es /\
    count is_VisaOpen es = (if (2 <=? k)%nat then 1 else 0)%nat /\
    count is_VisaClose es = count is_VisaOpen es /\
    (forall on, fold_left output_after es on = if (3 <=? k)%nat then false else on) /\
    count is_Daq es = O /\
    count is_LogClose es = O /\
    self w' = self w.
Proof.
  intros F Hk. init_unfold. rewrite F.
  do 8 (destruct k as [| k]; [init_case |]).
  lia.
Qed.

Lemma keithley_failure_exits_with_1_example :
  exists w' es,
    init (with_keithley_fault 4 lit_cell) initial_world
    = Raise (SystemExit 1) w' /\
    trace w' = [] ++ es /\
    count is_VisaOpen es = 1%nat /\
    count is_VisaClose es = 1%nat.
Proof.
  destruct (keithley_failure_exits_with_1 (with_keithley_fault 4 lit_cell) 4
              initial_world)
    as (w' & es & R & T & O & C & _).
  - reflexivity.
  - lia.
  - exists w', es. split; [exact R |]. split; [exact T |].
    split; [exact O |]. rewrite C. exact O.
Defined.

(** When the Keithley initialises and a later step of the shutter's
    initialisation ([add_do_chan], [start] or [write]) raises, the
    constructor completes with [self.task = None]: the task is stopped and
    closed once and the shutter line was never written. *)
Theorem shutter_failure_disables_shutter (E : environment) (k : nat) (w : world) :
  keithley_fault E = None ->
  shutter_fault E = Some k ->
  (1 <= k <= 3)%nat ->
  exists w' es,
    init E w = Ok tt w' /\
    trace w' = trace w ++ es /\
    task (self w') = PyNone /\
    K2400 (self w') = PyObject /\
    count is_DaqClose es = 1%nat /\
    (forall s, fold_left shutter_after es s = s) /\
    (forall on, fold_left output_after es on = false) /\
    count is_Daq (shutdown_events (task (self w'))) = O.
Proof.
  intros FK F Hk. init_unfold. rewrite FK, F.
  destruct k as [| k]; [lia |].
  do 3 (destruct k as [| k]; [init_case |]).
  lia.
Qed.

Lemma shutter_failure_disables_shutter_example :
  exists w' es,
    init (with_shutter_fault 3 lit_cell) initial_world = Ok tt w' /\
    trace w' = [] ++ es /\
    task (self w') = PyNone.
Proof.
  destruct (shutter_failure_disables_shutter (with_shutter_fault 3 lit_cell) 3
              initial_world)
    as (w' & es & R & T & N & _).
  - reflexivity.
  - reflexivity.
  - lia.
  - exists w', es. split; [exact R |]. split; [exact T | exact N].
Defined.

(** A constructor that meets no fault leaves the instrument reset with its
    output off and the shutter open, and binds both handles. *)
Theorem init_opens_shutter_with_output_off (E : environment) (w : world) :
  keithley_fault E = None ->
  shutter_fault E = None ->
  exists w',
    init E w = Ok tt w' /\
    K2400 (self w') = PyObject /\ task (self w') = PyObject /\
    output_on (trace w') = false /\
    shutter_line (trace w') = Some false /\
    count is_VisaClose (trace w') = count is_VisaClose (trace w) /\
    count is_DaqClose (trace w') = count is_DaqClose (trace w).
Proof.
  intros FK F. init_unfold. rewrite FK, F.
  cbn -[count output_on shutter_line]. eexists. split; [reflexivity |].
  cbn -[count output_on shutter_line]. rewrite <- ?app_assoc; cbn [app].
  split; [reflexivity |]. split; [reflexivity |].
  split; [rewrite output_on_app; destruct (output_on (trace w)); reflexivity |].
  split; [rewrite shutter_line_app; reflexivity |].
  split; rewrite count_app; cbn; lia.
Qed.

Lemma init_opens_shutter_with_output_off_example :
  exists w',
    init lit_cell initial_world = Ok tt w' /\
    output_on (trace w') = false /\
    shutter_line (trace w') = Some false.
Proof.
  destruct (init_opens_shutter_with_output_off lit_cell initial_world)
    as (w' & R & _ & _ & O & S & _).
  - reflexivity.
  - reflexivity.
  - exists w'. split; [exact R |]. split; [exact O | exact S].
Defined.

(** [shutdown] leaves the plotted series as they are. *)
Lemma shutdown_same_series (w w' : world) :
  shutdown w = Raise (SystemExit 0) w' ->
  t_data (self w') = t_data (self w) /\ v_data (self w') = v_data (self w) /\
  i_data (self w') = i_data (self w) /\
  efficiencies (self w') = efficiencies (self w).
Proof.
  unfold shutdown, write_to_console, emit, modify, bind, get, raise, ret.
  destruct (task (self w)); cbn; intros [= <-]; auto.
Qed.

(** ** More on the walk-in *)

(** [k] walk-in cycles without interrupt or time-out, seen from the loop. *)
Lemma walk_in_prefix (E : environment) (t0 : float) :
  (device_area E =? 0) = false ->
  forall (k f : nat) (V v i : float) (w : world),
    start_time (self w) = Some t0 ->
    (forall j, (j < k)%nat -> sigint E <> Some (iterations w + j)%nat) ->
    (forall j, (j < k)%nat ->
       py_gt (rd_t (read_reply E (reads w + j)) - t0) (total_tracking_time E)
       = false) ->
    (forall j, (j < k)%nat ->
       py_lt (V_set_after j V (v_step (self w))) (Vmpp (self w)) = true) ->
    exists wk,
      walk_in E (k + f) V v i w
      = walk_in E f (V_set_after k V (v_step (self w)))
                (fst (walk_in_locals E w k v i)) (snd (walk_in_locals E w k v i))
                wk /\
      advanced w wk (walk_in_trace E (reads w) k V (v_step (self w)) t0) k k.
Proof.
  intros DA. induction k as [| k IH]; intros f V v i w ST NS NT Lt.
  - exists w. split; [reflexivity | apply advanced_refl].
  - assert (C : py_lt V (Vmpp (self w)) = true) by (apply (Lt O); lia).
    assert (NS0 : sigint E <> Some (iterations w)).
    { specialize (NS O). rewrite Nat.add_0_r in NS. apply NS. lia. }
    assert (NT0 : py_gt (rd_t (read_reply E (reads w)) - t0)
                        (total_tracking_time E) = false).
    { specialize (NT O). rewrite Nat.add_0_r in NT. apply NT. lia. }
    cbn [Nat.add].
    destruct (walk_in_step E (k + f) V v i t0 w C ST NS0 NT0 DA) as (w1 & A & Eq).
    pose proof A as (S1 & V1 & T1 & R1 & I1).
    assert (Hs : v_step (self w1) = v_step (self w)) by apply S1.
    assert (ST1 : start_time (self w1) = Some t0).
    { destruct S1 as (_ & _ & S & _). rewrite S. exact ST. }
    destruct (IH f (V + v_step (self w))
                 (rd_v (read_reply E (reads w)))
                 (rd_i (read_reply E (reads w))) w1 ST1) as (wk & R & A').
    + intros j Hj. rewrite I1.
      replace (iterations w + 1 + j)%nat with (iterations w + S j)%nat by lia.
      apply NS. lia.
    + intros j Hj. rewrite R1.
      replace (reads w + 1 + j)%nat with (reads w + S j)%nat by lia.
      apply NT. lia.
    + intros j Hj. rewrite Hs, V1. apply (Lt (S j)). lia.
    + exists wk. split.
      * rewrite Eq, R, Hs. cbn [V_set_after]. f_equal.
        -- unfold walk_in_locals. destruct k as [| m];
             [rewrite Nat.add_0_r; reflexivity |].
           rewrite R1.
           replace (reads w + 1 + m)%nat with (reads w + S m)%nat by lia.
           reflexivity.
        -- unfold walk_in_locals. destruct k as [| m];
             [rewrite Nat.add_0_r; reflexivity |].
           rewrite R1.
           replace (reads w + 1 + m)%nat with (reads w + S m)%nat by lia.
           reflexivity.
      * cbn [walk_in_trace]. rewrite Hs, R1 in A'.
        replace (reads w + 1)%nat with (S (reads w)) in A' by lia.
        exact (advanced_trans _ _ _ _ _ 1%nat k 1%nat k A A').
Qed.

(** A walk-in cycle whose reading is late: it is plotted, then
    [check_runtime] runs [shutdown] before the log line is written. *)
Lemma walk_in_late_cycle (E : environment) (f : nat) (V v i t0 : float) (w : world) :
  py_lt V (Vmpp (self w)) = true ->
  start_time (self w) = Some t0 ->
  sigint E <> Some (iterations w) ->
  py_gt (rd_t (read_reply E (reads w)) - t0) (total_tracking_time E) = true ->
  (device_area E =? 0) = false ->
  exists w',
    walk_in E (S f) V v i w = Raise (SystemExit 0) w' /\
    advanced w w'
      ([VisaWriteF ":source:voltage " "" V; VisaQuery "READ?"; PlotDraw]
       ++ shutdown_events (task (self w))) 1 1 /\
    List.length (t_data (self w')) = S (List.length (t_data (self w))).
Proof.
  intros C ST NS T DA. rewrite walk_in_unfold, C.
  rewrite (bind_Ok _ _ _ _ _ (loop_boundary_Ok E w NS)).
  rewrite (bind_Ok _ _ _ (add_events [VisaWriteF ":source:voltage " "" V]
                                     (count_iteration w)) tt)
    by reflexivity.
  rewrite (bind_Ok _ _ _ _ _ (read_one_eq E _)).
  cbn [reads add_events count_iteration].
  set (w3 := count_read _).
  assert (ST3 : start_time (self w3) = Some t0) by exact ST.
  assert (U : exists w4,
             update_plot E (rd_v (read_reply E (reads w)))
               (rd_i (read_reply E (reads w))) (rd_t (read_reply E (reads w))) w3
             = Ok tt w4 /\ advanced w3 w4 [PlotDraw] 0 0 /\
             List.length (t_data (self w4)) = S (List.length (t_data (self w)))).
  { unfold update_plot, py_div, emit, modify, bind, get, ret, raise.
    rewrite ST3, DA. cbn. eexists. split; [reflexivity |].
    split.
    - unfold advanced, same_setup, add_events; cbn. repeat split; try lia; auto.
    - cbn. rewrite length_app. cbn. lia. }
  destruct U as (w4 & U & A4 & L4).
  rewrite (bind_Ok _ _ _ _ _ U).
  assert (ST4 : start_time (self w4) = Some t0).
  { destruct A4 as ((_ & _ & S4 & _) & _). rewrite S4. exact ST3. }
  unfold bind at 1. rewrite (check_runtime_timeout E _ t0 w4 ST4 T).
  destruct (shutdown_exits w4) as (w' & Sh & A' & _).
  rewrite Sh. exists w'. split; [reflexivity |].
  assert (Tk : task (self w4) = task (self w)) by apply A4.
  rewrite Tk in A'.
  split.
  - pose proof (count_iteration_advanced w) as A1.
    destruct (emit_advanced (VisaWriteF ":source:voltage " "" V)
                            (count_iteration w)) as [_ A2].
    pose proof (read_one_advanced
                  (add_events [VisaWriteF ":source:voltage " "" V]
                              (count_iteration w))) as A3.
    pose proof (advanced_trans _ _ _ _ _ _ _ _ _ A1 A2) as B.
    pose proof (advanced_trans _ _ _ _ _ _ _ _ _ B A3) as B'.
    pose proof (advanced_trans _ _ _ _ _ _ _ _ _ B' A4) as B''.
    exact (advanced_trans _ _ _ _ _ _ _ _ _ B'' A').
  - destruct A' as (_ & _ & _ & _ & _).
    destruct (shutdown_same_series w4 w' Sh) as (Lt & _). rewrite Lt. exact L4.
Qed.

Lemma walk_in_trace_log_lines (E : environment) (t0 step : float) (n : nat) :
  forall r0 V,
    filter is_LogLine (walk_in_trace E r0 n V step t0)
    = map (log_line_of E t0) (seq r0 n).
Proof.
  induction n as [| n IH]; intros r0 V; [reflexivity |].
  cbn [walk_in_trace seq map]. rewrite filter_app, IH. reflexivity.
Qed.

Lemma walk_in_trace_set_voltages (E : environment) (t0 step : float) (n : nat) :
  forall r0 V,
    set_voltages (walk_in_trace E r0 n V step t0)
    = map (fun j => V_set_after j V step) (seq 0 n).
Proof.
  induction n as [| n IH]; intros r0 V; [reflexivity |].
  cbn [walk_in_trace seq map]. unfold set_voltages in *.
  rewrite flat_map_app, IH, <- seq_shift, map_map. reflexivity.
Qed.

Lemma walk_in_trace_count (E : environment) (t0 step : float) (n : nat) :
  forall r0 V, count is_LogLine (walk_in_trace E r0 n V step t0) = n.
Proof.
  intros r0 V. unfold count.
  rewrite walk_in_trace_log_lines, length_map, length_seq. reflexivity.
Qed.

(** The complete I/O of a walk-in loop that ends normally. *)
Lemma walk_in_Ok_trace (E : environment) (t0 : float) (fuel : nat) :
  forall (V v i : float) (w w' : world) (p : float * float),
    walk_in E fuel V v i w = Ok p w' ->
    start_time (self w) = Some t0 ->
    exists n,
      advanced w w' (walk_in_trace E (reads w) n V (v_step (self w)) t0) n n /\
      (forall j, (j < n)%nat ->
         py_lt (V_set_after j V (v_step (self w))) (Vmpp (self w)) = true) /\
      py_lt (V_set_after n V (v_step (self w))) (Vmpp (self w)) = false.
Proof.
  induction fuel as [| f IH]; intros V v i w w' p H ST.
  - rewrite walk_in_unfold in H.
    destruct (py_lt V (Vmpp (self w))) eqn:C; [discriminate H |].
    injection H as _ <-. exists O.
    split; [apply advanced_refl |]. split; [intros j Hj; lia | exact C].
  - destruct (py_lt V (Vmpp (self w))) eqn:C.
    + apply walk_in_S_Ok_inv in H; trivial.
      destruct H as (w1 & t1 & A & ST' & _ & _ & _ & H).
      assert (t1 = t0) as -> by congruence.
      pose proof A as (S1 & V1 & T1 & R1 & I1).
      assert (Hs : v_step (self w1) = v_step (self w)) by apply S1.
      assert (ST1 : start_time (self w1) = Some t0).
      { destruct S1 as (_ & _ & S & _). rewrite S. exact ST. }
      apply IH in H as (n & A' & Lt & Ge); trivial.
      rewrite Hs, V1 in Lt, Ge. rewrite Hs, R1 in A'.
      replace (reads w + 1)%nat with (S (reads w)) in A' by lia.
      exists (S n). split; [| split].
      * exact (advanced_trans _ _ _ _ _ 1%nat n 1%nat n A A').
      * intros [| j] Hj; [exact C |]. cbn [V_set_after]. apply Lt. lia.
      * exact Ge.
    + rewrite walk_in_unfold, C in H. injection H as _ <-. exists O.
      split; [apply advanced_refl |]. split; [intros j Hj; lia | exact C].
Qed.

(** The log of a completed walk-in holds one line per cycle, in order: the
    time since [start_time], the voltage and the current of the reading
    taken in that cycle. *)
Theorem walk_in_log_records_readings (E : environment) (fuel : nat)
        (V v i t0 : float) (w w' : world) (p : float * float) :
  walk_in E fuel V v i w = Ok p w' ->
  start_time (self w) = Some t0 ->
  filter is_LogLine (trace w')
  = filter is_LogLine (trace w)
    ++ map (log_line_of E t0) (seq (reads w) (iterations w' - iterations w)).
Proof.
  intros H ST.
  destruct (walk_in_Ok_trace E t0 fuel V v i w w' p H ST)
    as (n & (_ & _ & T & _ & I) & _).
  rewrite T, I, filter_app, walk_in_trace_log_lines.
  replace (iterations w + n - iterations w)%nat with n by lia. reflexivity.
Qed.

Lemma walk_in_log_records_readings_example :
  filter is_LogLine
    (trace (final_world (walk_in steady 5 0 0 0 (walking 0.25 0.1))))
  = [] ++ map (log_line_of steady 0) (seq 1 (3 - 0)).
Proof.
  apply (walk_in_log_records_readings steady 5 0 0 0 0 (walking 0.25 0.1)
           (final_world (walk_in steady 5 0 0 0 (walking 0.25 0.1)))
           (0.5, -0.01)).
  - vm_compute. reflexivity.
  - reflexivity.
Defined.

(** The voltages that a completed walk-in has set are, in order, the
    binary64 sums of 0, 1, 2, ... steps from its first [V_set], and each of
    them is below [Vmpp]. *)
Theorem walk_in_sets_voltages_below_Vmpp (E : environment) (fuel : nat)
        (V v i t0 : float) (w w' : world) (p : float * float) :
  walk_in E fuel V v i w = Ok p w' ->
  start_time (self w) = Some t0 ->
  let n := (iterations w' - iterations w)%nat in
  set_voltages (trace w')
  = set_voltages (trace w)
    ++ map (fun j => V_set_after j V (v_step (self w))) (seq 0 n) /\
  forall j, (j < n)%nat ->
            py_lt (V_set_after j V (v_step (self w))) (Vmpp (self w)) = true.
Proof.
  intros H ST. cbv zeta.
  destruct (walk_in_Ok_trace E t0 fuel V v i w w' p H ST)
    as (n & (_ & _ & T & _ & I) & Lt & _).
  rewrite I. replace (iterations w + n - iterations w)%nat with n by lia.
  split; [| exact Lt].
  rewrite T. unfold set_voltages. rewrite flat_map_app.
  f_equal. apply walk_in_trace_set_voltages.
Qed.

Lemma walk_in_sets_voltages_below_Vmpp_example :
  set_voltages (trace (final_world (walk_in steady 5 0 0 0 (walking 0.25 0.1))))
  = [] ++ map (fun j => V_set_after j 0 0.1) (seq 0 (3 - 0)).
Proof.
  apply (walk_in_sets_voltages_below_Vmpp steady 5 0 0 0 0 (walking 0.25 0.1)
           (final_world (walk_in steady 5 0 0 0 (walking 0.25 0.1)))
           (0.5, -0.01)).
  - vm_compute. reflexivity.
  - reflexivity.
Defined.

(** The walk-in ends at the first reading whose time stamp is more than
    [total_tracking_time] after [start_time]: the [k] cycles before it are
    logged, the late cycle is plotted but not logged, then [shutdown] runs
    and the process exits with status 0. *)
Theorem walk_in_ends_at_first_late_reading (E : environment)
        (fuel k : nat) (v i t0 : float) (w : world) :
  (device_area E =? 0) = false ->
  start_time (self w) = Some t0 ->
  (forall j, (j <= k)%nat -> sigint E <> Some (iterations w + j)%nat) ->
  (forall j, (j < k)%nat ->
     py_gt (rd_t (read_reply E (reads w + j)) - t0) (total_tracking_time E)
     = false) ->
  py_gt (rd_t (read_reply E (reads w + k)) - t0) (total_tracking_time E) = true ->
  (forall j, (j <= k)%nat ->
     py_lt (V_set_after j 0 (v_step (self w))) (Vmpp (self w)) = true) ->
  (k < fuel)%nat ->
  exists w',
    walk_in E fuel 0 v i w = Raise (SystemExit 0) w' /\
    trace w'
    = trace w
      ++ walk_in_trace E (reads w) k 0 (v_step (self w)) t0
      ++ [VisaWriteF ":source:voltage " "" (V_set_after k 0 (v_step (self w)));
          VisaQuery "READ?"; PlotDraw]
      ++ shutdown_events (task (self w)) /\
    log_lines w' = (log_lines w + k)%nat /\
    iterations w' = (iterations w + S k)%nat /\
    Vmpp (self w') = Vmpp (self w).
Proof.
  intros DA ST NS NT T Lt Fu.
  replace fuel with (k + S (fuel - S k))%nat by lia.
  destruct (walk_in_prefix E t0 DA k (S (fuel - S k)) 0 v i w ST)
    as (wk & R & (Sk & Vk & Tk & Rk & Ik)); auto.
  { intros j Hj. apply NS. lia. }
  { intros j Hj. apply Lt. lia. }
  rewrite R.
  assert (Hs : v_step (self wk) = v_step (self w)) by apply Sk.
  assert (Ht : task (self wk) = task (self w)) by apply Sk.
  destruct (walk_in_late_cycle E (fuel - S k)
              (V_set_after k 0 (v_step (self w)))
              (fst (walk_in_locals E w k v i)) (snd (walk_in_locals E w k v i))
              t0 wk)
    as (w' & R' & (S' & V' & T' & R'' & I') & _).
  - rewrite Vk. apply Lt. lia.
  - destruct Sk as (_ & _ & S & _). rewrite S. exact ST.
  - rewrite Ik. apply NS. lia.
  - rewrite Rk. exact T.
  - exact DA.
  - exists w'. split; [exact R' |].
    split; [rewrite T', Tk, Ht, <- !app_assoc; reflexivity |].
    split.
    { unfold log_lines. rewrite T', Tk, !count_app, walk_in_trace_count.
      destruct (task (self wk)); cbn; lia. }
    split; [lia | congruence].
Qed.

(** The lit cell with one Volt to walk and a limit of 2 s: readings 1 and 2
    are in time, reading 3 is late. *)
Lemma walk_in_ends_at_first_late_reading_example :
  exists w',
    walk_in (with_tracking_time 2 lit_cell) 20 0 0 0 (walking 1 0.25)
    = Raise (SystemExit 0) w' /\
    log_lines w' = 2%nat /\
    iterations w' = 3%nat.
Proof.
  destruct (walk_in_ends_at_first_late_reading (with_tracking_time 2 lit_cell)
              20 2 0 0 0 (walking 1 0.25))
    as (w' & R & _ & L & I & _).
  - reflexivity.
  - reflexivity.
  - intros j _. discriminate.
  - intros j Hj. do 2 (destruct j as [| j]; [vm_compute; reflexivity |]). lia.
  - vm_compute. reflexivity.
  - intros j Hj. do 3 (destruct j as [| j]; [vm_compute; reflexivity |]). lia.
  - lia.
  - exists w'. split; [exact R |]. split; [exact L | exact I].
Defined.

Lemma V_set_after_zero_step (n : nat) : V_set_after n 0 0 = 0.
Proof.
  induction n as [| n IH]; [reflexivity |].
  cbn [V_set_after]. exact IH.
Qed.

(** With a step of zero and a positive [Vmpp] the walk-in never ends by
    itself: as long as no reading is late and no Ctrl-C arrives it is still
    in the loop after any number of cycles. *)
Theorem zero_step_walk_in_never_ends (E : environment) (v i t0 : float)
        (w : world) (fuel : nat) :
  (device_area E =? 0) = false ->
  start_time (self w) = Some t0 ->
  sigint E = None ->
  (forall j,
     py_gt (rd_t (read_reply E (reads w + j)) - t0) (total_tracking_time E)
     = false) ->
  v_step (self w) = 0 ->
  py_lt 0 (Vmpp (self w)) = true ->
  exists w',
    walk_in E fuel 0 v i w = OutOfFuel w' /\
    iterations w' = (iterations w + fuel)%nat /\
    log_lines w' = (log_lines w + fuel)%nat.
Proof.
  intros DA ST NS NT Z P.
  destruct (walk_in_prefix E t0 DA fuel 0 0 v i w ST)
    as (wk & R & (Sk & Vk & Tk & Rk & Ik)).
  - intros j _. rewrite NS. discriminate.
  - intros j _. apply NT.
  - intros j _. rewrite Z, V_set_after_zero_step. exact P.
  - rewrite Nat.add_0_r in R. rewrite R, walk_in_unfold.
    rewrite Z, V_set_after_zero_step, Vk, P.
    exists wk. split; [reflexivity |]. split; [exact Ik |].
    unfold log_lines. rewrite Tk, count_app, walk_in_trace_count. reflexivity.
Qed.

Lemma zero_step_walk_in_never_ends_example :
  exists w',
    walk_in steady 1000 0 0 0 (walking 0.5 0) = OutOfFuel w' /\
    iterations w' = 1000%nat.
Proof.
  destruct (zero_step_walk_in_never_ends steady 0 0 0 (walking 0.5 0) 1000)
    as (w' & R & I & _).
  - reflexivity.
  - reflexivity.
  - reflexivity.
  - intros j. reflexivity.
  - reflexivity.
  - reflexivity.
  - exists w'. split; [exact R | exact I].
Defined.

(** ** More on the order of binary64 numbers *)

Module FloatStrict.

Lemma ltb_irrefl (x : float) : (x <? x) = false.
Proof.
  rewrite FloatAxioms.ltb_spec. unfold SFltb, SFcompare.
  destruct (Prim2SF x) as [[|] | [|] | | [|] m e]; try reflexivity;
    rewrite Z.compare_refl;
    change (Pos.compare_cont Eq m m) with (Pos.compare m m);
    rewrite Pos.compare_refl; reflexivity.
Qed.

(** An absolute value is never below zero. *)
Lemma abs_not_negative (x : float) : (abs x <? 0) = false.
Proof.
  rewrite FloatAxioms.ltb_spec, FloatAxioms.abs_spec.
  replace (Prim2SF 0) with (S754_zero false) by reflexivity.
  unfold SFltb, SFcompare, SFabs.
  destruct (Prim2SF x) as [[|] | [|] | | [|] m e]; reflexivity.
Qed.

Lemma is_nan_true (x : float) : is_nan x = true -> Prim2SF x = S754_nan.
Proof. intros H. unfold Prim2SF. rewrite H. reflexivity. Qed.

Lemma nan_leb (x y : float) : is_nan x = true -> (x <=? y) = false.
Proof.
  intros H. rewrite FloatAxioms.leb_spec, (is_nan_true x H). reflexivity.
Qed.

Lemma SFltb_rank (a b : spec_float) :
  a <> S754_nan -> b <> S754_nan ->
  (SFltb a b = true <-> ~ lex_le (SFrank b) (SFrank a)).
Proof.
  intros Ha Hb. unfold SFltb, SFcompare.
  destruct a as [sa | sa | | sa ma ea]; try congruence;
  destruct b as [sb | sb | | sb mb eb]; try congruence;
  try destruct sa; try destruct sb; cbn [SFrank lex_le];
  try (split; [intros _; lia | reflexivity]);
  try (split; [discriminate | lia]).
  - change (Pos.compare_cont Eq ma mb) with (Pos.compare ma mb).
    destruct (Z.compare_spec ea eb); destruct (Pos.compare_spec ma mb);
      cbn; split; intros; try discriminate; try reflexivity; try lia.
  - change (Pos.compare_cont Eq ma mb) with (Pos.compare ma mb).
    destruct (Z.compare_spec ea eb); destruct (Pos.compare_spec ma mb);
      cbn; split; intros; try discriminate; try reflexivity; try lia.
Qed.

(** Among numbers that are not NaN, [x <= y] fails exactly when [y < x]. *)
Lemma not_leb_ltb (x y : float) :
  is_nan x = false -> is_nan y = false ->
  (x <=? y) = false -> (y <? x) = true.
Proof.
  intros Hx Hy H.
  apply FloatOrder.is_nan_false in Hx. apply FloatOrder.is_nan_false in Hy.
  rewrite FloatAxioms.ltb_spec. apply SFltb_rank; trivial.
  intros L. apply FloatOrder.SFleb_rank in L; trivial.
  rewrite FloatAxioms.leb_spec in H. congruence.
Qed.

Lemma leb_ltb_trans (x y z : float) :
  (x <=? y) = true -> (y <? z) = true -> (x <? z) = true.
Proof.
  intros Hxy Hyz.
  destruct (FloatOrder.leb_true_not_nan _ _ Hxy) as [Hx Hy].
  assert (Hz : Prim2SF z <> S754_nan).
  { rewrite FloatAxioms.ltb_spec in Hyz. unfold SFltb, SFcompare in Hyz.
    intros N. rewrite N in Hyz. destruct (Prim2SF y); discriminate Hyz. }
  rewrite FloatAxioms.leb_spec in Hxy. rewrite FloatAxioms.ltb_spec in Hyz.
  rewrite FloatAxioms.ltb_spec.
  apply FloatOrder.SFleb_rank in Hxy; trivial.
  apply SFltb_rank in Hyz; trivial.
  apply SFltb_rank; trivial.
  intros L. apply Hyz.
  apply FloatOrder.lex_le_trans with (SFrank (Prim2SF x)); assumption.
Qed.

End FloatStrict.

(** ** The direction of the perturbation *)

Lemma track_state_direction (E : environment) (k : nat) :
  forall r0 s,
    (pno_direction s = 1 \/ pno_direction s = -1)%Z ->
    (pno_direction (track_state E r0 k s) = 1 \/
     pno_direction (track_state E r0 k s) = -1)%Z.
Proof.
  induction k as [| k IH]; intros r0 s H; [exact H |].
  cbn [track_state]. apply IH.
  unfold perturb_and_observe. destruct (py_gt _ _); cbn; lia.
Qed.

(** On a flat power curve every cycle reverses the direction. *)
Lemma track_state_flat (E : environment) (k : nat) :
  forall (r0 : nat) (vmpp step pp : float) (d : Z),
    (forall j, (j < k)%nat ->
       abs (rd_v (read_reply E (r0 + j)) * rd_i (read_reply E (r0 + j))) = pp) ->
    track_state E r0 k (mk_pno vmpp step d pp)
    = mk_pno (zigzag k vmpp step d) step
             (if Nat.even k then d else (- d)%Z) pp.
Proof.
  induction k as [| k IH]; intros r0 vmpp step pp d H; [reflexivity |].
  cbn [track_state zigzag].
  assert (H0 : abs (rd_v (read_reply E r0) * rd_i (read_reply E r0)) = pp).
  { specialize (H O). rewrite Nat.add_0_r in H. apply H. lia. }
  rewrite H0.
  replace (perturb_and_observe pp (mk_pno vmpp step d pp))
    with (mk_pno (vmpp + float_of_int (d * -1) * step) step (d * -1) pp)
    by (unfold perturb_and_observe, py_gt, int_times_float;
        cbn [pno_previous_power pno_direction pno_Vmpp pno_v_step];
        rewrite FloatStrict.ltb_irrefl; reflexivity).
  rewrite IH.
  - f_equal. rewrite Nat.even_succ, <- Nat.negb_even.
    destruct (Nat.even k); cbn [negb]; lia.
  - intros j Hj. replace (S r0 + j)%nat with (r0 + S j)%nat by lia.
    apply H. lia.
Qed.

(** Tracking starts with [direction = 1] and only ever negates it: after
    any number of completed tracking cycles, whatever was read, the loop
    goes on with a [direction] of [+1] or [-1], and [v_step] is still the
    one the sweep gave. *)
Theorem direction_is_plus_or_minus_one (E : environment) (k : nat)
        (v i t0 : float) (w : world) :
  (device_area E =? 0) = false ->
  start_time (self w) = Some t0 ->
  (forall j, (j < k)%nat -> sigint E <> Some (iterations w + j)%nat) ->
  (forall j, (j < k)%nat ->
     py_gt (rd_t (read_reply E (reads w + j)) - t0) (total_tracking_time E)
     = false) ->
  exists (direction : Z) (previous_power : float) (wk : world),
    (direction = 1 \/ direction = -1)%Z /\
    v_step (self wk) = v_step (self w) /\
    iterations wk = (iterations w + k)%nat /\
    forall f,
      track_from E (k + f) v i w
      = try_except_KeyboardInterrupt
          (track_loop E f direction previous_power) shutdown wk.
Proof.
  intros DA ST NS NT.
  destruct (track_loop_runs E t0 DA k 1 (abs (v * i)) w ST NS NT)
    as (wk & es & L & Sk & _ & _ & _ & _ & _ & Ik).
  set (sk := track_state _ _ _ _) in *.
  exists (pno_direction sk), (pno_previous_power sk), wk.
  split; [apply track_state_direction; left; reflexivity |].
  split; [apply Sk |]. split; [exact Ik |].
  intros f. unfold track_from, try_except_KeyboardInterrupt.
  rewrite L. reflexivity.
Qed.

(** Three tracking cycles of the lit cell. *)
Lemma direction_is_plus_or_minus_one_example :
  exists (direction : Z) (previous_power : float) (wk : world),
    (direction = 1 \/ direction = -1)%Z /\
    iterations wk = 4%nat /\
    track_from lit_cell 20 0.25 (-0.01) (tracking_start lit_cell 20)
    = try_except_KeyboardInterrupt
        (track_loop lit_cell 17 direction previous_power) shutdown wk.
Proof.
  destruct (direction_is_plus_or_minus_one lit_cell 3 0.25 (-0.01) 0
              (tracking_start lit_cell 20))
    as (d & pp & wk & Hd & _ & Hi & L).
  - reflexivity.
  - vm_compute. reflexivity.
  - intros j _. discriminate.
  - intros j Hj. do 3 (destruct j as [| j]; [vm_compute; reflexivity |]). lia.
  - exists d, pp, wk. split; [exact Hd |].
    split; [rewrite Hi; vm_compute; reflexivity |].
    exact (L 17%nat).
Defined.

(** On a flat power curve the tracker hunts: while every power read equals
    the power the loop started from, [direction] is negated in every
    cycle, so after [k] cycles the loop goes on with [direction = 1] for
    even [k] and [-1] for odd [k], the same [previous_power], and a [Vmpp]
    that went down and up by one step in turn. *)
Theorem flat_power_alternates_direction (E : environment) (k : nat)
        (v i t0 : float) (w : world) :
  (device_area E =? 0) = false ->
  start_time (self w) = Some t0 ->
  (forall j, (j < k)%nat -> sigint E <> Some (iterations w + j)%nat) ->
  (forall j, (j < k)%nat ->
     py_gt (rd_t (read_reply E (reads w + j)) - t0) (total_tracking_time E)
     = false) ->
  (forall j, (j < k)%nat ->
     abs (rd_v (read_reply E (reads w + j)) * rd_i (read_reply E (reads w + j)))
     = abs (v * i)) ->
  exists wk,
    Vmpp (self wk) = zigzag k (Vmpp (self w)) (v_step (self w)) 1 /\
    iterations wk = (iterations w + k)%nat /\
    forall f,
      track_from E (k + f) v i w
      = try_except_KeyboardInterrupt
          (track_loop E f (if Nat.even k then 1 else -1)%Z (abs (v * i)))
          shutdown wk.
Proof.
  intros DA ST NS NT Flat.
  destruct (track_loop_runs E t0 DA k 1 (abs (v * i)) w ST NS NT)
    as (wk & es & L & _ & Vk & _ & _ & _ & _ & Ik).
  rewrite (track_state_flat E k (reads w) _ _ _ _ Flat) in L, Vk.
  cbn [pno_direction pno_previous_power pno_Vmpp] in L, Vk.
  exists wk. split; [exact Vk |]. split; [exact Ik |].
  intros f. unfold track_from, try_except_KeyboardInterrupt.
  rewrite L. reflexivity.
Qed.

(** The lit cell reads the same power in every cycle: after three tracking
    cycles [Vmpp] has gone from 0.25 to 0, to 0.25 and to 0 again, and the
    fourth cycle starts in the direction -1. *)
Lemma flat_power_alternates_direction_example :
  exists wk,
    Vmpp (self wk) = 0 /\
    iterations wk = 4%nat /\
    track_from lit_cell 20 0.25 (-0.01) (tracking_start lit_cell 20)
    = try_except_KeyboardInterrupt
        (track_loop lit_cell 17 (-1) (abs (0.25 * -0.01))) shutdown wk.
Proof.
  destruct (flat_power_alternates_direction lit_cell 3 0.25 (-0.01) 0
              (tracking_start lit_cell 20))
    as (wk & V & Hi & L).
  - reflexivity.
  - vm_compute. reflexivity.
  - intros j _. discriminate.
  - intros j Hj. do 3 (destruct j as [| j]; [vm_compute; reflexivity |]). lia.
  - intros j Hj. do 3 (destruct j as [| j]; [vm_compute; reflexivity |]). lia.
  - exists wk. split; [rewrite V; vm_compute; reflexivity |].
    split; [rewrite Hi; vm_compute; reflexivity |].
    exact (L 17%nat).
Defined.

(** ** The plotted series *)

(** A call of [update_plot] that completes adds one sample to each of the
    four series, so series of equal length stay so; the current density
    and the efficiency it adds are [|i*1000/area|] and [|v*(i*1000/area)|],
    never below zero whatever the sign of the current. *)
Theorem update_plot_adds_one_sample (E : environment) (v i tx : float)
        (w w' : world) :
  update_plot E v i tx w = Ok tt w' ->
  (series_aligned w -> series_aligned w') /\
  List.length (t_data (self w')) = S (List.length (t_data (self w))) /\
  v_data (self w') = v_data (self w) ++ [v] /\
  i_data (self w') = i_data (self w) ++ [abs (i * 1000 / device_area E)] /\
  efficiencies (self w')
  = efficiencies (self w) ++ [abs (v * (i * 1000 / device_area E))] /\
  (abs (i * 1000 / device_area E) <? 0) = false /\
  (abs (v * (i * 1000 / device_area E)) <? 0) = false.
Proof.
  unfold update_plot, py_div, emit, modify, bind, get, ret, raise.
  destruct (start_time (self w)) as [t0 |]; [| intros H; discriminate H].
  destruct (device_area E =? 0); cbn; intros H; [discriminate H |].
  injection H as <-. cbn.
  split.
  { unfold series_aligned. cbn. rewrite !length_app. cbn. lia. }
  split; [rewrite length_app; cbn; lia |].
  repeat (split; [reflexivity |]).
  split; apply FloatStrict.abs_not_negative.
Qed.

Lemma update_plot_adds_one_sample_example :
  i_data (self (final_world (update_plot lit_cell 0.5 (-0.01) 1 (walking 1 0.25))))
  = [] ++ [abs (-0.01 * 1000 / 1.0)] /\
  efficiencies
    (self (final_world (update_plot lit_cell 0.5 (-0.01) 1 (walking 1 0.25))))
  = [] ++ [abs (0.5 * (-0.01 * 1000 / 1.0))].
Proof.
  destruct (update_plot_adds_one_sample lit_cell 0.5 (-0.01) 1 (walking 1 0.25)
              (final_world (update_plot lit_cell 0.5 (-0.01) 1 (walking 1 0.25))))
    as (_ & _ & _ & I & F & _).
  - vm_compute. reflexivity.
  - split; [exact I | exact F].
Defined.

(** ** A device area of zero *)

(** A quotient by zero is an infinity or NaN in binary64, and so is what
    line 269 makes of it. *)
Lemma zero_area_limit_not_finite (x a : float) :
  (a =? 0) = true -> is_finite (abs (x * 1000 / a) * 1.1) = false.
Proof.
  intros Z.
  assert (Hz : exists s, Prim2SF a = S754_zero s).
  { rewrite FloatAxioms.eqb_spec in Z.
    replace (Prim2SF 0) with (S754_zero false) in Z by reflexivity.
    unfold SFeqb, SFcompare in Z.
    destruct (Prim2SF a) as [s | [|] | | [|] m e]; try discriminate Z.
    exists s. reflexivity. }
  destruct Hz as [s Hz].
  set (y := abs (x * 1000 / a) * 1.1).
  assert (Hy : Prim2SF y = S754_nan \/ Prim2SF y = S754_infinity false).
  { unfold y.
    rewrite FloatAxioms.mul_spec, FloatAxioms.abs_spec, FloatAxioms.div_spec, Hz.
    replace (Prim2SF 1.1) with (S754_finite false 4953959590107546 (-52))
      by reflexivity.
    destruct (Prim2SF (x * 1000)) as [? | ? | | ? ? ?]; cbn; auto. }
  unfold is_finite, is_nan, is_infinity.
  rewrite !FloatAxioms.eqb_spec, FloatAxioms.abs_spec.
  replace (Prim2SF infinity) with (S754_infinity false) by reflexivity.
  destruct Hy as [-> | ->]; reflexivity.
Qed.

(** With a device area of zero the session ends right after the sweep:
    [initialise_interactive_plot] raises ValueError when it sets the limit
    of the current-density axis, before the reading that gives
    [start_time].  No cycle of the walk-in or of the tracking loop runs,
    nothing catches the exception and [shutdown] does not run: the source
    output stays on and the shutter as it was. *)
Theorem zero_area_raises_ValueError (E : environment) (fuel : nat)
        (w w0 : world) :
  (device_area E =? 0) = true ->
  is_finite (total_tracking_time E) = true ->
  determine_initial_Vmpp E w = Ok tt w0 ->
  exists w',
    track_maximum_power_point E fuel w = Raise ValueError w' /\
    trace w'
    = trace w0 ++ [Console "Walking back to the initial Vmpp..."; PlotInit] /\
    self w' = self w0 /\
    reads w' = reads w /\ iterations w' = iterations w /\
    output_on (trace w') = true /\
    shutter_line (trace w') = shutter_line (trace w).
Proof.
  intros Z FT D.
  destruct (determine_initial_Vmpp_Ok_inv E w w0 D)
    as (isc & idx & vmpp & es & AS & SLF & _ & _ & HVoc & _ & _ & _ & R0 & I0
        & T0 & On & _ & _ & SL & _).
  assert (FV : is_finite (Voc (self w0)) = true).
  { rewrite HVoc. unfold sweep_limits_finite in SLF. rewrite AS in SLF.
    destruct (sweep_power (sweep_reply E)); [discriminate SLF |].
    apply andb_prop in SLF as [SLF _]. apply andb_prop in SLF as [SLF _].
    exact SLF. }
  unfold track_maximum_power_point, walk_back_to_Vmpp, write_to_console.
  rewrite !bind_assoc, (bind_Ok _ _ _ _ _ D).
  rewrite bind_assoc.
  rewrite (bind_Ok _ _ _ (add_events
             [Console "Walking back to the initial Vmpp..."] w0) tt)
    by reflexivity.
  rewrite bind_assoc.
  rewrite (bind_Raise _ _ _ _ _
             (initialise_interactive_plot_Raise E
                (add_events [Console "Walking back to the initial Vmpp..."] w0)
                FT FV (zero_area_limit_not_finite _ _ Z))).
  eexists. split; [reflexivity |].
  cbn [trace self reads iterations add_events].
  split; [rewrite <- app_assoc; reflexivity |].
  split; [reflexivity |]. split; [exact R0 |]. split; [exact I0 |].
  rewrite T0. split.
  - rewrite <- app_assoc, output_on_app, On. reflexivity.
  - rewrite <- app_assoc, shutter_line_app, SL. reflexivity.
Qed.

(** The lit cell with an area of zero: the run ends with status 1 after
    the sweep, without a single reading. *)
Lemma zero_area_raises_ValueError_example :
  exists w',
    track_maximum_power_point (with_device_area 0 lit_cell) 20
      (final_world (init (with_device_area 0 lit_cell) initial_world))
    = Raise ValueError w' /\
    reads w' = O /\
    output_on (trace w') = true /\
    shutter_line (trace w') = Some false.
Proof.
  destruct (zero_area_raises_ValueError (with_device_area 0 lit_cell) 20
              (final_world (init (with_device_area 0 lit_cell) initial_world))
              (final_world
                 (determine_initial_Vmpp (with_device_area 0 lit_cell)
                    (final_world
                       (init (with_device_area 0 lit_cell) initial_world)))))
    as (w' & R & _ & _ & Rd & _ & O & S).
  - reflexivity.
  - reflexivity.
  - vm_compute. reflexivity.
  - exists w'. split; [exact R |]. split; [exact Rd |].
    split; [exact O |]. rewrite S. vm_compute. reflexivity.
Defined.

(** ** Ties and NaN in the sweep *)

Lemma argmax_scan_first (l : list float) :
  forall (pre : list float) (mp : float) (best : nat),
    (forall x, In x l -> is_nan x = false) ->
    is_nan mp = false ->
    (best < List.length pre)%nat ->
    nth best pre 0 = mp ->
    (forall j, (j < best)%nat -> (nth j pre 0 <? mp) = true) ->
    (forall j, (j < List.length pre)%nat -> (nth j pre 0 <=? mp) = true) ->
    let r := argmax_scan mp best (List.length pre) l in
    forall j, (j < r)%nat -> (nth j (pre ++ l) 0 <? nth r (pre ++ l) 0) = true.
Proof.
  induction l as [| x rest IH]; intros pre mp best NN Nmp Hb Hmp Hlt Hle;
    cbv zeta.
  - cbn [argmax_scan]. rewrite app_nil_r. intros j Hj.
    rewrite Hmp. apply Hlt, Hj.
  - cbn [argmax_scan].
    assert (Nx : is_nan x = false) by (apply NN; left; reflexivity).
    assert (Len : List.length (pre ++ [x]) = S (List.length pre))
      by (rewrite length_app; cbn; lia).
    replace (pre ++ x :: rest) with ((pre ++ [x]) ++ rest)
      by (rewrite <- app_assoc; reflexivity).
    destruct (x <=? mp) eqn:Le; cbn [negb].
    + rewrite <- Len. apply IH.
      * intros y Hy. apply NN. right. exact Hy.
      * exact Nmp.
      * rewrite Len. lia.
      * rewrite app_nth1 by exact Hb. exact Hmp.
      * intros j Hj. rewrite app_nth1 by lia. apply Hlt, Hj.
      * intros j Hj. rewrite Len in Hj.
        destruct (Nat.eq_dec j (List.length pre)) as [-> | Ne].
        -- rewrite nth_middle. exact Le.
        -- rewrite app_nth1 by lia. apply Hle. lia.
    + rewrite Nx. rewrite <- Len. apply IH.
      * intros y Hy. apply NN. right. exact Hy.
      * exact Nx.
      * rewrite ?Len. lia.
      * rewrite ?Len. apply nth_middle.
      * intros j Hj. rewrite ?Len in Hj. rewrite app_nth1 by lia.
        apply FloatStrict.leb_ltb_trans with mp; [apply Hle; lia |].
        apply FloatStrict.not_leb_ltb; assumption.
      * intros j Hj. rewrite Len in Hj.
        destruct (Nat.eq_dec j (List.length pre)) as [-> | Ne].
        -- rewrite nth_middle. apply FloatOrder.leb_refl, Nx.
        -- rewrite app_nth1 by lia.
           apply FloatOrder.leb_trans with mp; [apply Hle; lia |].
           apply FloatOrder.leb_total; assumption.
Qed.

(** Of several samples with the greatest power the sweep keeps the first,
    the one at the highest swept voltage: every sample before
    [maxPowerIndex] has strictly less power. *)
Theorem sweep_keeps_first_maximum (jv : list reading)
        (isc vmpp : float) (idx : nat) :
  (forall r, In r jv -> is_nan (abs (rd_v r * rd_i r)) = false) ->
  analyse_sweep jv = Some (isc, idx, vmpp) ->
  forall j, (j < idx)%nat ->
            (nth j (sweep_power jv) 0 <? nth idx (sweep_power jv) 0) = true.
Proof.
  intros NN AS.
  unfold analyse_sweep in AS. destruct jv as [| r0 rest]; [discriminate AS |].
  destruct (np_argmax (sweep_power (r0 :: rest))) as [r |] eqn:AM;
    [| discriminate AS].
  assert (idx = r) as -> by congruence. clear AS.
  unfold np_argmax, sweep_power in AM. cbn [map] in AM.
  assert (N0 : is_nan (abs (rd_v r0 * rd_i r0)) = false)
    by (apply NN; left; reflexivity).
  rewrite N0 in AM. injection AM as <-.
  unfold sweep_power. cbn [map].
  apply (argmax_scan_first (map (fun r => abs (rd_v r * rd_i r)) rest)
           [abs (rd_v r0 * rd_i r0)] (abs (rd_v r0 * rd_i r0)) O).
  - intros x Hx. apply in_map_iff in Hx as (rd & <- & Hrd).
    apply NN. right. exact Hrd.
  - exact N0.
  - cbn. lia.
  - reflexivity.
  - intros j Hj. lia.
  - intros j Hj. cbn in Hj. assert (j = O) as -> by lia. cbn.
    apply FloatOrder.leb_refl, N0.
Qed.

(** Two samples share the greatest power: the earlier one is kept. *)
Lemma sweep_keeps_first_maximum_example :
  analyse_sweep [(0.5, 0, 0); (0.4, -0.01, 0.1); (0.2, -0.02, 0.2); (0, -0.02, 0.3)]
  = Some (-0.02, 1%nat, 0.4) /\
  forall j, (j < 1)%nat ->
    (nth j (sweep_power [(0.5, 0, 0); (0.4, -0.01, 0.1); (0.2, -0.02, 0.2);
                         (0, -0.02, 0.3)]) 0
     <? nth 1 (sweep_power [(0.5, 0, 0); (0.4, -0.01, 0.1); (0.2, -0.02, 0.2);
                            (0, -0.02, 0.3)]) 0) = true.
Proof.
  split; [vm_compute; reflexivity |].
  apply (sweep_keeps_first_maximum _ (-0.02) 0.4 1).
  - intros r [<- | [<- | [<- | [<- | []]]]]; reflexivity.
  - vm_compute. reflexivity.
Defined.

Lemma argmax_scan_nan (pre : list float) :
  forall (x : float) (post : list float) (mp : float) (best k : nat),
    (forall y, In y pre -> is_nan y = false) ->
    is_nan x = true ->
    argmax_scan mp best k (pre ++ x :: post) = (k + List.length pre)%nat.
Proof.
  induction pre as [| y pre IH]; intros x post mp best k NN Nx;
    cbn [app argmax_scan List.length].
  - rewrite (FloatStrict.nan_leb x mp Nx), Nx. cbn. lia.
  - assert (Ny : is_nan y = false) by (apply NN; left; reflexivity).
    destruct (negb (y <=? mp)).
    + rewrite Ny, IH; [lia | | exact Nx].
      intros z Hz. apply NN. right. exact Hz.
    + rewrite IH; [lia | | exact Nx].
      intros z Hz. apply NN. right. exact Hz.
Qed.

(** A sample whose power is NaN takes the sweep over: [maxPowerIndex] is
    the index of the first such sample and [Vmpp] its voltage, whatever the
    other powers are. *)
Theorem nan_power_becomes_maximum (pre post : list reading) (r : reading) :
  (forall q, In q pre -> is_nan (abs (rd_v q * rd_i q)) = false) ->
  is_nan (abs (rd_v r * rd_i r)) = true ->
  exists isc,
    analyse_sweep (pre ++ r :: post) = Some (isc, List.length pre, rd_v r).
Proof.
  intros NN Nr. unfold analyse_sweep.
  destruct (pre ++ r :: post) as [| r0 rest] eqn:L;
    [destruct pre; discriminate L |].
  rewrite <- L. clear rest L.
  assert (AM : np_argmax (sweep_power (pre ++ r :: post))
               = Some (List.length pre)).
  { unfold sweep_power. rewrite map_app. cbn [map].
    destruct pre as [| q pre]; cbn [map app np_argmax List.length].
    - rewrite Nr. reflexivity.
    - rewrite (NN q) by (left; reflexivity). f_equal.
      rewrite (argmax_scan_nan (map (fun r => abs (rd_v r * rd_i r)) pre)).
      + rewrite length_map. reflexivity.
      + intros y Hy. apply in_map_iff in Hy as (rd & <- & Hrd).
        apply NN. right. exact Hrd.
      + exact Nr. }
  rewrite AM. eexists. f_equal. f_equal.
  rewrite map_app. cbn [map].
  rewrite app_nth2 by (rewrite length_map; lia).
  rewrite length_map, Nat.sub_diag. reflexivity.
Qed.

Lemma nan_power_becomes_maximum_example :
  exists isc,
    analyse_sweep ([(0.5, -0.03, 0)] ++ (0.25, nan, 0.1) :: [(0, -0.02, 0.2)])
    = Some (isc, 1%nat, 0.25).
Proof.
  apply (nan_power_becomes_maximum [(0.5, -0.03, 0)] [(0, -0.02, 0.2)]
           (0.25, nan, 0.1)).
  - intros q [<- | []]. reflexivity.
  - reflexivity.
Defined.
